(** * KubeFleet hub agent: namespace-affinity plugin, update-run metrics and
      hub-agent options, embedded shallowly and checked against their
      specification.

    Layout: first the embedding (one module per Go package), then the
    predicates and test objects the statements use, then the lemmas, grouped
    by the function they are about. *)

From Stdlib Require Import ZArith Ascii String List Bool Lia.
From Stdlib Require Import Floats.SpecFloat.
From stdpp Require Import base option strings list gmap fin_maps.

Local Open Scope string_scope.
Local Open Scope Z_scope.

(* ===================================================================== *)
(** * Go base types *)
(* ===================================================================== *)

(** Go's [int] and [int64]: mathematical integers here; none of the modelled
    functions does arithmetic on them beyond comparison, except [Time.Sub],
    whose saturation is written out. *)
Abbreviation int := Z (only parsing).
Abbreviation int64 := Z (only parsing).

(** Go's [float64] is IEEE 754 binary64: [spec_float] at precision 53 and
    maximal exponent 1024. *)
Module float64.
Abbreviation t := spec_float (only parsing).
Definition prec : Z := 53.
Definition emax : Z := 1024.

(** The conversion [float64(n)] of an integer (round to nearest even). *)
Definition of_int (n : Z) : t := binary_normalize prec emax n 0 false.
Definition add (x y : t) : t := SFadd prec emax x y.
Definition div (x y : t) : t := SFdiv prec emax x y.
(** [x < y] on floats (false when either is NaN). *)
Definition ltb (x y : t) : bool := SFltb x y.
End float64.

(** Package [time]. A [Duration] is a count of nanoseconds (int64); a [Time]
    is modelled by its wall-clock instant in nanoseconds since the Unix epoch
    (times read from API objects carry no monotonic reading). *)
Module time.
Abbreviation Duration := Z (only parsing).
Abbreviation Time := Z (only parsing).

Definition Nanosecond : Duration := 1.
Definition Microsecond : Duration := 1000 * Nanosecond.
Definition Millisecond : Duration := 1000 * Microsecond.
Definition Second : Duration := 1000 * Millisecond.
Definition Minute : Duration := 60 * Second.
Definition Hour : Duration := 60 * Minute.

Definition minDuration : Duration := - 2 ^ 63.
Definition maxDuration : Duration := 2 ^ 63 - 1.

(** [t.Sub(u)]: the duration t-u; when it does not fit a Duration, the
    minimum or maximum duration is returned. *)
Definition Sub (t u : Time) : Duration :=
  let d := t - u in
  if (minDuration <=? d) && (d <=? maxDuration) then d
  else if t <? u then minDuration
  else maxDuration.

(** [time.Since(t)] is [time.Now().Sub(t)]; the clock reading is an input. *)
Definition Since (now t : Time) : Duration := Sub now t.

(** [d.Seconds()]:
    sec := d / Second; nsec := d % Second;
    float64(sec) + float64(nsec)/1e9  (Go's division truncates). *)
Definition Seconds (d : Duration) : float64.t :=
  let sec := Z.quot d Second in
  let nsec := Z.rem d Second in
  float64.add (float64.of_int sec)
              (float64.div (float64.of_int nsec) (float64.of_int (10 ^ 9))).
End time.

(** [klog]: the lines written to the log, oldest first. *)
Module klog.
Inductive Severity := Info (verbosity : int) | Warning.
Record Entry := { severity : Severity; msg : string }.
Abbreviation Log := (list Entry) (only parsing).
End klog.

(* ===================================================================== *)
(** * k8s.io/apimachinery: conditions *)
(* ===================================================================== *)

Module metav1.
(** [type ConditionStatus string] with its three declared values. *)
Abbreviation ConditionStatus := string (only parsing).
Definition ConditionTrue : ConditionStatus := "True".
Definition ConditionFalse : ConditionStatus := "False".
Definition ConditionUnknown : ConditionStatus := "Unknown".

Record Condition := {
  Type_ : string;
  Status : ConditionStatus;
  ObservedGeneration : int64;
  LastTransitionTime : time.Time;
  Reason : string;
  Message : string
}.

Record ObjectMeta := {
  Name : string;
  Namespace : string;
  Generation : int64
}.
End metav1.

Module meta.
Import metav1.

(** [FindStatusCondition]: a pointer to the first condition of the given
    type, nil when there is none. *)
Fixpoint FindStatusCondition (conditions : list Condition) (conditionType : string)
  : option Condition :=
  match conditions with
  | [] => None
  | c :: rest =>
      if String.eqb (Type_ c) conditionType then Some c
      else FindStatusCondition rest conditionType
  end.
End meta.

(* ===================================================================== *)
(** * pkg/scheduler/framework: Status *)
(* ===================================================================== *)

Module framework.
(** Modelled from the spec: the framework package (the [Status] type, its
    codes and the constructor [NewNonErrorStatus]) is not among the source
    files. Spec 3 and 4.1: a status is
    {code, pluginName, message, cause?} with code one of Success, Skip,
    ClusterUnschedulable, InternalError; a nil status means pass. *)
Inductive StatusCode := Success | Skip | ClusterUnschedulable | InternalError.

(** Modelled from the spec: see [StatusCode]; [cause] is the optional wrapped
    failure of an InternalError status. *)
Record Status := {
  code : StatusCode;
  pluginName : string;
  message : string;
  cause : option string
}.

(** Modelled from the spec: the constructor for non-error outcomes takes
    (code, pluginName, reason) and wraps no cause. *)
Definition NewNonErrorStatus (c : StatusCode) (sourcePlugin reason : string) : Status :=
  {| code := c; pluginName := sourcePlugin; message := reason; cause := None |}.

Definition IsSkip (st : option Status) : bool :=
  match st with
  | Some s => match code s with Skip => true | _ => false end
  | None => false
  end.

Definition IsInternalError (st : option Status) : bool :=
  match st with
  | Some s => match code s with InternalError => true | _ => false end
  | None => false
  end.
End framework.

(* ===================================================================== *)
(** * apis: the objects the plugin and the metrics read *)
(* ===================================================================== *)

Module clusterv1beta1.
(** [Namespaces] is a Go map: [None] is the nil map, [Some m] a non-nil map
    from namespace name to the name of a work object. *)
Record MemberClusterStatus := {
  Conditions : list metav1.Condition;
  Namespaces : option (gmap string string)
}.

Record MemberCluster := {
  ObjectMeta : metav1.ObjectMeta;
  Status : MemberClusterStatus
}.
End clusterv1beta1.

Module placementv1beta1.
(** [PolicySnapshotObj]: the interface implemented by
    ClusterSchedulingPolicySnapshot (no namespace) and
    SchedulingPolicySnapshot; the plugin reads it through [GetNamespace]. *)
Record PolicySnapshotObj := { psObjectMeta : metav1.ObjectMeta }.
Definition GetNamespace (ps : PolicySnapshotObj) : string :=
  metav1.Namespace (psObjectMeta ps).

(** Modelled from the spec: the condition types of an update run and of a
    stage task are constants of the API package, which is not among the
    source files; spec 3 and 4.4 name them Succeeded, Progressing,
    Initialized, ApprovalRequestCreated and ApprovalRequestApproved. *)
Definition StagedUpdateRunConditionInitialized : string := "Initialized".
Definition StagedUpdateRunConditionProgressing : string := "Progressing".
Definition StagedUpdateRunConditionSucceeded : string := "Succeeded".
Definition StageTaskConditionApprovalRequestCreated : string := "ApprovalRequestCreated".
Definition StageTaskConditionApprovalRequestApproved : string := "ApprovalRequestApproved".

(** [UpdateRunObj]: the interface of the staged update runs, read through
    GetNamespace, GetName, GetGeneration, GetUpdateRunSpec and
    GetUpdateRunStatus. [State] is a string type. *)
Record UpdateRunSpec := { State : string }.
Record UpdateRunStatus := { Conditions : list metav1.Condition }.
Record UpdateRunObj := {
  ObjectMeta : metav1.ObjectMeta;
  Spec : UpdateRunSpec;
  Status : UpdateRunStatus
}.
Definition GetName (r : UpdateRunObj) : string := metav1.Name (ObjectMeta r).
Definition GetRunNamespace (r : UpdateRunObj) : string := metav1.Namespace (ObjectMeta r).
Definition GetGeneration (r : UpdateRunObj) : int64 := metav1.Generation (ObjectMeta r).
Definition GetUpdateRunSpec (r : UpdateRunObj) : UpdateRunSpec := Spec r.
Definition GetUpdateRunStatus (r : UpdateRunObj) : UpdateRunStatus := Status r.

Record StageTaskStatus := { TaskConditions : list metav1.Condition }.

(** [StartTime] is a pointer: [None] is nil. *)
Record StageUpdatingStatus := { StartTime : option time.Time }.
End placementv1beta1.

(* ===================================================================== *)
(** * pkg/scheduler/framework/plugins/namespaceaffinity *)
(* ===================================================================== *)

Module namespaceaffinity.
Import framework.

(** The plugin; its framework handle plays no part in PreFilter or Filter. *)
Record Plugin := { name : string }.

Record namespaceAffinityPluginOptions := { optName : string }.
Definition Option := namespaceAffinityPluginOptions -> namespaceAffinityPluginOptions.

Definition defaultPluginOptions : namespaceAffinityPluginOptions :=
  {| optName := "NamespaceAffinity" |}.

Definition WithName (n : string) : Option := fun _ => {| optName := n |}.

Definition New (opts : list Option) : Plugin :=
  let options := fold_left (fun o opt => opt o) opts defaultPluginOptions in
  {| name := optName options |}.

Definition Name (p : Plugin) : string := name p.

Definition PreFilter (p : Plugin) (ps : placementv1beta1.PolicySnapshotObj)
  : option Status :=
  let nsName := placementv1beta1.GetNamespace ps in
  if String.eqb nsName "" then
    Some (NewNonErrorStatus Skip (Name p)
            "cluster-scoped placement does not require namespace affinity filtering")
  else None.

Section Filter.
(** [propertyprovider.NamespaceCollectionSucceededCondType]: a constant of
    a package outside the source files, taken as a parameter. *)
Variable NamespaceCollectionSucceededCondType : string.

Definition Filter (p : Plugin) (ps : placementv1beta1.PolicySnapshotObj)
           (cluster : clusterv1beta1.MemberCluster) : option Status :=
  let nsName := placementv1beta1.GetNamespace ps in
  let cond := meta.FindStatusCondition
                (clusterv1beta1.Conditions (clusterv1beta1.Status cluster))
                NamespaceCollectionSucceededCondType in
  match cond with
  | None => None
  | Some _ =>
      match clusterv1beta1.Namespaces (clusterv1beta1.Status cluster) with
      | None =>
          Some (NewNonErrorStatus ClusterUnschedulable (Name p)
                  "cluster has no namespace information available")
      | Some namespaces =>
          match namespaces !! nsName with
          | None =>
              Some (NewNonErrorStatus ClusterUnschedulable (Name p)
                      "target namespace does not exist on cluster")
          | Some _ => None
          end
      end
  end.
End Filter.
End namespaceaffinity.

(* ===================================================================== *)
(** * prometheus/client_golang: metric vectors *)
(* ===================================================================== *)

Module prometheus.
(** [Labels] is a map from label name to value; the literals of the callers
    have distinct keys and are kept as association lists. *)
Abbreviation Labels := (list (string * string)) (only parsing).

(** A metric vector with given variable label names holds one series per
    tuple of label values: [gmap (list string) M], keyed by the values in
    the order of the names. A gauge holds a float64; a histogram is kept as
    the list of its observations, oldest first (its count, sum and bucket
    counts are functions of that list). *)
Abbreviation Gauges := (gmap (list string) spec_float) (only parsing).
Abbreviation Histograms := (gmap (list string) (list spec_float)) (only parsing).

Fixpoint indexOf (target : string) (items : list string) : option nat :=
  match items with
  | [] => None
  | l :: rest =>
      if String.eqb l target then Some O
      else match indexOf target rest with
           | Some i => Some (S i)
           | None => None
           end
  end.

(** [matchPartialLabels]: every given label is a variable label of the
    vector and the series has the given value for it. *)
Definition matchPartialLabels (variableLabels values : list string)
           (labels : Labels) : bool :=
  forallb (fun lv : string * string =>
             match indexOf (fst lv) variableLabels with
             | Some i =>
                 match values !! i with
                 | Some x => String.eqb x (snd lv)
                 | None => false
                 end
             | None => false
             end) labels.

(** [vec.DeletePartialMatch(labels)]: deletes every series that matches;
    the number of deleted series it returns is dropped by the callers. *)
Definition DeletePartialMatch {M : Type} (variableLabels : list string)
           (labels : Labels) (m : gmap (list string) M)
  : gmap (list string) M :=
  filter (fun kv => matchPartialLabels variableLabels kv.1 labels = false) m.

(** [vec.WithLabelValues(lvs...)] panics ([None]) unless there are as many
    values as variable labels; otherwise it returns the series of these
    values, creating it when absent. (It also panics on a value that is not
    valid UTF-8; the names of API objects are.) *)
Definition validateLabelValues (variableLabels lvs : list string) : bool :=
  Nat.eqb (length lvs) (length variableLabels).

(** [float64(now.UnixNano()) / 1e9]: the value [SetToCurrentTime] stores. *)
Definition unixSeconds (now : time.Time) : float64.t :=
  float64.div (float64.of_int now) (float64.of_int (10 ^ 9)).

(** [vec.WithLabelValues(lvs...).SetToCurrentTime()]. *)
Definition SetToCurrentTime (variableLabels : list string) (now : time.Time)
           (lvs : list string) (m : Gauges) : option Gauges :=
  if validateLabelValues variableLabels lvs
  then Some (<[lvs := unixSeconds now]> m)
  else None.

(** [vec.WithLabelValues(lvs...).Observe(x)]. *)
Definition Observe (variableLabels : list string) (lvs : list string)
           (x : float64.t) (m : Histograms) : option Histograms :=
  if validateLabelValues variableLabels lvs
  then Some (<[lvs := (default [] (m !! lvs) ++ [x])%list]> m)
  else None.
End prometheus.

(* ===================================================================== *)
(** * pkg/metrics/hub: the metrics of the hub agent *)
(* ===================================================================== *)

Module hubmetrics.
(** The variable labels of each vector, as declared. *)
Definition FleetPlacementStatusLastTimeStampSeconds_labels : list string :=
  ["namespace"; "name"; "generation"; "conditionType"; "status"; "reason"].
Definition FleetEvictionStatus_labels : list string :=
  ["name"; "isCompleted"; "isValid"].
Definition FleetUpdateRunStatusLastTimestampSeconds_labels : list string :=
  ["namespace"; "name"; "state"; "condition"; "status"; "reason"].
Definition FleetUpdateRunApprovalRequestLatencySeconds_labels : list string :=
  ["namespace"; "name"; "taskType"].
Definition FleetUpdateRunStageClusterUpdatingDurationSeconds_labels : list string :=
  ["namespace"; "name"].
Definition SchedulingCycleDurationMilliseconds_labels : list string :=
  ["is_failed"; "needs_requeue"].
Definition SchedulerActiveWorkers_labels : list string := [].

(** The process-wide vectors: the series each of them currently holds. *)
Record Registry := {
  FleetPlacementStatusLastTimeStampSeconds : prometheus.Gauges;
  FleetEvictionStatus : prometheus.Gauges;
  FleetUpdateRunStatusLastTimestampSeconds : prometheus.Gauges;
  FleetUpdateRunApprovalRequestLatencySeconds : prometheus.Histograms;
  FleetUpdateRunStageClusterUpdatingDurationSeconds : prometheus.Histograms;
  SchedulingCycleDurationMilliseconds : prometheus.Histograms;
  SchedulerActiveWorkers : prometheus.Gauges
}.

Definition with_UpdateRunStatus (g : prometheus.Gauges) (r : Registry) : Registry :=
  {| FleetPlacementStatusLastTimeStampSeconds := FleetPlacementStatusLastTimeStampSeconds r;
     FleetEvictionStatus := FleetEvictionStatus r;
     FleetUpdateRunStatusLastTimestampSeconds := g;
     FleetUpdateRunApprovalRequestLatencySeconds := FleetUpdateRunApprovalRequestLatencySeconds r;
     FleetUpdateRunStageClusterUpdatingDurationSeconds :=
       FleetUpdateRunStageClusterUpdatingDurationSeconds r;
     SchedulingCycleDurationMilliseconds := SchedulingCycleDurationMilliseconds r;
     SchedulerActiveWorkers := SchedulerActiveWorkers r |}.

Definition with_ApprovalRequestLatency (h : prometheus.Histograms)
           (r : Registry) : Registry :=
  {| FleetPlacementStatusLastTimeStampSeconds := FleetPlacementStatusLastTimeStampSeconds r;
     FleetEvictionStatus := FleetEvictionStatus r;
     FleetUpdateRunStatusLastTimestampSeconds := FleetUpdateRunStatusLastTimestampSeconds r;
     FleetUpdateRunApprovalRequestLatencySeconds := h;
     FleetUpdateRunStageClusterUpdatingDurationSeconds :=
       FleetUpdateRunStageClusterUpdatingDurationSeconds r;
     SchedulingCycleDurationMilliseconds := SchedulingCycleDurationMilliseconds r;
     SchedulerActiveWorkers := SchedulerActiveWorkers r |}.

Definition with_StageClusterUpdatingDuration (h : prometheus.Histograms)
           (r : Registry) : Registry :=
  {| FleetPlacementStatusLastTimeStampSeconds := FleetPlacementStatusLastTimeStampSeconds r;
     FleetEvictionStatus := FleetEvictionStatus r;
     FleetUpdateRunStatusLastTimestampSeconds := FleetUpdateRunStatusLastTimestampSeconds r;
     FleetUpdateRunApprovalRequestLatencySeconds := FleetUpdateRunApprovalRequestLatencySeconds r;
     FleetUpdateRunStageClusterUpdatingDurationSeconds := h;
     SchedulingCycleDurationMilliseconds := SchedulingCycleDurationMilliseconds r;
     SchedulerActiveWorkers := SchedulerActiveWorkers r |}.

(** The registry right after [init]: every vector registered, no series. *)
Definition init : Registry :=
  {| FleetPlacementStatusLastTimeStampSeconds := ∅;
     FleetEvictionStatus := ∅;
     FleetUpdateRunStatusLastTimestampSeconds := ∅;
     FleetUpdateRunApprovalRequestLatencySeconds := ∅;
     FleetUpdateRunStageClusterUpdatingDurationSeconds := ∅;
     SchedulingCycleDurationMilliseconds := ∅;
     SchedulerActiveWorkers := ∅ |}.
End hubmetrics.

(* ===================================================================== *)
(** * pkg/utils/condition *)
(* ===================================================================== *)

Module condition.
(** Modelled from the spec: [IsConditionStatusTrue] belongs to
    pkg/utils/condition, which is not among the source files. Spec 3 and 4.5:
    a condition counts when it is present, currently true, and carries the
    current generation of its object. *)
Definition IsConditionStatusTrue (cond : option metav1.Condition) (latestGeneration : int64)
  : bool :=
  match cond with
  | Some c =>
      String.eqb (metav1.Status c) metav1.ConditionTrue
      && Z.eqb (metav1.ObservedGeneration c) latestGeneration
  | None => false
  end.
End condition.

(* ===================================================================== *)
(** * pkg/controllers/updaterun: the metrics of an update run *)
(* ===================================================================== *)

Module updaterun.
Import placementv1beta1.

(** What the functions below act on: the hub metrics and the log. The clock
    is read once by each function that uses it; its reading [now] is an
    argument. A function that may panic returns [None] when it does. *)
Record World := {
  metrics : hubmetrics.Registry;
  log : list klog.Entry
}.

Definition setMetrics (f : hubmetrics.Registry -> hubmetrics.Registry) (w : World) : World :=
  {| metrics := f (metrics w); log := log w |}.

Definition InfoS (v : int) (line : string) (w : World) : World :=
  {| metrics := metrics w;
     log := (log w ++ [ {| klog.severity := klog.Info v; klog.msg := line |} ])%list |}.

(** The labels a run is deleted by. *)
Definition runLabels (updateRun : UpdateRunObj) : list (string * string) :=
  [("namespace", GetRunNamespace updateRun); ("name", GetName updateRun)].

Definition deleteUpdateRunMetrics (updateRun : UpdateRunObj) (w : World) : World :=
  let w1 := setMetrics (fun r =>
              hubmetrics.with_UpdateRunStatus
                (prometheus.DeletePartialMatch
                   hubmetrics.FleetUpdateRunStatusLastTimestampSeconds_labels
                   (runLabels updateRun)
                   (hubmetrics.FleetUpdateRunStatusLastTimestampSeconds r)) r) w in
  let w2 := setMetrics (fun r =>
              hubmetrics.with_StageClusterUpdatingDuration
                (prometheus.DeletePartialMatch
                   hubmetrics.FleetUpdateRunStageClusterUpdatingDurationSeconds_labels
                   (runLabels updateRun)
                   (hubmetrics.FleetUpdateRunStageClusterUpdatingDurationSeconds r)) r) w1 in
  setMetrics (fun r =>
    hubmetrics.with_ApprovalRequestLatency
      (prometheus.DeletePartialMatch
         hubmetrics.FleetUpdateRunApprovalRequestLatencySeconds_labels
         (runLabels updateRun)
         (hubmetrics.FleetUpdateRunApprovalRequestLatencySeconds r)) r) w2.

(** [cond != nil && cond.ObservedGeneration == generation]. *)
Definition atGeneration (cond : option metav1.Condition) (generation : int64)
  : option metav1.Condition :=
  match cond with
  | Some c => if Z.eqb (metav1.ObservedGeneration c) generation then Some c else None
  | None => None
  end.

(** One branch of [emitUpdateRunStatusMetric]: the status gauge of the run
    for the condition [c] is set to the current time. *)
Definition setStatusGauge (now : time.Time) (updateRun : UpdateRunObj) (conditionType : string)
           (c : metav1.Condition) (w : World) : option World :=
  g ← prometheus.SetToCurrentTime
         hubmetrics.FleetUpdateRunStatusLastTimestampSeconds_labels now
         [GetRunNamespace updateRun; GetName updateRun;
          State (GetUpdateRunSpec updateRun);
          conditionType; metav1.Status c; metav1.Reason c]
         (hubmetrics.FleetUpdateRunStatusLastTimestampSeconds (metrics w));
  Some (setMetrics (hubmetrics.with_UpdateRunStatus g) w).

Definition emitUpdateRunStatusMetric (now : time.Time) (updateRun : UpdateRunObj) (w : World)
  : option World :=
  let generation := GetGeneration updateRun in
  let updateRunStatus := GetUpdateRunStatus updateRun in
  let succeedCond :=
    meta.FindStatusCondition (Conditions updateRunStatus) StagedUpdateRunConditionSucceeded in
  match atGeneration succeedCond generation with
  | Some c => setStatusGauge now updateRun StagedUpdateRunConditionSucceeded c w
  | None =>
      let progressingCond :=
        meta.FindStatusCondition (Conditions updateRunStatus)
          StagedUpdateRunConditionProgressing in
      match atGeneration progressingCond generation with
      | Some c => setStatusGauge now updateRun StagedUpdateRunConditionProgressing c w
      | None =>
          let initializedCond :=
            meta.FindStatusCondition (Conditions updateRunStatus)
              StagedUpdateRunConditionInitialized in
          match atGeneration initializedCond generation with
          | Some c => setStatusGauge now updateRun StagedUpdateRunConditionInitialized c w
          | None =>
              Some (InfoS 2
                "There's no valid status condition on updateRun, status updating failed possibly"
                w)
          end
      end
  end.

Definition recordApprovalRequestLatency (stageTaskStatus : StageTaskStatus)
           (updateRun : UpdateRunObj) (taskType : string) (w : World) : option World :=
  let approvalCreatedCond :=
    meta.FindStatusCondition (TaskConditions stageTaskStatus)
      StageTaskConditionApprovalRequestCreated in
  let approvalApprovedCond :=
    meta.FindStatusCondition (TaskConditions stageTaskStatus)
      StageTaskConditionApprovalRequestApproved in
  if negb (condition.IsConditionStatusTrue approvalCreatedCond (GetGeneration updateRun))
     || negb (condition.IsConditionStatusTrue approvalApprovedCond (GetGeneration updateRun))
  then Some w
  else
    match approvalCreatedCond, approvalApprovedCond with
    | Some created, Some approved =>
        let latencySeconds :=
          time.Seconds (time.Sub (metav1.LastTransitionTime approved)
                                 (metav1.LastTransitionTime created)) in
        h ← prometheus.Observe
               hubmetrics.FleetUpdateRunApprovalRequestLatencySeconds_labels
               [GetRunNamespace updateRun; GetName updateRun; taskType]
               latencySeconds
               (hubmetrics.FleetUpdateRunApprovalRequestLatencySeconds (metrics w));
        Some (setMetrics (hubmetrics.with_ApprovalRequestLatency h) w)
    | _, _ => None (* a nil pointer would be dereferenced *)
    end.

Definition recordStageClusterUpdatingDuration (now : time.Time) (stageStatus : StageUpdatingStatus)
           (updateRun : UpdateRunObj) (w : World) : option World :=
  match StartTime stageStatus with
  | None => Some w
  | Some startTime =>
      let durationSeconds := time.Seconds (time.Since now startTime) in
      h ← prometheus.Observe
             hubmetrics.FleetUpdateRunStageClusterUpdatingDurationSeconds_labels
             [GetRunNamespace updateRun; GetName updateRun]
             durationSeconds
             (hubmetrics.FleetUpdateRunStageClusterUpdatingDurationSeconds (metrics w));
      Some (setMetrics (hubmetrics.with_StageClusterUpdatingDuration h) w)
  end.

(** The claim of the specification about the reported condition, in its
    words: the most specific TRUE condition among Succeeded, Progressing and
    Initialized, in that order, trusted only at the current generation. *)
Definition trueAtGeneration (conds : list metav1.Condition) (conditionType : string)
           (generation : int64) : option metav1.Condition :=
  match meta.FindStatusCondition conds conditionType with
  | Some c =>
      if condition.IsConditionStatusTrue (Some c) generation then Some c else None
  | None => None
  end.

Definition spec_topCondition (updateRun : UpdateRunObj) : option (string * metav1.Condition) :=
  let conds := Conditions (GetUpdateRunStatus updateRun) in
  let generation := GetGeneration updateRun in
  match trueAtGeneration conds StagedUpdateRunConditionSucceeded generation with
  | Some c => Some (StagedUpdateRunConditionSucceeded, c)
  | None =>
      match trueAtGeneration conds StagedUpdateRunConditionProgressing generation with
      | Some c => Some (StagedUpdateRunConditionProgressing, c)
      | None =>
          match trueAtGeneration conds StagedUpdateRunConditionInitialized generation with
          | Some c => Some (StagedUpdateRunConditionInitialized, c)
          | None => None
          end
      end
  end.

(** What [emitUpdateRunStatusMetric] would do if it reported that condition:
    the gauge of the condition [spec_topCondition] selects, none otherwise. *)
Definition spec_emitUpdateRunStatusMetric (now : time.Time) (updateRun : UpdateRunObj) (w : World)
  : option World :=
  match spec_topCondition updateRun with
  | Some (conditionType, c) => setStatusGauge now updateRun conditionType c w
  | None =>
      Some (InfoS 2
        "There's no valid status condition on updateRun, status updating failed possibly"
        w)
  end.
End updaterun.

(* ===================================================================== *)
(** * Go's errors, strconv and fmt, as far as the flag values use them *)
(* ===================================================================== *)

Module strconv.
Inductive Err := ErrSyntax | ErrRange.

(** [*NumError]: the function that failed, its input and the cause. *)
Record NumError := { Func : string; Num : string; Cause : Err }.

Definition syntaxError (fn str : string) : NumError :=
  {| Func := fn; Num := str; Cause := ErrSyntax |}.
Definition rangeError (fn str : string) : NumError :=
  {| Func := fn; Num := str; Cause := ErrRange |}.

(** The byte of a character. *)
Definition byteOf (c : Ascii.ascii) : Z := Z.of_N (Ascii.N_of_ascii c).

Definition maxUint64 : Z := 2 ^ 64 - 1.

Inductive loopResult := LoopOk (n : Z) | LoopSyntax | LoopRange.

(** The loop of [ParseUint(s, 10, 64)] over the bytes of [s]: a byte that is
    no decimal digit is a syntax error; [n >= cutoff] (n*10 would overflow)
    and an overflowing [n*10 + d] are range errors, found as soon as they
    occur. *)
Fixpoint parseUintLoop (s : string) (n : Z) : loopResult :=
  match s with
  | EmptyString => LoopOk n
  | String c rest =>
      if (48 <=? byteOf c) && (byteOf c <=? 57) then
        let d := byteOf c - 48 in
        if n >=? maxUint64 / 10 + 1 then LoopRange
        else
          let n1 := n * 10 + d in
          if n1 >? maxUint64 then LoopRange else parseUintLoop rest n1
      else LoopSyntax
  end.

(** [ParseUint(s, 10, 64)] on [s], with [s0] the string named in errors. *)
Definition ParseUint (fn s0 s : string) : Z * option NumError :=
  match s with
  | EmptyString => (0, Some (syntaxError fn s0))
  | _ =>
      match parseUintLoop s 0 with
      | LoopOk n => (n, None)
      | LoopSyntax => (0, Some (syntaxError fn s0))
      | LoopRange => (maxUint64, Some (rangeError fn s0))
      end
  end.

(** [ParseInt(s, 10, 0)]: an optional sign, then [ParseUint]; a magnitude
    that does not fit an int64 is a range error with the nearest int64. *)
Definition ParseInt (fn s : string) : Z * option NumError :=
  match s with
  | EmptyString => (0, Some (syntaxError fn s))
  | String c rest =>
      let neg := Ascii.eqb c "-"%char in
      let body := if Ascii.eqb c "+"%char || Ascii.eqb c "-"%char then rest else s in
      match ParseUint fn s body with
      | (_, Some {| Func := _; Num := _; Cause := ErrSyntax |}) =>
          (0, Some (syntaxError fn s))
      | (un, _) =>
          let cutoff := 2 ^ 63 in
          if negb neg && (un >=? cutoff) then (cutoff - 1, Some (rangeError fn s))
          else if neg && (un >? cutoff) then (- cutoff, Some (rangeError fn s))
          else (if neg then - un else un, None)
      end
  end.

(** The loop of the fast path of [Atoi]: no overflow check is needed for
    fewer than 19 bytes. [None] is a byte that is no digit. *)
Fixpoint atoiLoop (s : string) (n : Z) : option Z :=
  match s with
  | EmptyString => Some n
  | String ch rest =>
      if (48 <=? byteOf ch) && (byteOf ch <=? 57)
      then atoiLoop rest (n * 10 + (byteOf ch - 48))
      else None
  end.

(** [Atoi(s)] with 64-bit ints: the fast path for 1 to 18 bytes, otherwise
    [ParseInt(s, 10, 0)]. *)
Definition Atoi (s : string) : Z * option NumError :=
  let sLen := Z.of_nat (String.length s) in
  if (0 <? sLen) && (sLen <? 19) then
    match s with
    | EmptyString => (0, Some (syntaxError "Atoi" s))
    | String c rest =>
        let signed := Ascii.eqb c "-"%char || Ascii.eqb c "+"%char in
        let body := if signed then rest else s in
        if signed && (Z.of_nat (String.length body) <? 1)
        then (0, Some (syntaxError "Atoi" s))
        else
          match atoiLoop body 0 with
          | None => (0, Some (syntaxError "Atoi" s))
          | Some n => (if Ascii.eqb c "-"%char then - n else n, None)
          end
    end
  else ParseInt "Atoi" s.

(** [ParseBool(str)]: six spellings of true, six of false. *)
Definition ParseBool (str : string) : bool * option NumError :=
  if String.eqb str "1" || String.eqb str "t" || String.eqb str "T"
     || String.eqb str "TRUE" || String.eqb str "true" || String.eqb str "True"
  then (true, None)
  else if String.eqb str "0" || String.eqb str "f" || String.eqb str "F"
          || String.eqb str "FALSE" || String.eqb str "false" || String.eqb str "False"
  then (false, None)
  else (false, Some (syntaxError "ParseBool" str)).
End strconv.

Module fmt.
(** The decimal digits of [n >= 0], written in front of [acc], least
    significant digit first as the formatter does; 20 rounds are enough for
    every 64-bit value. *)
Fixpoint formatDigits (fuel : nat) (n : Z) (acc : string) : string :=
  match fuel with
  | O => acc
  | S f =>
      let acc' := String (Ascii.ascii_of_N (Z.to_N (48 + n mod 10))) acc in
      if n <? 10 then acc' else formatDigits f (n / 10) acc'
  end.

(** [Sprintf("%d", n)]. *)
Definition Sprintd (n : Z) : string :=
  if n <? 0 then String "-"%char (formatDigits 20 (- n) "") else formatDigits 20 n "".

(** [Sprintf("%t", b)]. *)
Definition Sprintt (b : bool) : string := if b then "true" else "false".
End fmt.

(** Go's [error] values as the flag values build them: [fmt.Errorf] with its
    format and arguments (an error argument is wrapped by %w), the errors of
    strconv, and the errors of library functions taken as parameters. *)
Module errors.
#[warnings="-register-all"]
Inductive error :=
| Errorf (format : string) (args : list arg)
| Num (e : strconv.NumError)
| Other (text : string)
with arg :=
| IntArg (n : Z)
| FloatArg (x : spec_float)
| StringArg (s : string)
| ErrArg (err : error).
End errors.

(* ===================================================================== *)
(** * k8s.io/apimachinery/pkg/util/validation/field *)
(* ===================================================================== *)

Module field.
Inductive ErrorType := ErrorTypeInvalid.

(** The bad value of an error is an [interface{}]; these are the dynamic
    types [Validate] puts there. *)
Inductive Value :=
| IntValue (n : int)
| BoolValue (b : bool)
| StringValue (s : string)
| DurationValue (d : time.Duration).

Record Error := {
  Type_ : ErrorType;
  Field : string;
  BadValue : Value;
  Detail : string
}.

(** A path is the list of its names from the root; it prints with dots. *)
Abbreviation Path := (list string) (only parsing).
Definition NewPath (name : string) : list string := [name].
Definition Child (p : list string) (name : string) : list string := (p ++ [name])%list.
Definition String (p : list string) : string := String.concat "." p.

Definition Invalid (p : list string) (value : Value) (detail : string) : Error :=
  {| Type_ := ErrorTypeInvalid; Field := String p; BadValue := value; Detail := detail |}.
End field.

(* ===================================================================== *)
(** * k8s.io/client-go/util/workqueue: rate limiters as constructed *)
(* ===================================================================== *)

Module workqueue.
(** A rate limiter at construction: the arguments it was built from. The
    bucket limiter wraps [rate.NewLimiter(limit, burst)]; [rate.Limit] is a
    float64. *)
#[warnings="-register-all"]
Inductive TypedRateLimiter :=
| TypedItemExponentialFailureRateLimiter (baseDelay maxDelay : time.Duration)
| TypedBucketRateLimiter (limit : float64.t) (burst : int)
| TypedMaxOfRateLimiter (limiters : list TypedRateLimiter).
End workqueue.

(* ===================================================================== *)
(** * cmd/hubagent/options *)
(* ===================================================================== *)

Module options.

Record RateLimitOptions := {
  RateLimiterBaseDelay : time.Duration;
  RateLimiterMaxDelay : time.Duration;
  RateLimiterQPS : int;
  RateLimiterBucketSize : int
}.

Record ControllerManagerOptions := {
  HealthProbeBindAddress : string;
  MetricsBindAddress : string;
  EnablePprof : bool;
  PprofPort : int;
  HubQPS : float64.t;
  HubBurst : int;
  ResyncPeriod : time.Duration
}.

Record WebhookOptions := {
  EnableWebhooks : bool;
  ClientConnectionType : string;
  ServiceName : string;
  EnableGuardRail : bool;
  GuardRailWhitelistedUsers : string;
  GuardRailDenyModifyMemberClusterLabels : bool;
  EnableWorkload : bool;
  UseCertManager : bool
}.

Record PlacementManagementOptions := {
  WorkPendingGracePeriod : time.Duration;
  SkippedPropagatingAPIs : string;
  AllowedPropagatingAPIs : string;
  SkippedPropagatingNamespaces : string;
  ConcurrentResourceChangeSyncs : int;
  MaxFleetSize : int;
  MaxConcurrentClusterPlacement : int;
  PlacementControllerWorkQueueRateLimiterOpts : RateLimitOptions;
  ResourceSnapshotCreationMinimumInterval : time.Duration;
  ResourceChangesCollectionDuration : time.Duration
}.

(** The option groups [Validate] reads; the leader election, feature flag
    and cluster management groups are not read by any function below. *)
Record Options := {
  CtrlMgrOpts : ControllerManagerOptions;
  WebhookOpts : WebhookOptions;
  PlacementMgmtOpts : PlacementManagementOptions
}.

Definition rlOpts (o : Options) : RateLimitOptions :=
  PlacementControllerWorkQueueRateLimiterOpts (PlacementMgmtOpts o).

Definition rateLimiterBaseDelayPath : list string :=
  field.Child (field.Child (field.NewPath "Options")
                 "PlacementControllerWorkQueueRateLimiterOpts") "RateLimiterBaseDelay".
Definition rateLimiterQPSPath : list string :=
  field.Child (field.Child (field.NewPath "Options")
                 "PlacementControllerWorkQueueRateLimiterOpts") "RateLimiterQPS".

Definition Validate (o : Options) : list field.Error :=
  let errs : list field.Error := [] in
  let newPath := field.NewPath "Options" in
  let errs :=
    if float64.ltb (float64.of_int (HubBurst (CtrlMgrOpts o))) (HubQPS (CtrlMgrOpts o))
    then (errs ++ [field.Invalid (field.Child newPath "HubBurst")
                     (field.IntValue (HubBurst (CtrlMgrOpts o)))
                     "The burst limit for client-side throttling must be greater than or equal to its QPS limit"])%list
    else errs in
  let errs :=
    if EnableWebhooks (WebhookOpts o) && String.eqb (ServiceName (WebhookOpts o)) ""
    then (errs ++ [field.Invalid (field.Child newPath "WebhookServiceName")
                     (field.StringValue (ServiceName (WebhookOpts o)))
                     "A webhook service name is required when webhooks are enabled"])%list
    else errs in
  let errs :=
    if UseCertManager (WebhookOpts o) && negb (EnableWorkload (WebhookOpts o))
    then (errs ++ [field.Invalid (field.Child newPath "UseCertManager")
                     (field.BoolValue (UseCertManager (WebhookOpts o)))
                     "If cert manager is used for securing webhook connections, the EnableWorkload option must be set to true, so that cert manager pods can run in the hub cluster."])%list
    else errs in
  let errs :=
    if negb (String.eqb (AllowedPropagatingAPIs (PlacementMgmtOpts o)) "")
       && negb (String.eqb (SkippedPropagatingAPIs (PlacementMgmtOpts o)) "")
    then (errs ++ [field.Invalid (field.Child newPath "AllowedPropagatingAPIs")
                     (field.StringValue (AllowedPropagatingAPIs (PlacementMgmtOpts o)))
                     "AllowedPropagatingAPIs and SkippedPropagatingAPIs options are mutually exclusive"])%list
    else errs in
  let errs :=
    if RateLimiterBaseDelay (rlOpts o) >=? RateLimiterMaxDelay (rlOpts o)
    then (errs ++ [field.Invalid rateLimiterBaseDelayPath
                     (field.DurationValue (RateLimiterBaseDelay (rlOpts o)))
                     "the base delay for the placement controller set rate limiter must be less than its max delay"])%list
    else errs in
  let errs :=
    if RateLimiterQPS (rlOpts o) >? RateLimiterBucketSize (rlOpts o)
    then (errs ++ [field.Invalid rateLimiterQPSPath
                     (field.IntValue (RateLimiterQPS (rlOpts o)))
                     "the QPS for the placement controller set rate limiter must be less than its bucket size"])%list
    else errs in
  errs.

(** [DefaultControllerRateLimiter]: the options are received by value, the
    non-positive ones are replaced, and the limiter is built. *)
Definition setDefaults (opts : RateLimitOptions) : RateLimitOptions :=
  let opts :=
    if RateLimiterBaseDelay opts <=? 0
    then {| RateLimiterBaseDelay := 5 * time.Millisecond;
            RateLimiterMaxDelay := RateLimiterMaxDelay opts;
            RateLimiterQPS := RateLimiterQPS opts;
            RateLimiterBucketSize := RateLimiterBucketSize opts |}
    else opts in
  let opts :=
    if RateLimiterMaxDelay opts <=? 0
    then {| RateLimiterBaseDelay := RateLimiterBaseDelay opts;
            RateLimiterMaxDelay := 60 * time.Second;
            RateLimiterQPS := RateLimiterQPS opts;
            RateLimiterBucketSize := RateLimiterBucketSize opts |}
    else opts in
  let opts :=
    if RateLimiterQPS opts <=? 0
    then {| RateLimiterBaseDelay := RateLimiterBaseDelay opts;
            RateLimiterMaxDelay := RateLimiterMaxDelay opts;
            RateLimiterQPS := 10;
            RateLimiterBucketSize := RateLimiterBucketSize opts |}
    else opts in
  if RateLimiterBucketSize opts <=? 0
  then {| RateLimiterBaseDelay := RateLimiterBaseDelay opts;
          RateLimiterMaxDelay := RateLimiterMaxDelay opts;
          RateLimiterQPS := RateLimiterQPS opts;
          RateLimiterBucketSize := 100 |}
  else opts.

(** The limiter built from four values:
    NewTypedMaxOfRateLimiter(
      NewTypedItemExponentialFailureRateLimiter(base, max),
      &TypedBucketRateLimiter{Limiter: rate.NewLimiter(rate.Limit(qps), bucket)}). *)
Definition buildRateLimiter (opts : RateLimitOptions) : workqueue.TypedRateLimiter :=
  workqueue.TypedMaxOfRateLimiter
    [ workqueue.TypedItemExponentialFailureRateLimiter
        (RateLimiterBaseDelay opts) (RateLimiterMaxDelay opts);
      workqueue.TypedBucketRateLimiter
        (float64.of_int (RateLimiterQPS opts)) (RateLimiterBucketSize opts) ].

Definition DefaultControllerRateLimiter (opts : RateLimitOptions)
  : workqueue.TypedRateLimiter :=
  buildRateLimiter (setDefaults opts).

(** [WorkPendingGracePeriodValueWithValidation] is a [metav1.Duration]: the
    flag value points at the option field, so the value after [Set] is the
    field's new content. [Set] returns its error (nil: [None]) and writes a
    warning to the log. *)
Definition workPendingGracePeriodWarning : klog.Entry :=
  {| klog.severity := klog.Warning;
     klog.msg := "the work-pending-grace-period option is no longer in use and is only kept for compatibility reasons, it has no effect on the system behavior and should not be set" |}.

Definition WorkPendingGracePeriodValueWithValidation_Set
           (v : time.Duration) (s : string) (log : list klog.Entry)
  : time.Duration * option string * list klog.Entry :=
  (15 * time.Second, None, (log ++ [workPendingGracePeriodWarning])%list).

Definition newWorkPendingGracePeriodValueWithValidation (defaultVal : time.Duration)
           (p : time.Duration) : time.Duration :=
  defaultVal.

(** The part of [PlacementManagementOptions.AddFlags] that registers the
    flag: the field receives the default of 15 seconds. *)
Definition AddFlags_WorkPendingGracePeriod (o : PlacementManagementOptions)
  : PlacementManagementOptions :=
  {| WorkPendingGracePeriod :=
       newWorkPendingGracePeriodValueWithValidation (15 * time.Second)
         (WorkPendingGracePeriod o);
     SkippedPropagatingAPIs := SkippedPropagatingAPIs o;
     AllowedPropagatingAPIs := AllowedPropagatingAPIs o;
     SkippedPropagatingNamespaces := SkippedPropagatingNamespaces o;
     ConcurrentResourceChangeSyncs := ConcurrentResourceChangeSyncs o;
     MaxFleetSize := MaxFleetSize o;
     MaxConcurrentClusterPlacement := MaxConcurrentClusterPlacement o;
     PlacementControllerWorkQueueRateLimiterOpts :=
       PlacementControllerWorkQueueRateLimiterOpts o;
     ResourceSnapshotCreationMinimumInterval := ResourceSnapshotCreationMinimumInterval o;
     ResourceChangesCollectionDuration := ResourceChangesCollectionDuration o |}.

(** Parsing a command line calls [Set] once for each occurrence of the flag,
    in order, and stops at the first error. The result is the final content
    of the field, or the error. *)
Fixpoint parseWorkPendingGracePeriod (occurrences : list string) (v : time.Duration)
         (log : list klog.Entry) : time.Duration * option string * list klog.Entry :=
  match occurrences with
  | [] => (v, None, log)
  | s :: rest =>
      match WorkPendingGracePeriodValueWithValidation_Set v s log with
      | (v', None, log') => parseWorkPendingGracePeriod rest v' log'
      | (v', Some err, log') => (v', Some err, log')
      end
  end.
(** ** The flag values with validation

    A flag value points at an option field: [Set] is given the current
    content of the field and returns its new content with the error
    ([None]: nil). *)

(** placementmgmt.go *)

Definition ConcurrentResourceChangeSyncsValueWithValidation_String (v : int) : string :=
  fmt.Sprintd v.

Definition ConcurrentResourceChangeSyncsValueWithValidation_Set (v : int) (s : string)
  : int * option errors.error :=
  match strconv.Atoi s with
  | (_, Some err) =>
      (v, Some (errors.Errorf "failed to parse int value: %w" [errors.ErrArg (errors.Num err)]))
  | (n, None) =>
      if (n <? 1) || (n >? 100)
      then (v, Some (errors.Errorf
                       "number of concurrent resource change syncs must be in the range [1, 100]" []))
      else (n, None)
  end.

Definition newConcurrentResourceChangeSyncsValueWithValidation (defaultVal : int) (p : int)
  : int := defaultVal.

Definition MaxFleetSizeValueWithValidation_String (v : int) : string := fmt.Sprintd v.

Definition MaxFleetSizeValueWithValidation_Set (v : int) (s : string)
  : int * option errors.error :=
  match strconv.Atoi s with
  | (_, Some err) =>
      (v, Some (errors.Errorf "failed to parse int value: %w" [errors.ErrArg (errors.Num err)]))
  | (n, None) =>
      if (n <? 30) || (n >? 200)
      then (v, Some (errors.Errorf "number of max fleet size must be in the range [30, 200]" []))
      else (n, None)
  end.

Definition newMaxFleetSizeValueWithValidation (defaultVal : int) (p : int) : int :=
  defaultVal.

Definition MaxConcurrentClusterPlacementValueWithValidation_String (v : int) : string :=
  fmt.Sprintd v.

Definition MaxConcurrentClusterPlacementValueWithValidation_Set (v : int) (s : string)
  : int * option errors.error :=
  match strconv.Atoi s with
  | (_, Some err) =>
      (v, Some (errors.Errorf "failed to parse int value: %w" [errors.ErrArg (errors.Num err)]))
  | (n, None) =>
      if (n <? 10) || (n >? 200)
      then (v, Some (errors.Errorf
                       "number of max concurrent cluster placements must be in the range [10, 200]" []))
      else (n, None)
  end.

Definition newMaxConcurrentClusterPlacementValueWithValidation (defaultVal : int) (p : int)
  : int := defaultVal.

(** The rate limiter flags (QPS and bucket size). *)

Definition RateLimiterQPSValueWithValidation_String (v : int) : string := fmt.Sprintd v.

Definition RateLimiterQPSValueWithValidation_Set (v : int) (s : string)
  : int * option errors.error :=
  match strconv.Atoi s with
  | (_, Some err) =>
      (v, Some (errors.Errorf "failed to parse integer: %w" [errors.ErrArg (errors.Num err)]))
  | (qps, None) =>
      if (qps <? 1) || (qps >? 1000)
      then (v, Some (errors.Errorf "the QPS must be a positive integer in the range [1, 1000]" []))
      else (qps, None)
  end.

Definition newRateLimiterQPSValueWithValidation (defaultVal : int) (p : int) : int :=
  defaultVal.

Definition RateLimiterBucketSizeValueWithValidation_String (v : int) : string :=
  fmt.Sprintd v.

Definition RateLimiterBucketSizeValueWithValidation_Set (v : int) (s : string)
  : int * option errors.error :=
  match strconv.Atoi s with
  | (_, Some err) =>
      (v, Some (errors.Errorf "failed to parse integer: %w" [errors.ErrArg (errors.Num err)]))
  | (bucketSize, None) =>
      if (bucketSize <? 1) || (bucketSize >? 10000)
      then (v, Some (errors.Errorf
                       "the bucket size must be a positive integer in the range [1, 10000]" []))
      else (bucketSize, None)
  end.

Definition newRateLimiterBucketSizeValueWithValidation (defaultVal : int) (bucketSize : int)
  : int := defaultVal.

(** The controller manager flags (burst). *)

Definition HubBurstValueWithValidation_String (v : int) : string := fmt.Sprintd v.

Definition HubBurstValueWithValidation_Set (v : int) (s : string)
  : int * option errors.error :=
  match strconv.Atoi s with
  | (_, Some err) =>
      (v, Some (errors.Errorf "failed to parse int value: %w" [errors.ErrArg (errors.Num err)]))
  | (burst, None) =>
      if (burst <? 10) || (burst >? 20000)
      then (v, Some (errors.Errorf
                       "burst limit is set to an invalid value (%d), must be a value in the range [10, 20000]"
                       [errors.IntArg burst]))
      else (burst, None)
  end.

Definition newHubBurstValueWithValidation (defaultVal : int) (p : int) : int := defaultVal.

(** featureflags.go *)

Definition EnableV1Beta1APIsValueWithValidation_String (v : bool) : string :=
  fmt.Sprintt v.

Definition EnableV1Beta1APIsValueWithValidation_Set (v : bool) (s : string)
  : bool * option errors.error :=
  match strconv.ParseBool s with
  | (_, Some err) =>
      (v, Some (errors.Errorf "failed to parse bool value: %w" [errors.ErrArg (errors.Num err)]))
  | (enabled, None) =>
      if negb enabled
      then (v, Some (errors.Errorf
                       "the KubeFleet v1beta1 APIs are the storage version and must be enabled" []))
      else (enabled, None)
  end.

Definition newEnableV1Beta1APIsValueWithValidation (defaultVal : bool) (p : bool) : bool :=
  defaultVal.

Section DurationFlags.
(** [time.ParseDuration], of Go's library, is a parameter: the duration and
    the error ([None]: nil) it returns for a string. *)
Variable ParseDuration : string -> time.Duration * option errors.error.

Definition RateLimiterBaseDelayValueWithValidation_Set (v : time.Duration) (s : string)
  : time.Duration * option errors.error :=
  match ParseDuration s with
  | (_, Some err) => (v, Some (errors.Errorf "failed to parse time duration: %w" [errors.ErrArg err]))
  | (duration, None) =>
      if (duration <? time.Millisecond) || (duration >? 200 * time.Millisecond)
      then (v, Some (errors.Errorf "the base delay must be a value between [1ms, 200ms]" []))
      else (duration, None)
  end.

Definition RateLimiterMaxDelayValueWithValidation_Set (v : time.Duration) (s : string)
  : time.Duration * option errors.error :=
  match ParseDuration s with
  | (_, Some err) => (v, Some (errors.Errorf "failed to parse time duration: %w" [errors.ErrArg err]))
  | (duration, None) =>
      if (duration <? time.Second) || (duration >? time.Minute * 5)
      then (v, Some (errors.Errorf "the max delay must be a value between [1s, 5m]" []))
      else (duration, None)
  end.

Definition ResourceSnapshotCreationMinimumIntervalValueWithValidation_Set
           (v : time.Duration) (s : string) : time.Duration * option errors.error :=
  match ParseDuration s with
  | (_, Some err) => (v, Some (errors.Errorf "failed to parse duration: %w" [errors.ErrArg err]))
  | (duration, None) =>
      if (duration <? 0) || (duration >? 5 * time.Minute)
      then (v, Some (errors.Errorf "duration must be in the range [0s, 5m]" []))
      else (duration, None)
  end.

Definition ResourceChangesCollectionDurationValueWithValidation_Set
           (v : time.Duration) (s : string) : time.Duration * option errors.error :=
  match ParseDuration s with
  | (_, Some err) => (v, Some (errors.Errorf "failed to parse duration: %w" [errors.ErrArg err]))
  | (duration, None) =>
      if (duration <? 0) || (duration >? time.Minute)
      then (v, Some (errors.Errorf "duration must be in the range [0s, 1m]" []))
      else (duration, None)
  end.

Definition ResyncPeriodValueWithValidation_Set (v : time.Duration) (s : string)
  : time.Duration * option errors.error :=
  match ParseDuration s with
  | (_, Some err) => (v, Some (errors.Errorf "failed to parse duration value: %w" [errors.ErrArg err]))
  | (dur, None) =>
      if (dur <? time.Hour) || (dur >? 12 * time.Hour)
      then (v, Some (errors.Errorf
                       "resync period is set to an invalid value (%s), must be a value in the range [1h, 12h]"
                       [errors.StringArg s]))
      else (dur, None)
  end.

Definition ClusterUnhealthyThresholdValueWithValidation_Set (v : time.Duration) (s : string)
  : time.Duration * option errors.error :=
  match ParseDuration s with
  | (_, Some err) => (v, Some (errors.Errorf "failed to parse duration: %w" [errors.ErrArg err]))
  | (duration, None) =>
      if (duration <? 30 * time.Second) || (duration >? time.Hour)
      then (v, Some (errors.Errorf "duration must be in the range [30s, 1h]" []))
      else (duration, None)
  end.

Definition ForceDeleteWaitTimeValueWithValidation_Set (v : time.Duration) (s : string)
  : time.Duration * option errors.error :=
  match ParseDuration s with
  | (_, Some err) => (v, Some (errors.Errorf "failed to parse duration: %w" [errors.ErrArg err]))
  | (duration, None) =>
      if (duration <? 30 * time.Second) || (duration >? time.Hour)
      then (v, Some (errors.Errorf "duration must be in the range [30s, 1h]" []))
      else (duration, None)
  end.

(** [RateLimitOptions.AddFlags]: the four fields receive their defaults. *)
Definition RateLimitOptions_AddFlags (o : RateLimitOptions) : RateLimitOptions :=
  {| RateLimiterBaseDelay := 5 * time.Millisecond;
     RateLimiterMaxDelay := 60 * time.Second;
     RateLimiterQPS := newRateLimiterQPSValueWithValidation 10 (RateLimiterQPS o);
     RateLimiterBucketSize :=
       newRateLimiterBucketSizeValueWithValidation 100 (RateLimiterBucketSize o) |}.

(** The rate limiter options a command line can produce: those after
    [AddFlags], and those after one more [Set] of one of the four flags,
    whether it is accepted or rejected. *)
Inductive RateLimitOptions_fromFlags : RateLimitOptions -> Prop :=
| fromFlags_AddFlags (o : RateLimitOptions) :
    RateLimitOptions_fromFlags (RateLimitOptions_AddFlags o)
| fromFlags_BaseDelay (o : RateLimitOptions) (s : string) :
    RateLimitOptions_fromFlags o ->
    RateLimitOptions_fromFlags
      {| RateLimiterBaseDelay :=
           fst (RateLimiterBaseDelayValueWithValidation_Set (RateLimiterBaseDelay o) s);
         RateLimiterMaxDelay := RateLimiterMaxDelay o;
         RateLimiterQPS := RateLimiterQPS o;
         RateLimiterBucketSize := RateLimiterBucketSize o |}
| fromFlags_MaxDelay (o : RateLimitOptions) (s : string) :
    RateLimitOptions_fromFlags o ->
    RateLimitOptions_fromFlags
      {| RateLimiterBaseDelay := RateLimiterBaseDelay o;
         RateLimiterMaxDelay :=
           fst (RateLimiterMaxDelayValueWithValidation_Set (RateLimiterMaxDelay o) s);
         RateLimiterQPS := RateLimiterQPS o;
         RateLimiterBucketSize := RateLimiterBucketSize o |}
| fromFlags_QPS (o : RateLimitOptions) (s : string) :
    RateLimitOptions_fromFlags o ->
    RateLimitOptions_fromFlags
      {| RateLimiterBaseDelay := RateLimiterBaseDelay o;
         RateLimiterMaxDelay := RateLimiterMaxDelay o;
         RateLimiterQPS := fst (RateLimiterQPSValueWithValidation_Set (RateLimiterQPS o) s);
         RateLimiterBucketSize := RateLimiterBucketSize o |}
| fromFlags_BucketSize (o : RateLimitOptions) (s : string) :
    RateLimitOptions_fromFlags o ->
    RateLimitOptions_fromFlags
      {| RateLimiterBaseDelay := RateLimiterBaseDelay o;
         RateLimiterMaxDelay := RateLimiterMaxDelay o;
         RateLimiterQPS := RateLimiterQPS o;
         RateLimiterBucketSize :=
           fst (RateLimiterBucketSizeValueWithValidation_Set (RateLimiterBucketSize o) s) |}.
End DurationFlags.

Section FloatFlags.
(** [strconv.ParseFloat(s, 64)], of Go's library, is a parameter. *)
Variable ParseFloat : string -> float64.t * option errors.error.

Definition HubQPSValueWithValidation_Set (v : float64.t) (s : string)
  : float64.t * option errors.error :=
  match ParseFloat s with
  | (_, Some err) => (v, Some (errors.Errorf "failed to parse float64 value: %w" [errors.ErrArg err]))
  | (qps, None) =>
      if float64.ltb qps (float64.of_int 0) then (float64.of_int (-1), None)
      else if float64.ltb qps (float64.of_int 10)
              || float64.ltb (float64.of_int 10000) qps
      then (v, Some (errors.Errorf
                       "QPS limit is set to an invalid value (%f), must be a value in the range [10.0, 10000.0]"
                       [errors.FloatArg qps]))
      else (qps, None)
  end.
End FloatFlags.

(** Setting a flag several times: [Set] for each occurrence in order, up to
    the first error. *)
Fixpoint setAll {T : Type} (set : T -> string -> T * option errors.error)
         (occurrences : list string) (v : T) : T * option errors.error :=
  match occurrences with
  | [] => (v, None)
  | s :: rest =>
      match set v s with
      | (v', None) => setAll set rest v'
      | (v', Some err) => (v', Some err)
      end
  end.
End options.

(* ===================================================================== *)
(** * Specification vocabulary and test scenarios

    The predicates the statements below are written with, and the concrete
    objects they are tried on. *)
(* ===================================================================== *)

Section NamespaceAffinityVocabulary.
Import framework namespaceaffinity.

(** The capability condition is carried by the cluster, whatever its status. *)
Definition carriesCondition (condType : string) (cluster : clusterv1beta1.MemberCluster)
  : Prop :=
  ∃ c, c ∈ clusterv1beta1.Conditions (clusterv1beta1.Status cluster)
       ∧ metav1.Type_ c = condType.

Definition unschedulable (p : Plugin) (reason : string) : option Status :=
  Some {| code := ClusterUnschedulable; pluginName := Name p;
          message := reason; cause := None |}.
End NamespaceAffinityVocabulary.

Section NamespaceAffinityScenariosVocabulary.
Import framework namespaceaffinity.

(** The scenarios of the plugin's unit tests. *)
Definition testCondType : string := "NamespaceCollectionSucceeded".

Definition testSnapshot : placementv1beta1.PolicySnapshotObj :=
  {| placementv1beta1.psObjectMeta :=
       {| metav1.Name := "test-policy"; metav1.Namespace := "test-namespace";
          metav1.Generation := 1 |} |}.

Definition testCollectionCondition (status : string) : metav1.Condition :=
  {| metav1.Type_ := testCondType; metav1.Status := status;
     metav1.ObservedGeneration := 0; metav1.LastTransitionTime := 0;
     metav1.Reason := ""; metav1.Message := "" |}.

Definition testCluster (conds : list metav1.Condition)
           (namespaces : option (gmap string string)) : clusterv1beta1.MemberCluster :=
  {| clusterv1beta1.ObjectMeta :=
       {| metav1.Name := "cluster-1"; metav1.Namespace := ""; metav1.Generation := 1 |};
     clusterv1beta1.Status :=
       {| clusterv1beta1.Conditions := conds; clusterv1beta1.Namespaces := namespaces |} |}.
End NamespaceAffinityScenariosVocabulary.

Section MetricVectorsVocabulary.
Import prometheus.

(** The value a series has for a label name, if the vector has that label. *)
Definition labelValue (variableLabels values : list string) (l : string) : option string :=
  match indexOf l variableLabels with
  | Some i => values !! i
  | None => None
  end.

(** The observations of a series; none when the series does not exist. *)
Definition samples (h : gmap (list string) (list spec_float)) (lvs : list string)
  : list spec_float :=
  default [] (h !! lvs).
End MetricVectorsVocabulary.

Section UpdateRunMetricsVocabulary.
Import placementv1beta1 updaterun.

(** A series bears the labels of a run: its namespace and name labels have
    the run's namespace and name. *)
Definition bearsRun (variableLabels : list string) (updateRun : UpdateRunObj)
           (lvs : list string) : Prop :=
  labelValue variableLabels lvs "namespace" = Some (GetRunNamespace updateRun)
  ∧ labelValue variableLabels lvs "name" = Some (GetName updateRun).

(** [after] is [before] without the series of the run. *)
Definition runSeriesRemoved {M : Type} (variableLabels : list string)
           (updateRun : UpdateRunObj) (before after : gmap (list string) M) : Prop :=
  ∀ lvs,
    (bearsRun variableLabels updateRun lvs → after !! lvs = None)
    ∧ (¬ bearsRun variableLabels updateRun lvs → after !! lvs = before !! lvs).
End UpdateRunMetricsVocabulary.

Section ApprovalLatencyVocabulary.
Import placementv1beta1 updaterun.

(** A looked-up condition is present, currently true and carries the given
    generation. *)
Definition currentlyTrue (cond : option metav1.Condition) (generation : Z) : Prop :=
  ∃ c, cond = Some c
       ∧ metav1.Status c = metav1.ConditionTrue
       ∧ metav1.ObservedGeneration c = generation.

Definition approvalCreated (ts : StageTaskStatus) : option metav1.Condition :=
  meta.FindStatusCondition (TaskConditions ts) StageTaskConditionApprovalRequestCreated.
Definition approvalApproved (ts : StageTaskStatus) : option metav1.Condition :=
  meta.FindStatusCondition (TaskConditions ts) StageTaskConditionApprovalRequestApproved.

(** The approval-latency series of a run and task type, and its samples. *)
Definition approvalSeries (updateRun : UpdateRunObj) (taskType : string) : list string :=
  [GetRunNamespace updateRun; GetName updateRun; taskType].
Definition approvalSamples (updateRun : UpdateRunObj) (taskType : string) (w : World)
  : list spec_float :=
  samples (hubmetrics.FleetUpdateRunApprovalRequestLatencySeconds (metrics w))
          (approvalSeries updateRun taskType).

(** The world after one more observation [x] in that series. *)
Definition withApprovalSample (updateRun : UpdateRunObj) (taskType : string)
           (x : spec_float) (w : World) : World :=
  setMetrics (fun r =>
    hubmetrics.with_ApprovalRequestLatency
      (<[approvalSeries updateRun taskType :=
           (samples (hubmetrics.FleetUpdateRunApprovalRequestLatencySeconds r)
                    (approvalSeries updateRun taskType) ++ [x])%list]>
         (hubmetrics.FleetUpdateRunApprovalRequestLatencySeconds r)) r) w.

(** The latency between the two transitions, in seconds. *)
Definition approvalLatency (created approved : metav1.Condition) : spec_float :=
  time.Seconds (time.Sub (metav1.LastTransitionTime approved)
                         (metav1.LastTransitionTime created)).

(** Calling recordApprovalRequestLatency [n] times in a row on one task state. *)
Fixpoint recordApprovalRequestLatency_times (n : nat) (ts : StageTaskStatus)
         (updateRun : UpdateRunObj) (taskType : string) (w : World) : option World :=
  match n with
  | O => Some w
  | S k =>
      w1 ← recordApprovalRequestLatency ts updateRun taskType w;
      recordApprovalRequestLatency_times k ts updateRun taskType w1
  end.
End ApprovalLatencyVocabulary.

Section ApprovalLatencyRepeatedVocabulary.
Import placementv1beta1 updaterun.

(** An approved task of a run at generation 1: the request was created at
    second 1000 and approved one minute later. *)
Definition testRun : UpdateRunObj :=
  {| ObjectMeta := {| metav1.Name := "run-1"; metav1.Namespace := "test-ns";
                      metav1.Generation := 1 |};
     Spec := {| State := "Run" |};
     Status := {| Conditions := [] |} |}.

Definition testCreated : metav1.Condition :=
  {| metav1.Type_ := StageTaskConditionApprovalRequestCreated;
     metav1.Status := metav1.ConditionTrue;
     metav1.ObservedGeneration := 1;
     metav1.LastTransitionTime := 1000 * time.Second;
     metav1.Reason := "ApprovalRequestCreated"; metav1.Message := "" |}.

Definition testApproved : metav1.Condition :=
  {| metav1.Type_ := StageTaskConditionApprovalRequestApproved;
     metav1.Status := metav1.ConditionTrue;
     metav1.ObservedGeneration := 1;
     metav1.LastTransitionTime := 1060 * time.Second;
     metav1.Reason := "ApprovalRequestApproved"; metav1.Message := "" |}.

Definition testApprovedTask : StageTaskStatus :=
  {| TaskConditions := [testCreated; testApproved] |}.

Definition emptyWorld : World := {| metrics := hubmetrics.init; log := [] |}.

(** Sixty seconds as a float64: 8444249301319680 * 2^(-47). *)
Definition sixtySeconds : spec_float := S754_finite false 8444249301319680 (-47).
End ApprovalLatencyRepeatedVocabulary.

Section UpdateRunStatusVocabulary.
Import placementv1beta1 updaterun.

(** The run has a condition of the type at its current generation: the
    condition found for the type carries the generation of the run. *)
Definition hasCurrent (updateRun : UpdateRunObj) (conditionType : string)
           (c : metav1.Condition) : Prop :=
  meta.FindStatusCondition (Conditions (GetUpdateRunStatus updateRun)) conditionType = Some c
  ∧ metav1.ObservedGeneration c = GetGeneration updateRun.

Definition noCurrent (updateRun : UpdateRunObj) (conditionType : string) : Prop :=
  ∀ c, ¬ hasCurrent updateRun conditionType c.

(** The series of the status gauge for a condition of a run, and the world
    after that gauge was set at time [now]. *)
Definition statusSeries (updateRun : UpdateRunObj) (conditionType : string)
           (c : metav1.Condition) : list string :=
  [GetRunNamespace updateRun; GetName updateRun; State (GetUpdateRunSpec updateRun);
   conditionType; metav1.Status c; metav1.Reason c].

Definition withStatusGauge (now : Z) (updateRun : UpdateRunObj) (conditionType : string)
           (c : metav1.Condition) (w : World) : World :=
  setMetrics (fun r =>
    hubmetrics.with_UpdateRunStatus
      (<[statusSeries updateRun conditionType c := prometheus.unixSeconds now]>
         (hubmetrics.FleetUpdateRunStatusLastTimestampSeconds r)) r) w.

(** A failed run at generation 1: initialized, no longer progressing, and
    Succeeded is false. *)
Definition testCondition (conditionType status reason : string) : metav1.Condition :=
  {| metav1.Type_ := conditionType; metav1.Status := status;
     metav1.ObservedGeneration := 1; metav1.LastTransitionTime := 1000 * time.Second;
     metav1.Reason := reason; metav1.Message := "" |}.

Definition failedRun : UpdateRunObj :=
  {| ObjectMeta := {| metav1.Name := "run-1"; metav1.Namespace := "test-ns";
                      metav1.Generation := 1 |};
     Spec := {| State := "Run" |};
     Status := {| Conditions :=
       [ testCondition StagedUpdateRunConditionInitialized metav1.ConditionTrue
           "UpdateRunInitialized";
         testCondition StagedUpdateRunConditionProgressing metav1.ConditionFalse
           "UpdateRunFailed";
         testCondition StagedUpdateRunConditionSucceeded metav1.ConditionFalse
           "UpdateRunFailed" ] |} |}.
End UpdateRunStatusVocabulary.

Section StageDurationVocabulary.
Import placementv1beta1 updaterun.

(** The stage-duration series of a run, its samples, and the world after one
    more observation in it. *)
Definition stageSeries (updateRun : UpdateRunObj) : list string :=
  [GetRunNamespace updateRun; GetName updateRun].
Definition stageSamples (updateRun : UpdateRunObj) (w : World) : list spec_float :=
  samples (hubmetrics.FleetUpdateRunStageClusterUpdatingDurationSeconds (metrics w))
          (stageSeries updateRun).
Definition withStageSample (updateRun : UpdateRunObj) (x : spec_float) (w : World) : World :=
  setMetrics (fun r =>
    hubmetrics.with_StageClusterUpdatingDuration
      (<[stageSeries updateRun :=
           (samples (hubmetrics.FleetUpdateRunStageClusterUpdatingDurationSeconds r)
                    (stageSeries updateRun) ++ [x])%list]>
         (hubmetrics.FleetUpdateRunStageClusterUpdatingDurationSeconds r)) r) w.
End StageDurationVocabulary.

Section RateLimiterVocabulary.
Import options.

(** The options with every non-positive field replaced by its default. *)
Definition withDefaults (opts : RateLimitOptions) : RateLimitOptions :=
  {| RateLimiterBaseDelay :=
       if RateLimiterBaseDelay opts <=? 0 then 5 * time.Millisecond
       else RateLimiterBaseDelay opts;
     RateLimiterMaxDelay :=
       if RateLimiterMaxDelay opts <=? 0 then 60 * time.Second
       else RateLimiterMaxDelay opts;
     RateLimiterQPS := if RateLimiterQPS opts <=? 0 then 10 else RateLimiterQPS opts;
     RateLimiterBucketSize :=
       if RateLimiterBucketSize opts <=? 0 then 100 else RateLimiterBucketSize opts |}.

Definition zeroRateLimitOptions : RateLimitOptions :=
  {| RateLimiterBaseDelay := 0; RateLimiterMaxDelay := 0;
     RateLimiterQPS := 0; RateLimiterBucketSize := 0 |}.

Definition defaultRateLimitOptions : RateLimitOptions :=
  {| RateLimiterBaseDelay := 5 * time.Millisecond; RateLimiterMaxDelay := 60 * time.Second;
     RateLimiterQPS := 10; RateLimiterBucketSize := 100 |}.
End RateLimiterVocabulary.

Section ValidateVocabulary.
Import options.

(** The error list reports an error on the field of the given path. *)
Definition reports (path : list string) (errs : list field.Error) : bool :=
  existsb (fun e => String.eqb (field.Field e) (field.String path)) errs.

(** The options of the validation tests, with the QPS and the bucket size of
    the rate limiter as given. *)
Definition newTestOptions (qps bucketSize : Z) : Options :=
  {| CtrlMgrOpts :=
       {| HealthProbeBindAddress := ""; MetricsBindAddress := ""; EnablePprof := false;
          PprofPort := 0; HubQPS := float64.of_int 250; HubBurst := 1000;
          ResyncPeriod := 0 |};
     WebhookOpts :=
       {| EnableWebhooks := false; ClientConnectionType := "url";
          ServiceName := "test-webhook"; EnableGuardRail := false;
          GuardRailWhitelistedUsers := ""; GuardRailDenyModifyMemberClusterLabels := false;
          EnableWorkload := false; UseCertManager := false |};
     PlacementMgmtOpts :=
       {| WorkPendingGracePeriod := 0;
          SkippedPropagatingAPIs := "fleet.azure.com;multicluster.x-k8s.io";
          AllowedPropagatingAPIs := ""; SkippedPropagatingNamespaces := "";
          ConcurrentResourceChangeSyncs := 0; MaxFleetSize := 0;
          MaxConcurrentClusterPlacement := 0;
          PlacementControllerWorkQueueRateLimiterOpts :=
            {| RateLimiterBaseDelay := 5 * time.Millisecond;
               RateLimiterMaxDelay := 60 * time.Second;
               RateLimiterQPS := qps; RateLimiterBucketSize := bucketSize |};
          ResourceSnapshotCreationMinimumInterval := 0;
          ResourceChangesCollectionDuration := 0 |} |}.

Definition qpsDetail : string :=
  "the QPS for the placement controller set rate limiter must be less than its bucket size".
End ValidateVocabulary.

Section UpdateRunScenariosVocabulary.
Import placementv1beta1 updaterun.

(** A task whose approval carries the generation before the run's. *)
Definition testStaleTask : StageTaskStatus :=
  {| TaskConditions :=
       [ testCreated;
         {| metav1.Type_ := StageTaskConditionApprovalRequestApproved;
            metav1.Status := metav1.ConditionTrue;
            metav1.ObservedGeneration := 0;
            metav1.LastTransitionTime := 1060 * time.Second;
            metav1.Reason := "ApprovalRequestApproved"; metav1.Message := "" |} ] |}.

(** A second run in the same namespace. *)
Definition otherRun : UpdateRunObj :=
  {| ObjectMeta := {| metav1.Name := "run-2"; metav1.Namespace := "test-ns";
                      metav1.Generation := 1 |};
     Spec := {| State := "Run" |};
     Status := {| Conditions := [] |} |}.

(** A run that is initialized and progressing at generation 1. *)
Definition progressingRun : UpdateRunObj :=
  {| ObjectMeta := {| metav1.Name := "run-1"; metav1.Namespace := "test-ns";
                      metav1.Generation := 1 |};
     Spec := {| State := "Run" |};
     Status := {| Conditions :=
       [ testCondition StagedUpdateRunConditionInitialized metav1.ConditionTrue
           "UpdateRunInitialized";
         testCondition StagedUpdateRunConditionProgressing metav1.ConditionTrue
           "UpdateRunProgressing" ] |} |}.

Definition testStartedStage : StageUpdatingStatus :=
  {| StartTime := Some (1000 * time.Second) |}.

(** A world in which both runs have a series in each of the three vectors of
    an update run. *)
Definition populatedWorld : World :=
  {| metrics :=
       {| hubmetrics.FleetPlacementStatusLastTimeStampSeconds := ∅;
          hubmetrics.FleetEvictionStatus := ∅;
          hubmetrics.FleetUpdateRunStatusLastTimestampSeconds :=
            {[ ["test-ns"; "run-1"; "Run"; "Progressing"; "True"; "UpdateRunProgressing"]
                 := prometheus.unixSeconds (2000 * time.Second);
               ["test-ns"; "run-2"; "Run"; "Progressing"; "True"; "UpdateRunProgressing"]
                 := prometheus.unixSeconds (2000 * time.Second) ]};
          hubmetrics.FleetUpdateRunApprovalRequestLatencySeconds :=
            {[ ["test-ns"; "run-1"; "beforeStage"] := [sixtySeconds];
               ["test-ns"; "run-2"; "beforeStage"] := [sixtySeconds] ]};
          hubmetrics.FleetUpdateRunStageClusterUpdatingDurationSeconds :=
            {[ ["test-ns"; "run-1"] := [sixtySeconds];
               ["test-ns"; "run-2"] := [sixtySeconds] ]};
          hubmetrics.SchedulingCycleDurationMilliseconds := ∅;
          hubmetrics.SchedulerActiveWorkers := ∅ |};
     log := [] |}.
End UpdateRunScenariosVocabulary.

Section FlagValuesVocabulary.
Import options.

(** The number of decimal digits [fmt.formatDigits] writes for [n]. *)
Fixpoint width (fuel : nat) (n : Z) : nat :=
  match fuel with
  | O => O
  | S f => if n <? 10 then 1%nat else S (width f (n / 10))
  end.

Definition isInt64 (n : Z) : Prop := - 2 ^ 63 ≤ n ≤ 2 ^ 63 - 1.

Definition between (lo hi : Z) (v : Z) : Prop := lo ≤ v ≤ hi.

(** A flag value keeps a range: a rejected [Set] leaves the field as it was,
    an accepted one stores a value of the range, and so a field that starts
    in the range is in it after any number of occurrences of the flag. *)
Definition keepsRange {T : Type} (set : T -> string -> T * option errors.error)
           (inRange : T -> Prop) : Prop :=
  (∀ v s, snd (set v s) ≠ None → fst (set v s) = v)
  ∧ (∀ v s, snd (set v s) = None → inRange (fst (set v s)))
  ∧ (∀ v occurrences, inRange v → inRange (fst (setAll set occurrences v))).

(** Printing a field with [String] and giving the result back to [Set]: a
    value of the range is stored again, any other 64-bit value is rejected
    and the field stays as it was. *)
Definition readsBack (set : Z -> string -> Z * option errors.error)
           (toString : Z -> string) (lo hi : Z) : Prop :=
  ∀ v n, isInt64 n →
    (between lo hi n → set v (toString n) = (n, None))
    ∧ (¬ between lo hi n →
       fst (set v (toString n)) = v ∧ snd (set v (toString n)) ≠ None).

(** The ranges of the four rate limiter fields. *)
Definition rateLimiterRanges (o : RateLimitOptions) : Prop :=
  between time.Millisecond (200 * time.Millisecond) (RateLimiterBaseDelay o)
  ∧ between time.Second (5 * time.Minute) (RateLimiterMaxDelay o)
  ∧ between 1 1000 (RateLimiterQPS o)
  ∧ between 1 10000 (RateLimiterBucketSize o).

(** The strings strconv.ParseBool reads as true. *)
Definition trueSpellings : list string := ["1"; "t"; "T"; "TRUE"; "true"; "True"].

(** A parser of durations for trying the flags on: it knows a few spellings. *)
Definition testParseDuration (s : string) : time.Duration * option errors.error :=
  if String.eqb s "10ms" then (10 * time.Millisecond, None)
  else if String.eqb s "1s" then (time.Second, None)
  else if String.eqb s "2m" then (2 * time.Minute, None)
  else if String.eqb s "10m" then (10 * time.Minute, None)
  else (0, Some (errors.Other "time: invalid duration")).

(** A parser of floats for trying the QPS flag on. *)
Definition testParseFloat (s : string) : float64.t * option errors.error :=
  if String.eqb s "NaN" then (S754_nan, None)
  else if String.eqb s "0" then (float64.of_int 0, None)
  else if String.eqb s "-5" then (float64.of_int (-5), None)
  else if String.eqb s "250" then (float64.of_int 250, None)
  else (float64.of_int 0, Some (errors.Other "strconv.ParseFloat: invalid syntax")).

(** Options whose rate limiter group is given. *)
Definition optionsWithRateLimiter (rl : RateLimitOptions) : Options :=
  {| CtrlMgrOpts := CtrlMgrOpts (newTestOptions 10 100);
     WebhookOpts := WebhookOpts (newTestOptions 10 100);
     PlacementMgmtOpts :=
       {| WorkPendingGracePeriod := 15 * time.Second;
          SkippedPropagatingAPIs := ""; AllowedPropagatingAPIs := "";
          SkippedPropagatingNamespaces := "";
          ConcurrentResourceChangeSyncs := 20; MaxFleetSize := 100;
          MaxConcurrentClusterPlacement := 100;
          PlacementControllerWorkQueueRateLimiterOpts := rl;
          ResourceSnapshotCreationMinimumInterval := 30 * time.Second;
          ResourceChangesCollectionDuration := 15 * time.Second |} |}.

(** The rate limiter options after -rate-limiter-base-delay=10ms and
    -rate-limiter-max-delay=10m, the second of which is rejected. *)
Definition flagsExample : RateLimitOptions :=
  {| RateLimiterBaseDelay := 10 * time.Millisecond;
     RateLimiterMaxDelay := 60 * time.Second;
     RateLimiterQPS := 10; RateLimiterBucketSize := 100 |}.

(** The fields Validate can report, in the order it checks them. *)
Definition validatedFields : list string :=
  [ "Options.HubBurst"; "Options.WebhookServiceName"; "Options.UseCertManager";
    "Options.AllowedPropagatingAPIs";
    "Options.PlacementControllerWorkQueueRateLimiterOpts.RateLimiterBaseDelay";
    "Options.PlacementControllerWorkQueueRateLimiterOpts.RateLimiterQPS" ].

(** Options with client-side throttling disabled and the smallest burst the
    hub-api-burst flag accepts. *)
Definition throttlingDisabledOptions : Options :=
  {| CtrlMgrOpts :=
       {| HealthProbeBindAddress := ":8081"; MetricsBindAddress := ":8080";
          EnablePprof := false; PprofPort := 6065;
          HubQPS := float64.of_int (-1); HubBurst := 10;
          ResyncPeriod := 6 * time.Hour |};
     WebhookOpts := WebhookOpts (newTestOptions 10 100);
     PlacementMgmtOpts := PlacementMgmtOpts (newTestOptions 10 100) |}.
End FlagValuesVocabulary.

Section EmissionsVocabulary.
Import placementv1beta1 updaterun.

(** One call of a function that emits for an update run, with its arguments. *)
Inductive Emission :=
| EmitStatus (now : Z) (updateRun : UpdateRunObj)
| RecordApproval (stageTaskStatus : StageTaskStatus) (updateRun : UpdateRunObj)
                 (taskType : string)
| RecordStage (now : Z) (stageStatus : StageUpdatingStatus) (updateRun : UpdateRunObj).

Definition emissionRun (e : Emission) : UpdateRunObj :=
  match e with
  | EmitStatus _ r => r
  | RecordApproval _ r _ => r
  | RecordStage _ _ r => r
  end.

Definition emitOne (e : Emission) (w : World) : option World :=
  match e with
  | EmitStatus now r => emitUpdateRunStatusMetric now r w
  | RecordApproval ts r taskType => recordApprovalRequestLatency ts r taskType w
  | RecordStage now ss r => recordStageClusterUpdatingDuration now ss r w
  end.

(** The calls of a list, one after the other. *)
Fixpoint emitAll (es : list Emission) (w : World) : option World :=
  match es with
  | [] => Some w
  | e :: rest => w1 ← emitOne e w; emitAll rest w1
  end.

(** Two run objects are the same run: same namespace and name (the
    generation, state and conditions may differ). *)
Definition sameRun (r r' : UpdateRunObj) : Prop :=
  GetRunNamespace r = GetRunNamespace r' ∧ GetName r = GetName r'.

(** Every call of the list is for the run [r]. *)
Definition allFor (r : UpdateRunObj) (es : list Emission) : Prop :=
  Forall (λ e, sameRun (emissionRun e) r) es.

(** From [w] to [w'], only series bearing the labels of [r] changed, and
    only in the three vectors of an update run. *)
Definition onlyRunTouched (r : UpdateRunObj) (w w' : World) : Prop :=
  (∀ lvs, ¬ bearsRun hubmetrics.FleetUpdateRunStatusLastTimestampSeconds_labels r lvs →
          hubmetrics.FleetUpdateRunStatusLastTimestampSeconds (metrics w') !! lvs
          = hubmetrics.FleetUpdateRunStatusLastTimestampSeconds (metrics w) !! lvs)
  ∧ (∀ lvs, ¬ bearsRun hubmetrics.FleetUpdateRunApprovalRequestLatencySeconds_labels r lvs →
            hubmetrics.FleetUpdateRunApprovalRequestLatencySeconds (metrics w') !! lvs
            = hubmetrics.FleetUpdateRunApprovalRequestLatencySeconds (metrics w) !! lvs)
  ∧ (∀ lvs,
       ¬ bearsRun hubmetrics.FleetUpdateRunStageClusterUpdatingDurationSeconds_labels r lvs →
       hubmetrics.FleetUpdateRunStageClusterUpdatingDurationSeconds (metrics w') !! lvs
       = hubmetrics.FleetUpdateRunStageClusterUpdatingDurationSeconds (metrics w) !! lvs)
  ∧ hubmetrics.FleetPlacementStatusLastTimeStampSeconds (metrics w')
    = hubmetrics.FleetPlacementStatusLastTimeStampSeconds (metrics w)
  ∧ hubmetrics.FleetEvictionStatus (metrics w') = hubmetrics.FleetEvictionStatus (metrics w)
  ∧ hubmetrics.SchedulingCycleDurationMilliseconds (metrics w')
    = hubmetrics.SchedulingCycleDurationMilliseconds (metrics w)
  ∧ hubmetrics.SchedulerActiveWorkers (metrics w')
    = hubmetrics.SchedulerActiveWorkers (metrics w).

(** From [w] to [w'] nothing was lost: every status series is still there,
    and every histogram series holds its former samples, in order, followed
    by the new ones. *)
Definition nothingLost (w w' : World) : Prop :=
  (∀ lvs, is_Some (hubmetrics.FleetUpdateRunStatusLastTimestampSeconds (metrics w) !! lvs) →
          is_Some (hubmetrics.FleetUpdateRunStatusLastTimestampSeconds (metrics w') !! lvs))
  ∧ (∀ lvs, samples (hubmetrics.FleetUpdateRunApprovalRequestLatencySeconds (metrics w)) lvs
            `prefix_of`
            samples (hubmetrics.FleetUpdateRunApprovalRequestLatencySeconds (metrics w')) lvs)
  ∧ (∀ lvs,
       samples (hubmetrics.FleetUpdateRunStageClusterUpdatingDurationSeconds (metrics w)) lvs
       `prefix_of`
       samples (hubmetrics.FleetUpdateRunStageClusterUpdatingDurationSeconds (metrics w'))
         lvs).

(** What one call for the run [r] can turn [w] into. *)
Inductive emitted (r : UpdateRunObj) (w : World) : World -> Prop :=
| emitted_nothing : emitted r w w
| emitted_log (v : Z) (line : string) : emitted r w (InfoS v line w)
| emitted_status (now : Z) (conditionType : string) (c : metav1.Condition) :
    emitted r w (withStatusGauge now r conditionType c w)
| emitted_approval (taskType : string) (x : spec_float) :
    emitted r w (withApprovalSample r taskType x w)
| emitted_stage (x : spec_float) : emitted r w (withStageSample r x w).

(** The run progresses, a task of it is approved and its stage is observed;
    then the run fails. All four calls are for run-1 of test-ns. *)
Definition testEmissions : list Emission :=
  [ EmitStatus (2000 * time.Second) progressingRun;
    RecordApproval testApprovedTask testRun "beforeStage";
    RecordStage (1060 * time.Second) testStartedStage testRun;
    EmitStatus (3000 * time.Second) failedRun ].
End EmissionsVocabulary.


(* ===================================================================== *)
(** * Lemmas: looking a condition up *)
(* ===================================================================== *)

Section FindStatusCondition.
Import metav1 meta.

Lemma FindStatusCondition_Some conds ty c :
  FindStatusCondition conds ty = Some c → c ∈ conds ∧ Type_ c = ty.
Proof.
  induction conds as [|d rest IH]; simpl; [discriminate|].
  destruct (String.eqb_spec (Type_ d) ty) as [Heq|Hne].
  - intros [= ->]. split; [apply list_elem_of_here | exact Heq].
  - intros H. destruct (IH H) as [Hin Hty].
    split; [by apply list_elem_of_further | exact Hty].
Qed.

Lemma FindStatusCondition_None conds ty :
  FindStatusCondition conds ty = None ↔ ∀ c, c ∈ conds → Type_ c ≠ ty.
Proof.
  induction conds as [|d rest IH]; simpl.
  - split; [|done]. intros _ c Hc. by apply not_elem_of_nil in Hc.
  - destruct (String.eqb_spec (Type_ d) ty) as [Heq|Hne].
    + split; [discriminate|]. intros H. exfalso.
      exact (H d (list_elem_of_here _ _) Heq).
    + rewrite IH. split.
      * intros H c Hc. apply elem_of_cons in Hc as [->|Hc]; [exact Hne | by apply H].
      * intros H c Hc. apply H. by apply list_elem_of_further.
Qed.

(** A condition of the type is carried exactly when the lookup finds one. *)
Lemma FindStatusCondition_present conds ty :
  (∃ c, c ∈ conds ∧ Type_ c = ty) ↔ is_Some (FindStatusCondition conds ty).
Proof.
  split.
  - intros (c & Hc & Hty).
    destruct (FindStatusCondition conds ty) eqn:E; [by eexists|].
    exfalso. exact (proj1 (FindStatusCondition_None conds ty) E c Hc Hty).
  - intros [c Hc]. exists c. by apply FindStatusCondition_Some.
Qed.
End FindStatusCondition.

(* ===================================================================== *)
(** * Lemmas: the namespace-affinity plugin *)
(* ===================================================================== *)

Section NamespaceAffinity.
Import framework namespaceaffinity.

(** C1. For a namespace-scoped snapshot with target namespace N and any
    cluster, Filter returns: nil when the cluster carries no capability
    condition; ClusterUnschedulable "cluster has no namespace information
    available" when it carries one (of any status) and the inventory is nil;
    ClusterUnschedulable "target namespace does not exist on cluster" when it
    carries one, the inventory is non-nil and N is not a key; nil when N is a
    key, whatever it maps to. *)
Theorem Filter_outcomes (condType : string) (p : Plugin)
        (ps : placementv1beta1.PolicySnapshotObj)
        (cluster : clusterv1beta1.MemberCluster) :
  placementv1beta1.GetNamespace ps ≠ "" →
  (¬ carriesCondition condType cluster → Filter condType p ps cluster = None)
  ∧ (carriesCondition condType cluster →
     clusterv1beta1.Namespaces (clusterv1beta1.Status cluster) = None →
     Filter condType p ps cluster
     = unschedulable p "cluster has no namespace information available")
  ∧ (carriesCondition condType cluster →
     ∀ inventory,
       clusterv1beta1.Namespaces (clusterv1beta1.Status cluster) = Some inventory →
       inventory !! placementv1beta1.GetNamespace ps = None →
       Filter condType p ps cluster
       = unschedulable p "target namespace does not exist on cluster")
  ∧ (carriesCondition condType cluster →
     ∀ inventory work,
       clusterv1beta1.Namespaces (clusterv1beta1.Status cluster) = Some inventory →
       inventory !! placementv1beta1.GetNamespace ps = Some work →
       Filter condType p ps cluster = None).
Proof.
  intros _. unfold carriesCondition, Filter, unschedulable, NewNonErrorStatus.
  rewrite FindStatusCondition_present.
  destruct (meta.FindStatusCondition _ condType) as [c|] eqn:Hfind.
  - split; [intros H; exfalso; apply H; by eexists|].
    split; [intros _ ->; reflexivity|].
    split; [intros _ inventory -> ->; reflexivity|].
    intros _ inventory work -> ->; reflexivity.
  - split; [reflexivity|].
    repeat split; intros [? [=]].
Qed.

(** C2. PreFilter returns a Skip status exactly for the cluster-scoped
    snapshots (empty namespace), nil for every namespace-scoped one, and
    never an error status. *)
Theorem PreFilter_skip_iff_cluster_scoped (p : Plugin)
        (ps : placementv1beta1.PolicySnapshotObj) :
  (IsSkip (PreFilter p ps) = true ↔ placementv1beta1.GetNamespace ps = "")
  ∧ (placementv1beta1.GetNamespace ps = "" ↔
     PreFilter p ps
     = Some {| code := Skip; pluginName := Name p;
               message := "cluster-scoped placement does not require namespace affinity filtering";
               cause := None |})
  ∧ (placementv1beta1.GetNamespace ps ≠ "" ↔ PreFilter p ps = None)
  ∧ IsInternalError (PreFilter p ps) = false
  ∧ (∀ st, PreFilter p ps = Some st → cause st = None).
Proof.
  unfold PreFilter, NewNonErrorStatus.
  destruct (String.eqb_spec (placementv1beta1.GetNamespace ps) "") as [Heq|Hne]; simpl.
  - repeat split; try done. by intros st [= <-].
  - repeat split; try done.
Qed.
End NamespaceAffinity.

Section NamespaceAffinityScenarios.
Import framework namespaceaffinity.

Lemma testCluster_carries status rest namespaces :
  carriesCondition testCondType
    (testCluster (testCollectionCondition status :: rest) namespaces).
Proof.
  exists (testCollectionCondition status). split; [apply list_elem_of_here | reflexivity].
Defined.

(** C1 on the scenarios of the unit tests: no condition; condition False and
    nil inventory; condition True and another namespace only; condition True
    and the namespace mapped to the empty string. *)
Lemma Filter_outcomes_witness :
  Filter testCondType (New []) testSnapshot (testCluster [] None) = None
  ∧ Filter testCondType (New []) testSnapshot
      (testCluster [testCollectionCondition metav1.ConditionFalse] None)
    = unschedulable (New []) "cluster has no namespace information available"
  ∧ Filter testCondType (New []) testSnapshot
      (testCluster [testCollectionCondition metav1.ConditionTrue]
         (Some {["other-namespace" := "work-1"]}))
    = unschedulable (New []) "target namespace does not exist on cluster"
  ∧ Filter testCondType (New []) testSnapshot
      (testCluster [testCollectionCondition metav1.ConditionTrue]
         (Some {["test-namespace" := ""]}))
    = None.
Proof.
  assert (Hns : placementv1beta1.GetNamespace testSnapshot ≠ "") by discriminate.
  split; [|split; [|split]].
  - apply (Filter_outcomes testCondType (New []) testSnapshot (testCluster [] None) Hns).
    intros (c & Hc & _). simpl in Hc. by apply not_elem_of_nil in Hc.
  - apply (Filter_outcomes testCondType (New []) testSnapshot _ Hns).
    + apply testCluster_carries.
    + reflexivity.
  - apply (Filter_outcomes testCondType (New []) testSnapshot _ Hns)
      with (inventory := {["other-namespace" := "work-1"]}).
    + apply testCluster_carries.
    + reflexivity.
    + reflexivity.
  - apply (Filter_outcomes testCondType (New []) testSnapshot _ Hns)
      with (inventory := {["test-namespace" := ""]}) (work := "").
    + apply testCluster_carries.
    + reflexivity.
    + reflexivity.
Defined.

(** C2 on the two snapshots of the unit test. *)
Lemma PreFilter_skip_iff_cluster_scoped_witness :
  IsSkip (PreFilter (New [])
            {| placementv1beta1.psObjectMeta :=
                 {| metav1.Name := "test-policy"; metav1.Namespace := "";
                    metav1.Generation := 1 |} |}) = true
  ∧ PreFilter (New []) testSnapshot = None.
Proof.
  split.
  - by apply (PreFilter_skip_iff_cluster_scoped (New [])).
  - by apply (PreFilter_skip_iff_cluster_scoped (New []) testSnapshot).
Defined.
End NamespaceAffinityScenarios.

(* ===================================================================== *)
(** * Lemmas: metric vectors *)
(* ===================================================================== *)

Section MetricVectors.
Import prometheus.

Lemma matchPartialLabels_spec (variableLabels values : list string)
      (labels : list (string * string)) :
  matchPartialLabels variableLabels values labels = true
  ↔ ∀ l v, (l, v) ∈ labels → labelValue variableLabels values l = Some v.
Proof.
  unfold matchPartialLabels, labelValue. rewrite forallb_forall. split.
  - intros H l v Hin. apply list_elem_of_In in Hin. specialize (H _ Hin). simpl in H.
    destruct (indexOf l variableLabels) as [i|]; [|discriminate].
    destruct (values !! i) as [x|]; [|discriminate].
    apply String.eqb_eq in H. by subst.
  - intros H [l v] Hin. apply list_elem_of_In in Hin. specialize (H _ _ Hin). simpl.
    destruct (indexOf l variableLabels) as [i|]; [|discriminate].
    rewrite H. apply String.eqb_refl.
Qed.

Lemma lookup_DeletePartialMatch {M : Type} (variableLabels : list string)
      (labels : list (string * string)) (m : gmap (list string) M) (lvs : list string) :
  DeletePartialMatch variableLabels labels m !! lvs
  = if matchPartialLabels variableLabels lvs labels then None else m !! lvs.
Proof.
  unfold DeletePartialMatch.
  destruct (matchPartialLabels variableLabels lvs labels) eqn:Hm.
  - apply map_lookup_filter_None. right. intros x _. simpl. congruence.
  - destruct (m !! lvs) as [x|] eqn:Hx.
    + apply map_lookup_filter_Some. split; [exact Hx | exact Hm].
    + apply map_lookup_filter_None. by left.
Qed.

Lemma Observe_Some (variableLabels lvs : list string) (x : spec_float)
      (h : gmap (list string) (list spec_float)) :
  length lvs = length variableLabels →
  Observe variableLabels lvs x h = Some (<[lvs := (samples h lvs ++ [x])%list]> h).
Proof.
  intros Hlen. unfold Observe, validateLabelValues.
  by rewrite (proj2 (Nat.eqb_eq _ _) Hlen).
Qed.

Lemma samples_insert_eq (lvs : list string) (l : list spec_float) (h : gmap (list string) (list spec_float)) :
  samples (<[lvs := l]> h) lvs = l.
Proof. unfold samples. by rewrite lookup_insert_eq. Qed.

Lemma samples_insert_ne (lvs lvs' : list string) (l : list spec_float) (h : gmap (list string) (list spec_float)) :
  lvs ≠ lvs' → samples (<[lvs := l]> h) lvs' = samples h lvs'.
Proof. intros Hne. unfold samples. by rewrite lookup_insert_ne. Qed.
End MetricVectors.

(* ===================================================================== *)
(** * Lemmas: the metrics of an update run *)
(* ===================================================================== *)

Section UpdateRunMetrics.
Import placementv1beta1 updaterun.

Lemma matchPartialLabels_runLabels (variableLabels : list string)
      (updateRun : UpdateRunObj) (lvs : list string) :
  prometheus.matchPartialLabels variableLabels lvs (runLabels updateRun) = true
  ↔ bearsRun variableLabels updateRun lvs.
Proof.
  rewrite matchPartialLabels_spec. unfold runLabels, bearsRun. split.
  - intros H. split; apply H; set_solver.
  - intros [Hns Hname] l v Hin.
    apply elem_of_cons in Hin as [[= -> ->]|Hin]; [exact Hns|].
    apply elem_of_cons in Hin as [[= -> ->]|Hin]; [exact Hname|].
    by apply not_elem_of_nil in Hin.
Qed.

Lemma DeletePartialMatch_runSeriesRemoved {M : Type} (variableLabels : list string)
      (updateRun : UpdateRunObj) (m : gmap (list string) M) :
  runSeriesRemoved variableLabels updateRun m
    (prometheus.DeletePartialMatch variableLabels (runLabels updateRun) m).
Proof.
  intros lvs. rewrite lookup_DeletePartialMatch.
  destruct (prometheus.matchPartialLabels variableLabels lvs (runLabels updateRun)) eqn:Hm.
  - split; [done|]. intros Hn. exfalso. apply Hn.
    by apply matchPartialLabels_runLabels.
  - split; [|done]. intros Hb. apply matchPartialLabels_runLabels in Hb. congruence.
Qed.

(** C6. deleteUpdateRunMetrics removes, in one pass, every series bearing the
    namespace and name of the run from the status-timestamp gauge, the
    stage-updating-duration histogram and the approval-request-latency
    histogram; the series of every other run, and everything else, stay as
    they were. *)
Theorem deleteUpdateRunMetrics_removes_run_series (updateRun : UpdateRunObj) (w : World) :
  runSeriesRemoved hubmetrics.FleetUpdateRunStatusLastTimestampSeconds_labels updateRun
    (hubmetrics.FleetUpdateRunStatusLastTimestampSeconds (metrics w))
    (hubmetrics.FleetUpdateRunStatusLastTimestampSeconds
       (metrics (deleteUpdateRunMetrics updateRun w)))
  ∧ runSeriesRemoved hubmetrics.FleetUpdateRunStageClusterUpdatingDurationSeconds_labels
      updateRun
      (hubmetrics.FleetUpdateRunStageClusterUpdatingDurationSeconds (metrics w))
      (hubmetrics.FleetUpdateRunStageClusterUpdatingDurationSeconds
         (metrics (deleteUpdateRunMetrics updateRun w)))
  ∧ runSeriesRemoved hubmetrics.FleetUpdateRunApprovalRequestLatencySeconds_labels updateRun
      (hubmetrics.FleetUpdateRunApprovalRequestLatencySeconds (metrics w))
      (hubmetrics.FleetUpdateRunApprovalRequestLatencySeconds
         (metrics (deleteUpdateRunMetrics updateRun w)))
  ∧ hubmetrics.FleetPlacementStatusLastTimeStampSeconds
      (metrics (deleteUpdateRunMetrics updateRun w))
    = hubmetrics.FleetPlacementStatusLastTimeStampSeconds (metrics w)
  ∧ hubmetrics.FleetEvictionStatus (metrics (deleteUpdateRunMetrics updateRun w))
    = hubmetrics.FleetEvictionStatus (metrics w)
  ∧ hubmetrics.SchedulingCycleDurationMilliseconds
      (metrics (deleteUpdateRunMetrics updateRun w))
    = hubmetrics.SchedulingCycleDurationMilliseconds (metrics w)
  ∧ hubmetrics.SchedulerActiveWorkers (metrics (deleteUpdateRunMetrics updateRun w))
    = hubmetrics.SchedulerActiveWorkers (metrics w)
  ∧ log (deleteUpdateRunMetrics updateRun w) = log w.
Proof.
  unfold deleteUpdateRunMetrics, setMetrics; simpl.
  repeat split; try reflexivity; apply DeletePartialMatch_runSeriesRemoved.
Qed.
End UpdateRunMetrics.

Section ApprovalLatency.
Import placementv1beta1 updaterun.

Lemma IsConditionStatusTrue_iff cond generation :
  condition.IsConditionStatusTrue cond generation = true ↔ currentlyTrue cond generation.
Proof.
  unfold condition.IsConditionStatusTrue, currentlyTrue. destruct cond as [c|].
  - rewrite andb_true_iff, String.eqb_eq, Z.eqb_eq. split.
    + intros [Hs Hg]. by exists c.
    + by intros (c' & [= <-] & Hs & Hg).
  - split; [discriminate|]. by intros (c & [=] & _).
Qed.

Lemma time_Sub_exact t u :
  time.minDuration ≤ t - u ≤ time.maxDuration → time.Sub t u = t - u.
Proof.
  intros [Hlo Hhi]. unfold time.Sub.
  by rewrite (proj2 (Z.leb_le _ _) Hlo), (proj2 (Z.leb_le _ _) Hhi).
Qed.

Lemma approvalSamples_withApprovalSample updateRun taskType x w :
  approvalSamples updateRun taskType (withApprovalSample updateRun taskType x w)
  = (approvalSamples updateRun taskType w ++ [x])%list.
Proof. unfold approvalSamples, withApprovalSample; simpl. apply samples_insert_eq. Qed.

(** What one call does, by cases on the two conditions. *)
Lemma recordApprovalRequestLatency_recorded ts updateRun taskType w created approved :
  approvalCreated ts = Some created →
  approvalApproved ts = Some approved →
  currentlyTrue (Some created) (GetGeneration updateRun) →
  currentlyTrue (Some approved) (GetGeneration updateRun) →
  recordApprovalRequestLatency ts updateRun taskType w
  = Some (withApprovalSample updateRun taskType (approvalLatency created approved) w).
Proof.
  unfold approvalCreated, approvalApproved, recordApprovalRequestLatency.
  intros -> -> Hc Ha.
  apply IsConditionStatusTrue_iff in Hc. apply IsConditionStatusTrue_iff in Ha.
  rewrite Hc, Ha. reflexivity.
Qed.

Lemma recordApprovalRequestLatency_skipped ts updateRun taskType w :
  ¬ (currentlyTrue (approvalCreated ts) (GetGeneration updateRun)
     ∧ currentlyTrue (approvalApproved ts) (GetGeneration updateRun)) →
  recordApprovalRequestLatency ts updateRun taskType w = Some w.
Proof.
  unfold approvalCreated, approvalApproved, recordApprovalRequestLatency.
  rewrite <- !IsConditionStatusTrue_iff. intros H.
  destruct (condition.IsConditionStatusTrue _ _) eqn:E1; [|reflexivity].
  destruct (condition.IsConditionStatusTrue
              (meta.FindStatusCondition _ StageTaskConditionApprovalRequestApproved) _)
    eqn:E2; [|reflexivity].
  exfalso. by apply H.
Qed.

(** C3. recordApprovalRequestLatency never panics; it adds a sample to the
    approval-latency series of the run and task type exactly when both the
    ApprovalRequestCreated and the ApprovalRequestApproved condition of the
    task are present, true and of the run's current generation; the sample
    is then the time from the first transition to the second, in seconds;
    otherwise nothing changes. *)
Theorem recordApprovalRequestLatency_emits_iff (ts : StageTaskStatus)
        (updateRun : UpdateRunObj) (taskType : string) (w : World) :
  ∃ w',
    recordApprovalRequestLatency ts updateRun taskType w = Some w'
    ∧ (length (approvalSamples updateRun taskType w')
       = S (length (approvalSamples updateRun taskType w))
       ↔ currentlyTrue (approvalCreated ts) (GetGeneration updateRun)
         ∧ currentlyTrue (approvalApproved ts) (GetGeneration updateRun))
    ∧ (∀ created approved,
         approvalCreated ts = Some created →
         approvalApproved ts = Some approved →
         currentlyTrue (Some created) (GetGeneration updateRun) →
         currentlyTrue (Some approved) (GetGeneration updateRun) →
         w' = withApprovalSample updateRun taskType
                (time.Seconds (time.Sub (metav1.LastTransitionTime approved)
                                        (metav1.LastTransitionTime created))) w
         ∧ (time.minDuration
            ≤ metav1.LastTransitionTime approved - metav1.LastTransitionTime created
            ≤ time.maxDuration →
            time.Sub (metav1.LastTransitionTime approved)
                     (metav1.LastTransitionTime created)
            = metav1.LastTransitionTime approved - metav1.LastTransitionTime created))
    ∧ (¬ (currentlyTrue (approvalCreated ts) (GetGeneration updateRun)
          ∧ currentlyTrue (approvalApproved ts) (GetGeneration updateRun)) →
       w' = w).
Proof.
  destruct (condition.IsConditionStatusTrue (approvalCreated ts) (GetGeneration updateRun))
    eqn:Ec;
  [destruct (condition.IsConditionStatusTrue (approvalApproved ts)
               (GetGeneration updateRun)) eqn:Ea|].
  - (* both conditions count *)
    pose proof (proj1 (IsConditionStatusTrue_iff _ _) Ec) as Hc.
    pose proof (proj1 (IsConditionStatusTrue_iff _ _) Ea) as Ha.
    destruct Hc as (c & Hfc & Hc). destruct Ha as (a & Hfa & Ha).
    assert (Hc' : currentlyTrue (Some c) (GetGeneration updateRun)) by (by exists c).
    assert (Ha' : currentlyTrue (Some a) (GetGeneration updateRun)) by (by exists a).
    exists (withApprovalSample updateRun taskType (approvalLatency c a) w).
    split; [by apply recordApprovalRequestLatency_recorded|].
    split.
    { rewrite approvalSamples_withApprovalSample, length_app. simpl.
      split; [intros _; rewrite Hfc, Hfa; by split | intros _; lia]. }
    split.
    { intros created approved Hfc2 Hfa2 _ _.
      rewrite Hfc in Hfc2. rewrite Hfa in Hfa2.
      injection Hfc2 as <-. injection Hfa2 as <-.
      split; [reflexivity | apply time_Sub_exact]. }
    intros Hn. exfalso. apply Hn. rewrite Hfc, Hfa. by split.
  - (* the approved condition does not count *)
    assert (Hn : ¬ (currentlyTrue (approvalCreated ts) (GetGeneration updateRun)
                    ∧ currentlyTrue (approvalApproved ts) (GetGeneration updateRun))).
    { intros [_ Ha]. apply IsConditionStatusTrue_iff in Ha. congruence. }
    exists w. split; [by apply recordApprovalRequestLatency_skipped|].
    split; [split; [lia | done]|].
    split; [|done].
    intros created approved Hfc Hfa Hc Ha. exfalso. apply Hn.
    rewrite Hfc, Hfa. by split.
  - (* the created condition does not count *)
    assert (Hn : ¬ (currentlyTrue (approvalCreated ts) (GetGeneration updateRun)
                    ∧ currentlyTrue (approvalApproved ts) (GetGeneration updateRun))).
    { intros [Hc _]. apply IsConditionStatusTrue_iff in Hc. congruence. }
    exists w. split; [by apply recordApprovalRequestLatency_skipped|].
    split; [split; [lia | done]|].
    split; [|done].
    intros created approved Hfc Hfa Hc Ha. exfalso. apply Hn.
    rewrite Hfc, Hfa. by split.
Qed.
End ApprovalLatency.

Section ApprovalLatencyRepeated.
Import placementv1beta1 updaterun.

Lemma sixtySeconds_eq : approvalLatency testCreated testApproved = sixtySeconds.
Proof. vm_compute. reflexivity. Qed.

(** C4, refuted as stated: a second call on the same approved, unchanged task
    state adds a second sample. After one call the series holds one sample of
    60 seconds, after the second call it holds two. *)
Lemma recordApprovalRequestLatency_again_adds_sample :
  (approvalSamples testRun "beforeStage"
     <$> recordApprovalRequestLatency_times 1 testApprovedTask testRun "beforeStage"
           emptyWorld)
  = Some [sixtySeconds]
  ∧ (approvalSamples testRun "beforeStage"
       <$> recordApprovalRequestLatency_times 2 testApprovedTask testRun "beforeStage"
             emptyWorld)
    = Some [sixtySeconds; sixtySeconds].
Proof. split; vm_compute; reflexivity. Qed.

(** C4, as the code has it: the function keeps no record of what it has
    observed. On a task state whose two approval conditions are true at the
    run's current generation, every call adds one sample of the same latency:
    [n] calls in a row never panic and add [n] samples. *)
Theorem recordApprovalRequestLatency_one_sample_per_call (ts : StageTaskStatus)
        (updateRun : UpdateRunObj) (taskType : string)
        (created approved : metav1.Condition) :
  approvalCreated ts = Some created →
  approvalApproved ts = Some approved →
  currentlyTrue (Some created) (GetGeneration updateRun) →
  currentlyTrue (Some approved) (GetGeneration updateRun) →
  ∀ (n : nat) (w : World),
  ∃ w',
    recordApprovalRequestLatency_times n ts updateRun taskType w = Some w'
    ∧ approvalSamples updateRun taskType w'
      = (approvalSamples updateRun taskType w
         ++ repeat (approvalLatency created approved) n)%list.
Proof.
  intros Hfc Hfa Hc Ha n. induction n as [|n IH]; intros w.
  - exists w. split; [reflexivity|]. simpl. by rewrite app_nil_r.
  - simpl.
    rewrite (recordApprovalRequestLatency_recorded ts updateRun taskType w
               created approved Hfc Hfa Hc Ha).
    simpl.
    destruct (IH (withApprovalSample updateRun taskType
                    (approvalLatency created approved) w)) as (w' & Hrun & Hs).
    exists w'. split; [exact Hrun|].
    rewrite Hs, approvalSamples_withApprovalSample, <- app_assoc. reflexivity.
Qed.

(** C4 on the approved task: two calls, two samples. *)
Lemma recordApprovalRequestLatency_one_sample_per_call_witness :
  ∃ w',
    recordApprovalRequestLatency_times 2 testApprovedTask testRun "beforeStage" emptyWorld
    = Some w'
    ∧ approvalSamples testRun "beforeStage" w'
      = (approvalSamples testRun "beforeStage" emptyWorld
         ++ repeat (approvalLatency testCreated testApproved) 2)%list.
Proof.
  apply (recordApprovalRequestLatency_one_sample_per_call testApprovedTask testRun
           "beforeStage" testCreated testApproved).
  - reflexivity.
  - reflexivity.
  - exists testCreated. repeat split.
  - exists testApproved. repeat split.
Defined.
End ApprovalLatencyRepeated.

Section UpdateRunStatus.
Import placementv1beta1 updaterun.

Lemma atGeneration_Some updateRun conditionType c :
  atGeneration
    (meta.FindStatusCondition (Conditions (GetUpdateRunStatus updateRun)) conditionType)
    (GetGeneration updateRun) = Some c
  ↔ hasCurrent updateRun conditionType c.
Proof.
  unfold atGeneration, hasCurrent.
  destruct (meta.FindStatusCondition _ conditionType) as [d|].
  - destruct (Z.eqb_spec (metav1.ObservedGeneration d) (GetGeneration updateRun))
      as [Heq|Hne].
    + split; [intros [= <-]; by split | by intros [H _]].
    + split; [discriminate | intros [[= <-] H]; contradiction].
  - split; [discriminate | by intros [H _]].
Qed.

Lemma atGeneration_None updateRun conditionType :
  atGeneration
    (meta.FindStatusCondition (Conditions (GetUpdateRunStatus updateRun)) conditionType)
    (GetGeneration updateRun) = None
  ↔ noCurrent updateRun conditionType.
Proof.
  unfold noCurrent. setoid_rewrite <- atGeneration_Some.
  destruct (atGeneration _ _) as [d|].
  - split; [discriminate | intros H; exfalso; by apply (H d)].
  - split; [intros _ c; discriminate | done].
Qed.

Lemma setStatusGauge_Some now updateRun conditionType c w :
  setStatusGauge now updateRun conditionType c w
  = Some (withStatusGauge now updateRun conditionType c w).
Proof. reflexivity. Qed.

(** C5, as the code has it. emitUpdateRunStatusMetric never panics and
    reports the first of Succeeded, Progressing, Initialized that the run has
    at its current generation, whatever the status of that condition (the
    status is a label of the series): the gauge of that condition is set to
    the current time and nothing else changes. With none of the three at the
    current generation, no metric is touched. *)
Theorem emitUpdateRunStatusMetric_priority (now : Z) (updateRun : UpdateRunObj) (w : World) :
  (∀ c, hasCurrent updateRun StagedUpdateRunConditionSucceeded c →
        emitUpdateRunStatusMetric now updateRun w
        = Some (withStatusGauge now updateRun StagedUpdateRunConditionSucceeded c w))
  ∧ (noCurrent updateRun StagedUpdateRunConditionSucceeded →
     ∀ c, hasCurrent updateRun StagedUpdateRunConditionProgressing c →
          emitUpdateRunStatusMetric now updateRun w
          = Some (withStatusGauge now updateRun StagedUpdateRunConditionProgressing c w))
  ∧ (noCurrent updateRun StagedUpdateRunConditionSucceeded →
     noCurrent updateRun StagedUpdateRunConditionProgressing →
     ∀ c, hasCurrent updateRun StagedUpdateRunConditionInitialized c →
          emitUpdateRunStatusMetric now updateRun w
          = Some (withStatusGauge now updateRun StagedUpdateRunConditionInitialized c w))
  ∧ (noCurrent updateRun StagedUpdateRunConditionSucceeded →
     noCurrent updateRun StagedUpdateRunConditionProgressing →
     noCurrent updateRun StagedUpdateRunConditionInitialized →
     ∃ w', emitUpdateRunStatusMetric now updateRun w = Some w'
           ∧ metrics w' = metrics w).
Proof.
  unfold emitUpdateRunStatusMetric.
  repeat split.
  - intros c Hc. apply atGeneration_Some in Hc. rewrite Hc.
    apply setStatusGauge_Some.
  - intros Hs c Hc. apply atGeneration_None in Hs. apply atGeneration_Some in Hc.
    rewrite Hs, Hc. apply setStatusGauge_Some.
  - intros Hs Hp c Hc. apply atGeneration_None in Hs. apply atGeneration_None in Hp.
    apply atGeneration_Some in Hc.
    rewrite Hs, Hp, Hc. apply setStatusGauge_Some.
  - intros Hs Hp Hi. apply atGeneration_None in Hs. apply atGeneration_None in Hp.
    apply atGeneration_None in Hi.
    rewrite Hs, Hp, Hi. eexists. split; reflexivity.
Qed.

(** C5, refuted as stated: the reported condition need not be true. For the
    failed run the most specific true condition at the current generation is
    Initialized, while the code reports Succeeded with status False and leaves
    the series of Initialized unset. *)
Lemma emitUpdateRunStatusMetric_reports_false_condition :
  spec_topCondition failedRun
  = Some (StagedUpdateRunConditionInitialized,
          testCondition StagedUpdateRunConditionInitialized metav1.ConditionTrue
            "UpdateRunInitialized")
  ∧ emitUpdateRunStatusMetric (2000 * time.Second) failedRun emptyWorld
    = Some (withStatusGauge (2000 * time.Second) failedRun
              StagedUpdateRunConditionSucceeded
              (testCondition StagedUpdateRunConditionSucceeded metav1.ConditionFalse
                 "UpdateRunFailed") emptyWorld)
  ∧ (w ← emitUpdateRunStatusMetric (2000 * time.Second) failedRun emptyWorld;
     hubmetrics.FleetUpdateRunStatusLastTimestampSeconds (metrics w)
       !! ["test-ns"; "run-1"; "Run"; "Initialized"; "True"; "UpdateRunInitialized"])
    = None
  ∧ (w ← spec_emitUpdateRunStatusMetric (2000 * time.Second) failedRun emptyWorld;
     hubmetrics.FleetUpdateRunStatusLastTimestampSeconds (metrics w)
       !! ["test-ns"; "run-1"; "Run"; "Initialized"; "True"; "UpdateRunInitialized"])
    = Some (prometheus.unixSeconds (2000 * time.Second))
  ∧ emitUpdateRunStatusMetric (2000 * time.Second) failedRun emptyWorld
    ≠ spec_emitUpdateRunStatusMetric (2000 * time.Second) failedRun emptyWorld.
Proof.
  assert (H3 : (w ← emitUpdateRunStatusMetric (2000 * time.Second) failedRun emptyWorld;
                hubmetrics.FleetUpdateRunStatusLastTimestampSeconds (metrics w)
                  !! ["test-ns"; "run-1"; "Run"; "Initialized"; "True";
                      "UpdateRunInitialized"]) = None)
    by (vm_compute; reflexivity).
  assert (H4 : (w ← spec_emitUpdateRunStatusMetric (2000 * time.Second) failedRun
                      emptyWorld;
                hubmetrics.FleetUpdateRunStatusLastTimestampSeconds (metrics w)
                  !! ["test-ns"; "run-1"; "Run"; "Initialized"; "True";
                      "UpdateRunInitialized"])
               = Some (prometheus.unixSeconds (2000 * time.Second)))
    by (vm_compute; reflexivity).
  split; [reflexivity|]. split; [reflexivity|]. split; [exact H3|]. split; [exact H4|].
  intros Heq. rewrite Heq in H3. rewrite H3 in H4. discriminate H4.
Qed.
End UpdateRunStatus.

Section StageDuration.
Import placementv1beta1 updaterun.

Lemma stageSamples_withStageSample updateRun x w :
  stageSamples updateRun (withStageSample updateRun x w)
  = (stageSamples updateRun w ++ [x])%list.
Proof. unfold stageSamples, withStageSample; simpl. apply samples_insert_eq. Qed.

(** C8. recordStageClusterUpdatingDuration never panics; with a nil start
    time it changes nothing; with a start time it adds exactly one sample to
    the stage-duration series of the run, the time from the start time to the
    clock reading [now] in seconds, and changes nothing else. So a sample is
    added exactly when the start time is non-nil. *)
Theorem recordStageClusterUpdatingDuration_emits_iff (now : Z)
        (stageStatus : StageUpdatingStatus) (updateRun : UpdateRunObj) (w : World) :
  ∃ w',
    recordStageClusterUpdatingDuration now stageStatus updateRun w = Some w'
    ∧ (length (stageSamples updateRun w') = S (length (stageSamples updateRun w))
       ↔ StartTime stageStatus ≠ None)
    ∧ (StartTime stageStatus = None → w' = w)
    ∧ (∀ startTime,
         StartTime stageStatus = Some startTime →
         w' = withStageSample updateRun (time.Seconds (time.Sub now startTime)) w
         ∧ stageSamples updateRun w'
           = (stageSamples updateRun w ++ [time.Seconds (time.Sub now startTime)])%list
         ∧ (time.minDuration ≤ now - startTime ≤ time.maxDuration →
            time.Sub now startTime = now - startTime)).
Proof.
  unfold recordStageClusterUpdatingDuration.
  destruct (StartTime stageStatus) as [startTime|] eqn:Hstart.
  - exists (withStageSample updateRun (time.Seconds (time.Sub now startTime)) w).
    split; [reflexivity|].
    rewrite stageSamples_withStageSample, length_app. simpl.
    split; [split; [done | intros _; lia]|].
    split; [discriminate|].
    intros ? [= <-]. split; [reflexivity|]. split; [reflexivity|].
    apply time_Sub_exact.
  - exists w. split; [reflexivity|].
    split; [split; [lia | done]|].
    split; [done | discriminate].
Qed.
End StageDuration.

Section UpdateRunScenarios.
Import placementv1beta1 updaterun.

(** C6 on a world with two runs: the series of run-1 go, those of run-2 stay. *)
Lemma deleteUpdateRunMetrics_removes_run_series_witness :
  hubmetrics.FleetUpdateRunStatusLastTimestampSeconds
    (metrics (deleteUpdateRunMetrics testRun populatedWorld))
  !! ["test-ns"; "run-1"; "Run"; "Progressing"; "True"; "UpdateRunProgressing"] = None
  ∧ hubmetrics.FleetUpdateRunStatusLastTimestampSeconds
      (metrics (deleteUpdateRunMetrics testRun populatedWorld))
    !! ["test-ns"; "run-2"; "Run"; "Progressing"; "True"; "UpdateRunProgressing"]
    = Some (prometheus.unixSeconds (2000 * time.Second))
  ∧ hubmetrics.FleetUpdateRunApprovalRequestLatencySeconds
      (metrics (deleteUpdateRunMetrics testRun populatedWorld))
    !! ["test-ns"; "run-1"; "beforeStage"] = None
  ∧ hubmetrics.FleetUpdateRunApprovalRequestLatencySeconds
      (metrics (deleteUpdateRunMetrics testRun populatedWorld))
    !! ["test-ns"; "run-2"; "beforeStage"] = Some [sixtySeconds].
Proof.
  destruct (deleteUpdateRunMetrics_removes_run_series testRun populatedWorld)
    as (Hstatus & _ & Happroval & _).
  split; [apply Hstatus; split; reflexivity|].
  split.
  { rewrite (proj2 (Hstatus _)); [vm_compute; reflexivity|].
    intros [_ Hname]. discriminate Hname. }
  split; [apply Happroval; split; reflexivity|].
  rewrite (proj2 (Happroval _)); [vm_compute; reflexivity|].
  intros [_ Hname]. discriminate Hname.
Defined.

(** C3 on the approved task (a sample of one minute) and on the task whose
    approval is of an older generation (nothing recorded). *)
Lemma recordApprovalRequestLatency_emits_iff_witness :
  recordApprovalRequestLatency testApprovedTask testRun "beforeStage" emptyWorld
  = Some (withApprovalSample testRun "beforeStage"
            (time.Seconds (60 * time.Second)) emptyWorld)
  ∧ recordApprovalRequestLatency testStaleTask testRun "beforeStage" emptyWorld
    = Some emptyWorld.
Proof.
  split.
  - destruct (recordApprovalRequestLatency_emits_iff testApprovedTask testRun
                "beforeStage" emptyWorld) as (w' & Hrun & _ & Hvalue & _).
    rewrite Hrun. f_equal.
    apply (Hvalue testCreated testApproved); try reflexivity.
    + exists testCreated. repeat split.
    + exists testApproved. repeat split.
  - destruct (recordApprovalRequestLatency_emits_iff testStaleTask testRun
                "beforeStage" emptyWorld) as (w' & Hrun & _ & _ & Hskip).
    rewrite Hrun. f_equal. apply Hskip.
    intros [_ (c & Hfind & _ & Hgen)]. injection Hfind as <-. discriminate Hgen.
Defined.

(** C5 on a progressing run: Progressing is reported, Succeeded being absent. *)
Lemma emitUpdateRunStatusMetric_priority_witness :
  emitUpdateRunStatusMetric (2000 * time.Second) progressingRun emptyWorld
  = Some (withStatusGauge (2000 * time.Second) progressingRun
            StagedUpdateRunConditionProgressing
            (testCondition StagedUpdateRunConditionProgressing metav1.ConditionTrue
               "UpdateRunProgressing") emptyWorld).
Proof.
  apply (emitUpdateRunStatusMetric_priority (2000 * time.Second) progressingRun emptyWorld).
  - intros c [Hfind _]. discriminate Hfind.
  - split; reflexivity.
Defined.

(** C8 on a stage started a minute before the clock reading, and on a stage
    without start time. *)
Lemma recordStageClusterUpdatingDuration_emits_iff_witness :
  recordStageClusterUpdatingDuration (1060 * time.Second) testStartedStage testRun emptyWorld
  = Some (withStageSample testRun (time.Seconds (60 * time.Second)) emptyWorld)
  ∧ recordStageClusterUpdatingDuration (1060 * time.Second) {| StartTime := None |}
      testRun emptyWorld
    = Some emptyWorld.
Proof.
  split.
  - destruct (recordStageClusterUpdatingDuration_emits_iff (1060 * time.Second)
                testStartedStage testRun emptyWorld) as (w' & Hrun & _ & _ & Hvalue).
    rewrite Hrun. f_equal. by apply (Hvalue (1000 * time.Second)).
  - destruct (recordStageClusterUpdatingDuration_emits_iff (1060 * time.Second)
                {| StartTime := None |} testRun emptyWorld) as (w' & Hrun & _ & Hnil & _).
    rewrite Hrun. f_equal. by apply Hnil.
Defined.
End UpdateRunScenarios.

(* ===================================================================== *)
(** * Lemmas: the options of the hub agent *)
(* ===================================================================== *)

Section WorkPendingGracePeriod.
Import options.

Lemma parseWorkPendingGracePeriod_result (occurrences : list string) (v : Z)
      (log : list klog.Entry) :
  parseWorkPendingGracePeriod occurrences v log
  = (match occurrences with [] => v | _ :: _ => 15 * time.Second end,
     None,
     (log ++ repeat workPendingGracePeriodWarning (length occurrences))%list).
Proof.
  revert v log. induction occurrences as [|s rest IH]; intros v log; simpl.
  - by rewrite app_nil_r.
  - rewrite IH. rewrite <- app_assoc. simpl. by destruct rest.
Qed.

(** C7. Whatever string the work-pending-grace-period flag is given, Set
    returns nil and stores 15 seconds; the field is 15 seconds once the flag
    is registered and stays so through any command line, which never fails
    on this flag. The input only shows in the warnings logged. *)
Theorem WorkPendingGracePeriod_Set_ignores_input (v : Z) (s : string)
        (log : list klog.Entry) (o : PlacementManagementOptions)
        (occurrences : list string) :
  WorkPendingGracePeriodValueWithValidation_Set v s log
  = (15000000000, None, (log ++ [workPendingGracePeriodWarning])%list)
  ∧ WorkPendingGracePeriod (AddFlags_WorkPendingGracePeriod o) = 15 * time.Second
  ∧ parseWorkPendingGracePeriod occurrences
      (WorkPendingGracePeriod (AddFlags_WorkPendingGracePeriod o)) log
    = (15 * time.Second, None,
       (log ++ repeat workPendingGracePeriodWarning (length occurrences))%list).
Proof.
  split; [reflexivity|]. split; [reflexivity|].
  rewrite parseWorkPendingGracePeriod_result. by destruct occurrences.
Qed.
End WorkPendingGracePeriod.

Section RateLimiter.
Import options.

Lemma setDefaults_withDefaults opts : setDefaults opts = withDefaults opts.
Proof.
  destruct opts as [b m q s]. unfold setDefaults, withDefaults; simpl.
  destruct (b <=? 0); simpl; destruct (m <=? 0); simpl;
    destruct (q <=? 0); simpl; destruct (s <=? 0); reflexivity.
Qed.

(** C9, refuted as stated: the zero options are not used as given; the
    limiter is built from 5ms, 60s, 10 and 100 instead. *)
Lemma DefaultControllerRateLimiter_substitutes_defaults :
  DefaultControllerRateLimiter zeroRateLimitOptions
  = buildRateLimiter defaultRateLimitOptions
  ∧ DefaultControllerRateLimiter zeroRateLimitOptions
    ≠ buildRateLimiter zeroRateLimitOptions.
Proof.
  split; [reflexivity|].
  intros H. vm_compute in H. discriminate H.
Qed.

(** C9, as the code has it: DefaultControllerRateLimiter checks no upper
    bound and no relation between the fields, but it replaces each field
    that is zero or negative by its default (5ms, 60s, 10, 100) and builds
    the limiter from the result; options whose four fields are positive are
    used unchanged. *)
Theorem DefaultControllerRateLimiter_uses_positive_values (opts : RateLimitOptions) :
  DefaultControllerRateLimiter opts = buildRateLimiter (withDefaults opts)
  ∧ (0 < RateLimiterBaseDelay opts →
     0 < RateLimiterMaxDelay opts →
     0 < RateLimiterQPS opts →
     0 < RateLimiterBucketSize opts →
     DefaultControllerRateLimiter opts = buildRateLimiter opts).
Proof.
  unfold DefaultControllerRateLimiter. rewrite setDefaults_withDefaults.
  split; [reflexivity|]. intros Hb Hm Hq Hs.
  destruct opts as [b m q s]. unfold withDefaults; simpl in *.
  rewrite (proj2 (Z.leb_gt b 0) Hb), (proj2 (Z.leb_gt m 0) Hm),
    (proj2 (Z.leb_gt q 0) Hq), (proj2 (Z.leb_gt s 0) Hs).
  reflexivity.
Qed.

(** C9 on the default options, all positive. *)
Lemma DefaultControllerRateLimiter_uses_positive_values_witness :
  DefaultControllerRateLimiter defaultRateLimitOptions
  = buildRateLimiter defaultRateLimitOptions.
Proof.
  apply (DefaultControllerRateLimiter_uses_positive_values defaultRateLimitOptions);
    reflexivity.
Defined.
End RateLimiter.

Section Validate.
Import options.

(** C10. Validate reports an error on RateLimiterBaseDelay exactly when the
    base delay is greater than or equal to the max delay, and an error on
    RateLimiterQPS exactly when the QPS is strictly greater than the bucket
    size. With the QPS equal to the bucket size no QPS error is reported (the
    test options with both at 100 validate without any error), although the
    error, when reported, says that the QPS must be less than the bucket
    size. *)
Theorem Validate_rate_limiter_bounds (o : Options) :
  (reports rateLimiterBaseDelayPath (Validate o) = true
   ↔ RateLimiterBaseDelay (rlOpts o) >= RateLimiterMaxDelay (rlOpts o))
  ∧ (reports rateLimiterQPSPath (Validate o) = true
     ↔ RateLimiterQPS (rlOpts o) > RateLimiterBucketSize (rlOpts o))
  ∧ (RateLimiterBaseDelay (rlOpts o) = RateLimiterMaxDelay (rlOpts o) →
     reports rateLimiterBaseDelayPath (Validate o) = true)
  ∧ (RateLimiterQPS (rlOpts o) = RateLimiterBucketSize (rlOpts o) →
     reports rateLimiterQPSPath (Validate o) = false)
  ∧ Validate (newTestOptions 100 100) = []
  ∧ (∀ e, e ∈ Validate o →
          field.Field e = field.String rateLimiterQPSPath →
          field.Detail e = qpsDetail
          ∧ field.BadValue e = field.IntValue (RateLimiterQPS (rlOpts o))).
Proof.
  assert (Hbase : reports rateLimiterBaseDelayPath (Validate o)
                  = (RateLimiterBaseDelay (rlOpts o) >=? RateLimiterMaxDelay (rlOpts o))).
  { unfold Validate.
    destruct (float64.ltb _ _); destruct (EnableWebhooks _ && _);
      destruct (UseCertManager _ && _); destruct (negb _ && _);
      destruct (_ >=? _); destruct (_ >? _); reflexivity. }
  assert (Hqps : reports rateLimiterQPSPath (Validate o)
                 = (RateLimiterQPS (rlOpts o) >? RateLimiterBucketSize (rlOpts o))).
  { unfold Validate.
    destruct (float64.ltb _ _); destruct (EnableWebhooks _ && _);
      destruct (UseCertManager _ && _); destruct (negb _ && _);
      destruct (_ >=? _); destruct (_ >? _); reflexivity. }
  rewrite Hbase, Hqps.
  split; [rewrite Z.geb_le; lia|].
  split; [rewrite Z.gtb_lt; lia|].
  split; [intros ->; apply Z.geb_le; lia|].
  split; [intros ->; rewrite Z.gtb_ltb; apply Z.ltb_irrefl|].
  split; [vm_compute; reflexivity|].
  intros e He Hfield. unfold Validate in He.
  destruct (float64.ltb _ _); destruct (EnableWebhooks _ && _);
    destruct (UseCertManager _ && _); destruct (negb _ && _);
    destruct (_ >=? _); destruct (_ >? _); simpl in He;
    repeat (apply elem_of_cons in He as [->|He]; [try discriminate Hfield|]);
    try (by apply not_elem_of_nil in He); by split.
Qed.

(** C10 on the test options: QPS 100 over bucket size 10 is reported, QPS 100
    with bucket size 100 is not, and 5ms under 60s is no base-delay error. *)
Lemma Validate_rate_limiter_bounds_witness :
  reports rateLimiterQPSPath (Validate (newTestOptions 100 10)) = true
  ∧ reports rateLimiterQPSPath (Validate (newTestOptions 100 100)) = false
  ∧ reports rateLimiterBaseDelayPath (Validate (newTestOptions 100 100)) = false.
Proof.
  destruct (Validate_rate_limiter_bounds (newTestOptions 100 10)) as (_ & Hqps & _).
  destruct (Validate_rate_limiter_bounds (newTestOptions 100 100))
    as (Hbase & _ & _ & Hequal & _).
  split; [|split].
  - apply Hqps. reflexivity.
  - apply Hequal. reflexivity.
  - apply not_true_iff_false. intros H. apply Hbase in H. apply H. reflexivity.
Defined.
End Validate.

(* ===================================================================== *)
(** * Lemmas: printing and parsing integers *)
(* ===================================================================== *)

Section Integers.
Import strconv fmt.

Lemma byteOf_digit (d : Z) :
  0 ≤ d ≤ 9 → byteOf (Ascii.ascii_of_N (Z.to_N (48 + d))) = 48 + d.
Proof.
  intros Hd. unfold byteOf. rewrite Ascii.N_ascii_embedding by lia. lia.
Qed.

Lemma isDigit_digit (d : Z) :
  0 ≤ d ≤ 9 →
  (48 <=? byteOf (Ascii.ascii_of_N (Z.to_N (48 + d))))
  && (byteOf (Ascii.ascii_of_N (Z.to_N (48 + d))) <=? 57) = true.
Proof.
  intros Hd. rewrite byteOf_digit by exact Hd.
  apply andb_true_iff. split; apply Z.leb_le; lia.
Qed.

(** The formatter writes at least one byte, and its first byte is a digit. *)
Lemma formatDigits_head (fuel : nat) (n : Z) (acc : string) :
  0 ≤ n →
  ∃ c rest, formatDigits (S fuel) n acc = String c rest
            ∧ 48 ≤ byteOf c ≤ 57.
Proof.
  revert n acc. induction fuel as [|f IH]; intros n acc Hn.
  - simpl. assert (Hd : 0 ≤ n mod 10 ≤ 9) by (pose proof (Z.mod_pos_bound n 10); lia).
    destruct (n <? 10); eexists _, _; (split; [reflexivity|]);
      rewrite byteOf_digit by exact Hd; lia.
  - change (formatDigits (S (S f)) n acc)
      with (let acc' := String (Ascii.ascii_of_N (Z.to_N (48 + n mod 10))) acc in
            if n <? 10 then acc' else formatDigits (S f) (n / 10) acc').
    simpl. destruct (n <? 10) eqn:Hlt.
    + assert (Hd : 0 ≤ n mod 10 ≤ 9) by (pose proof (Z.mod_pos_bound n 10); lia).
      eexists _, _. split; [reflexivity|]. rewrite byteOf_digit by exact Hd. lia.
    + apply IH. apply Z.div_pos; lia.
Qed.

(** Reading back what the formatter wrote, with the fast loop of Atoi. *)
Lemma atoiLoop_formatDigits (fuel : nat) (n : Z) (acc : string) (a : Z) :
  0 ≤ n < 10 ^ Z.of_nat fuel →
  atoiLoop (formatDigits fuel n acc) a
  = atoiLoop acc (a * 10 ^ Z.of_nat (width fuel n) + n).
Proof.
  revert n acc a. induction fuel as [|f IH]; intros n acc a Hn.
  - simpl in *. f_equal. lia.
  - simpl. assert (Hd : 0 ≤ n mod 10 ≤ 9) by (pose proof (Z.mod_pos_bound n 10); lia).
    destruct (Z.ltb_spec n 10) as [Hlt|Hge].
    + simpl. rewrite isDigit_digit, byteOf_digit by exact Hd.
      rewrite Z.mod_small by lia. f_equal. lia.
    + rewrite IH.
      * simpl. rewrite isDigit_digit, byteOf_digit by exact Hd. f_equal.
        rewrite Nat2Z.inj_succ, Z.pow_succ_r by lia.
        pose proof (Z.div_mod n 10). lia.
      * rewrite Nat2Z.inj_succ, Z.pow_succ_r in Hn by lia.
        split; [apply Z.div_pos; lia | apply Z.div_lt_upper_bound; lia].
Qed.

(** The same with the checked loop of ParseUint, for what fits 64 bits. *)
Lemma parseUintLoop_formatDigits (fuel : nat) (n : Z) (acc : string) (a : Z) :
  0 ≤ n < 10 ^ Z.of_nat fuel →
  0 ≤ a →
  a * 10 ^ Z.of_nat (width fuel n) + n ≤ maxUint64 →
  parseUintLoop (formatDigits fuel n acc) a
  = parseUintLoop acc (a * 10 ^ Z.of_nat (width fuel n) + n).
Proof.
  revert n acc a. induction fuel as [|f IH]; intros n acc a Hn Ha Hmax.
  - simpl in *. f_equal. lia.
  - simpl. assert (Hd : 0 ≤ n mod 10 ≤ 9) by (pose proof (Z.mod_pos_bound n 10); lia).
    simpl in Hmax.
    destruct (Z.ltb_spec n 10) as [Hlt|Hge].
    + simpl in *. rewrite isDigit_digit, byteOf_digit by exact Hd.
      rewrite Z.mod_small by lia.
      assert (Hcut : (a >=? maxUint64 / 10 + 1) = false).
      { rewrite Z.geb_leb. apply Z.leb_gt. assert (a ≤ maxUint64 / 10); [|lia].
        apply Z.div_le_lower_bound; lia. }
      rewrite Hcut. replace (48 + n - 48) with n by lia.
      assert (Hfit : (a * 10 + n >? maxUint64) = false)
        by (rewrite Z.gtb_ltb; apply Z.ltb_ge; lia).
      rewrite Hfit. f_equal; lia.
    + rewrite Nat2Z.inj_succ, Z.pow_succ_r in Hmax by lia.
      pose proof (Z.div_mod n 10 ltac:(lia)) as Hdm.
      assert (Hpow : 0 < 10 ^ Z.of_nat (width f (n / 10))) by (apply Z.pow_pos_nonneg; lia).
      assert (Hq : 0 ≤ n / 10) by (apply Z.div_pos; lia).
      set (A := a * 10 ^ Z.of_nat (width f (n / 10)) + n / 10) in *.
      assert (HA : A * 10 + n mod 10 = a * (10 * 10 ^ Z.of_nat (width f (n / 10))) + n)
        by (unfold A; lia).
      rewrite IH.
      * fold A. simpl. rewrite isDigit_digit, byteOf_digit by exact Hd.
        assert (Hcut : (A >=? maxUint64 / 10 + 1) = false).
        { rewrite Z.geb_leb. apply Z.leb_gt. assert (A ≤ maxUint64 / 10); [|lia].
          apply Z.div_le_lower_bound; lia. }
        rewrite Hcut. replace (48 + n mod 10 - 48) with (n mod 10) by lia.
        assert (Hfit : (A * 10 + n mod 10 >? maxUint64) = false)
          by (rewrite Z.gtb_ltb; apply Z.ltb_ge; lia).
        rewrite Hfit. f_equal.
        rewrite Nat2Z.inj_succ, Z.pow_succ_r by lia. lia.
      * rewrite Nat2Z.inj_succ, Z.pow_succ_r in Hn by lia.
        split; [exact Hq | apply Z.div_lt_upper_bound; lia].
      * exact Ha.
      * fold A. nia.
Qed.
End Integers.

Section AtoiRoundTrip.
Import strconv fmt.

Lemma digit_not_sign (c : Ascii.ascii) :
  48 ≤ byteOf c ≤ 57 →
  Ascii.eqb c "-"%char = false ∧ Ascii.eqb c "+"%char = false.
Proof.
  intros Hc. split.
  - destruct (Ascii.eqb_spec c "-"%char) as [->|]; [|reflexivity].
    vm_compute in Hc. exfalso. destruct Hc as [Hc _]. by apply Hc.
  - destruct (Ascii.eqb_spec c "+"%char) as [->|]; [|reflexivity].
    vm_compute in Hc. exfalso. destruct Hc as [Hc _]. by apply Hc.
Qed.

(** Atoi on a string of digits that both loops read as [m]. *)
Lemma Atoi_digits (c : Ascii.ascii) (rest : string) (m : Z) :
  48 ≤ byteOf c ≤ 57 →
  atoiLoop (String c rest) 0 = Some m →
  parseUintLoop (String c rest) 0 = LoopOk m →
  0 ≤ m ≤ 2 ^ 63 - 1 →
  Atoi (String c rest) = (m, None).
Proof.
  intros Hc Hfast Hslow Hm. destruct (digit_not_sign c Hc) as [Hminus Hplus].
  unfold Atoi. cbv zeta.
  destruct ((0 <? Z.of_nat (String.length (String c rest)))
            && (Z.of_nat (String.length (String c rest)) <? 19)).
  - rewrite Hminus, Hplus. cbn [orb andb]. rewrite Hfast. reflexivity.
  - unfold ParseInt. rewrite Hminus, Hplus. cbn [orb andb negb].
    unfold ParseUint. rewrite Hslow.
    assert (Hcut : (m >=? 2 ^ 63) = false) by (rewrite Z.geb_leb; apply Z.leb_gt; lia).
    rewrite Hcut. reflexivity.
Qed.

(** Atoi on a minus sign followed by such a string. *)
Lemma Atoi_minus_digits (c : Ascii.ascii) (rest : string) (m : Z) :
  48 ≤ byteOf c ≤ 57 →
  atoiLoop (String c rest) 0 = Some m →
  parseUintLoop (String c rest) 0 = LoopOk m →
  0 ≤ m ≤ 2 ^ 63 →
  Atoi (String "-"%char (String c rest)) = (- m, None).
Proof.
  intros Hc Hfast Hslow Hm.
  unfold Atoi. cbv zeta.
  destruct ((0 <? Z.of_nat (String.length (String "-"%char (String c rest))))
            && (Z.of_nat (String.length (String "-"%char (String c rest))) <? 19)).
  - change (Ascii.eqb "-"%char "-"%char) with true. cbn [orb andb].
    assert (Hlen : (Z.of_nat (String.length (String c rest)) <? 1) = false).
    { apply Z.ltb_ge. simpl String.length. lia. }
    rewrite Hlen, Hfast. reflexivity.
  - unfold ParseInt.
    change (Ascii.eqb "-"%char "-"%char) with true.
    change (Ascii.eqb "-"%char "+"%char) with false. cbn [orb andb negb].
    unfold ParseUint. rewrite Hslow.
    assert (Hcut : (m >? 2 ^ 63) = false) by (rewrite Z.gtb_ltb; apply Z.ltb_ge; lia).
    rewrite Hcut. reflexivity.
Qed.

Lemma formatDigits_read (n : Z) :
  0 ≤ n ≤ 2 ^ 63 →
  ∃ c rest,
    formatDigits 20 n "" = String c rest
    ∧ 48 ≤ byteOf c ≤ 57
    ∧ atoiLoop (String c rest) 0 = Some n
    ∧ parseUintLoop (String c rest) 0 = LoopOk n.
Proof.
  intros Hn.
  assert (Hfuel : 0 ≤ n < 10 ^ Z.of_nat 20).
  { change (10 ^ Z.of_nat 20) with 100000000000000000000. lia. }
  destruct (formatDigits_head 19 n "" ltac:(lia)) as (c & rest & Hs & Hc).
  exists c, rest. split; [exact Hs|]. split; [exact Hc|].
  rewrite <- Hs. split.
  - rewrite atoiLoop_formatDigits by exact Hfuel. simpl. f_equal; lia.
  - rewrite parseUintLoop_formatDigits; [simpl; f_equal; lia | exact Hfuel | lia |].
    unfold maxUint64. lia.
Qed.

(** Printing then parsing: for every 64-bit integer n, Atoi of
    Sprintf("%d", n) is n, without error. *)
Lemma Atoi_Sprintd (n : Z) :
  isInt64 n → Atoi (Sprintd n) = (n, None).
Proof.
  intros [Hlo Hhi]. unfold Sprintd. destruct (Z.ltb_spec n 0) as [Hneg|Hpos].
  - destruct (formatDigits_read (- n) ltac:(lia)) as (c & rest & Hs & Hc & Hfast & Hslow).
    rewrite Hs. rewrite (Atoi_minus_digits c rest (- n) Hc Hfast Hslow ltac:(lia)).
    f_equal. lia.
  - destruct (formatDigits_read n ltac:(lia)) as (c & rest & Hs & Hc & Hfast & Hslow).
    rewrite Hs. apply (Atoi_digits c rest n Hc Hfast Hslow). lia.
Qed.

End AtoiRoundTrip.

(* ===================================================================== *)
(** * Lemmas: the flag values with validation *)
(* ===================================================================== *)

Section FlagValues.
Import options.

Lemma setAll_inRange {T : Type} (set : T -> string -> T * option errors.error)
      (inRange : T -> Prop) :
  (∀ v s, snd (set v s) ≠ None → fst (set v s) = v) →
  (∀ v s, snd (set v s) = None → inRange (fst (set v s))) →
  ∀ v occurrences, inRange v → inRange (fst (setAll set occurrences v)).
Proof.
  intros Hrej Hacc v occurrences. revert v.
  induction occurrences as [|s rest IH]; intros v Hv; simpl; [exact Hv|].
  specialize (Hrej v s). specialize (Hacc v s).
  destruct (set v s) as [v' [err|]]; simpl in *.
  - rewrite Hrej by discriminate. exact Hv.
  - apply IH. by apply Hacc.
Qed.

Lemma keepsRange_intro {T : Type} (set : T -> string -> T * option errors.error)
      (inRange : T -> Prop) :
  (∀ v s, snd (set v s) ≠ None → fst (set v s) = v) →
  (∀ v s, snd (set v s) = None → inRange (fst (set v s))) →
  keepsRange set inRange.
Proof.
  intros Hrej Hacc. split; [exact Hrej|]. split; [exact Hacc|].
  by apply setAll_inRange.
Qed.

(** The two halves of [keepsRange] for a [Set] that parses with Atoi and
    then checks [n < lo || n > hi]. *)
Ltac int_flag_rejects :=
  intros v s; match goal with |- context [strconv.Atoi s] =>
    destruct (strconv.Atoi s) as [n [err|]] end; simpl; [intros _; reflexivity|];
  match goal with |- context [(?a <? ?lo) || (?b >? ?hi)] =>
    destruct ((a <? lo) || (b >? hi)) end; simpl;
  [intros _; reflexivity | intros H; exfalso; by apply H].

Ltac int_flag_accepts :=
  intros v s; match goal with |- context [strconv.Atoi s] =>
    destruct (strconv.Atoi s) as [n [err|]] end; simpl; [discriminate|];
  match goal with |- context [(?a <? ?lo) || (?b >? ?hi)] =>
    destruct (Z.ltb_spec a lo); destruct (Z.gtb_spec b hi) end; simpl;
  try discriminate; intros _; unfold between; lia.

(** X1. Each integer flag keeps its documented range: a rejected Set leaves
    the field as it was, an accepted one stores a value of the range, so a
    field within the range stays within it through any occurrences of the
    flag: concurrent-resource-change-syncs [1, 100], max-fleet-size
    [30, 200], max-concurrent-cluster-placement [10, 200], rate-limiter-qps
    [1, 1000], rate-limiter-bucket-size [1, 10000], hub-api-burst
    [10, 20000]. *)
Theorem integer_flags_keep_range :
  keepsRange ConcurrentResourceChangeSyncsValueWithValidation_Set (between 1 100)
  ∧ keepsRange MaxFleetSizeValueWithValidation_Set (between 30 200)
  ∧ keepsRange MaxConcurrentClusterPlacementValueWithValidation_Set (between 10 200)
  ∧ keepsRange RateLimiterQPSValueWithValidation_Set (between 1 1000)
  ∧ keepsRange RateLimiterBucketSizeValueWithValidation_Set (between 1 10000)
  ∧ keepsRange HubBurstValueWithValidation_Set (between 10 20000).
Proof.
  refine (conj _ (conj _ (conj _ (conj _ (conj _ _))))); apply keepsRange_intro.
  all: unfold ConcurrentResourceChangeSyncsValueWithValidation_Set,
         MaxFleetSizeValueWithValidation_Set,
         MaxConcurrentClusterPlacementValueWithValidation_Set,
         RateLimiterQPSValueWithValidation_Set,
         RateLimiterBucketSizeValueWithValidation_Set,
         HubBurstValueWithValidation_Set.
  all: first [ int_flag_rejects | int_flag_accepts ].
Qed.

(** X1 on the defaults of AddFlags and a command line that sets each flag
    twice, the second time out of range. *)
Lemma integer_flags_keep_range_witness :
  setAll ConcurrentResourceChangeSyncsValueWithValidation_Set ["50"; "101"]
    (newConcurrentResourceChangeSyncsValueWithValidation 20 0)
  = (50, Some (errors.Errorf
                 "number of concurrent resource change syncs must be in the range [1, 100]"
                 []))
  ∧ between 10 20000
      (fst (setAll HubBurstValueWithValidation_Set ["5000"; "9"]
              (newHubBurstValueWithValidation 1000 0))).
Proof.
  split; [reflexivity|].
  destruct integer_flags_keep_range as (_ & _ & _ & _ & _ & _ & _ & Hburst).
  apply Hburst. unfold between, newHubBurstValueWithValidation. lia.
Defined.

Ltac int_flag_reads_back :=
  intros v n Hn; rewrite (Atoi_Sprintd n Hn); unfold between;
  match goal with |- context [(?a <? ?lo) || (?b >? ?hi)] =>
    destruct (Z.ltb_spec a lo); destruct (Z.gtb_spec b hi) end; simpl;
  (split; [intros ?; first [reflexivity | lia]
          | intros ?; first [split; [reflexivity | discriminate] | lia]]).

(** X2. String and Set of the integer flags agree: for every 64-bit n, Set
    given String(n) stores n without error when n is in the range of the
    flag, and otherwise returns an error and leaves the field unchanged. *)
Theorem integer_flags_read_back :
  readsBack ConcurrentResourceChangeSyncsValueWithValidation_Set
    ConcurrentResourceChangeSyncsValueWithValidation_String 1 100
  ∧ readsBack MaxFleetSizeValueWithValidation_Set
      MaxFleetSizeValueWithValidation_String 30 200
  ∧ readsBack MaxConcurrentClusterPlacementValueWithValidation_Set
      MaxConcurrentClusterPlacementValueWithValidation_String 10 200
  ∧ readsBack RateLimiterQPSValueWithValidation_Set
      RateLimiterQPSValueWithValidation_String 1 1000
  ∧ readsBack RateLimiterBucketSizeValueWithValidation_Set
      RateLimiterBucketSizeValueWithValidation_String 1 10000
  ∧ readsBack HubBurstValueWithValidation_Set HubBurstValueWithValidation_String 10 20000.
Proof.
  refine (conj _ (conj _ (conj _ (conj _ (conj _ _))))).
  all: unfold readsBack,
         ConcurrentResourceChangeSyncsValueWithValidation_Set,
         ConcurrentResourceChangeSyncsValueWithValidation_String,
         MaxFleetSizeValueWithValidation_Set, MaxFleetSizeValueWithValidation_String,
         MaxConcurrentClusterPlacementValueWithValidation_Set,
         MaxConcurrentClusterPlacementValueWithValidation_String,
         RateLimiterQPSValueWithValidation_Set, RateLimiterQPSValueWithValidation_String,
         RateLimiterBucketSizeValueWithValidation_Set,
         RateLimiterBucketSizeValueWithValidation_String,
         HubBurstValueWithValidation_Set, HubBurstValueWithValidation_String.
  all: int_flag_reads_back.
Qed.

(** X2 on the default of max-fleet-size and on a value above its range. *)
Lemma integer_flags_read_back_witness :
  MaxFleetSizeValueWithValidation_Set 0 (MaxFleetSizeValueWithValidation_String 100)
  = (100, None)
  ∧ fst (MaxFleetSizeValueWithValidation_Set 100
           (MaxFleetSizeValueWithValidation_String 201)) = 100.
Proof.
  destruct integer_flags_read_back as (_ & Hfleet & _).
  split.
  - apply (Hfleet 0 100); [split; vm_compute; discriminate | unfold between; lia].
  - apply (Hfleet 100 201); [split; vm_compute; discriminate | unfold between; lia].
Defined.
End FlagValues.

Section DurationFlagValues.
Import options.
Variable ParseDuration : string -> time.Duration * option errors.error.

Ltac duration_flag_rejects :=
  intros v s; destruct (ParseDuration s) as [d [err|]]; simpl; [intros _; reflexivity|];
  match goal with |- context [(?a <? ?lo) || (?b >? ?hi)] =>
    destruct ((a <? lo) || (b >? hi)) end; simpl;
  [intros _; reflexivity | intros H; exfalso; by apply H].

Ltac duration_flag_accepts :=
  intros v s; destruct (ParseDuration s) as [d [err|]]; simpl; [discriminate|];
  match goal with |- context [(?a <? ?lo) || (?b >? ?hi)] =>
    destruct (Z.ltb_spec a lo); destruct (Z.gtb_spec b hi) end; simpl;
  try discriminate; intros _; unfold between; lia.

(** X3. Each duration flag keeps its documented range, whatever
    time.ParseDuration returns: a rejected Set leaves the field as it was and
    an accepted one stores a duration of the range: rate-limiter-base-delay
    [1ms, 200ms], rate-limiter-max-delay [1s, 5m],
    resource-snapshot-creation-minimum-interval [0s, 5m],
    resource-changes-collection-duration [0s, 1m], resync-period [1h, 12h],
    cluster-unhealthy-threshold and force-delete-wait-time [30s, 1h]. *)
Theorem duration_flags_keep_range :
  keepsRange (RateLimiterBaseDelayValueWithValidation_Set ParseDuration)
    (between time.Millisecond (200 * time.Millisecond))
  ∧ keepsRange (RateLimiterMaxDelayValueWithValidation_Set ParseDuration)
      (between time.Second (5 * time.Minute))
  ∧ keepsRange (ResourceSnapshotCreationMinimumIntervalValueWithValidation_Set ParseDuration)
      (between 0 (5 * time.Minute))
  ∧ keepsRange (ResourceChangesCollectionDurationValueWithValidation_Set ParseDuration)
      (between 0 time.Minute)
  ∧ keepsRange (ResyncPeriodValueWithValidation_Set ParseDuration)
      (between time.Hour (12 * time.Hour))
  ∧ keepsRange (ClusterUnhealthyThresholdValueWithValidation_Set ParseDuration)
      (between (30 * time.Second) time.Hour)
  ∧ keepsRange (ForceDeleteWaitTimeValueWithValidation_Set ParseDuration)
      (between (30 * time.Second) time.Hour).
Proof.
  refine (conj _ (conj _ (conj _ (conj _ (conj _ (conj _ _)))))); apply keepsRange_intro.
  all: unfold RateLimiterBaseDelayValueWithValidation_Set,
         RateLimiterMaxDelayValueWithValidation_Set,
         ResourceSnapshotCreationMinimumIntervalValueWithValidation_Set,
         ResourceChangesCollectionDurationValueWithValidation_Set,
         ResyncPeriodValueWithValidation_Set,
         ClusterUnhealthyThresholdValueWithValidation_Set,
         ForceDeleteWaitTimeValueWithValidation_Set.
  all: first [ duration_flag_rejects | duration_flag_accepts ].
Qed.

Lemma RateLimiterBaseDelay_Set_range v s :
  between time.Millisecond (200 * time.Millisecond) v →
  between time.Millisecond (200 * time.Millisecond)
    (fst (RateLimiterBaseDelayValueWithValidation_Set ParseDuration v s)).
Proof.
  unfold RateLimiterBaseDelayValueWithValidation_Set.
  destruct (ParseDuration s) as [d [err|]]; simpl; [done|].
  destruct (Z.ltb_spec d time.Millisecond);
    destruct (Z.gtb_spec d (200 * time.Millisecond)); simpl;
    first [done | intros _; unfold between; lia].
Qed.

Lemma RateLimiterMaxDelay_Set_range v s :
  between time.Second (5 * time.Minute) v →
  between time.Second (5 * time.Minute)
    (fst (RateLimiterMaxDelayValueWithValidation_Set ParseDuration v s)).
Proof.
  unfold RateLimiterMaxDelayValueWithValidation_Set.
  destruct (ParseDuration s) as [d [err|]]; simpl; [done|].
  destruct (Z.ltb_spec d time.Second);
    destruct (Z.gtb_spec d (time.Minute * 5)); simpl;
    first [done | intros _; unfold between; lia].
Qed.

Lemma RateLimiterQPS_Set_range v s :
  between 1 1000 v → between 1 1000 (fst (RateLimiterQPSValueWithValidation_Set v s)).
Proof.
  unfold RateLimiterQPSValueWithValidation_Set.
  destruct (strconv.Atoi s) as [n [err|]]; simpl; [done|].
  destruct (Z.ltb_spec n 1); destruct (Z.gtb_spec n 1000); simpl;
    first [done | intros _; unfold between; lia].
Qed.

Lemma RateLimiterBucketSize_Set_range v s :
  between 1 10000 v →
  between 1 10000 (fst (RateLimiterBucketSizeValueWithValidation_Set v s)).
Proof.
  unfold RateLimiterBucketSizeValueWithValidation_Set.
  destruct (strconv.Atoi s) as [n [err|]]; simpl; [done|].
  destruct (Z.ltb_spec n 1); destruct (Z.gtb_spec n 10000); simpl;
    first [done | intros _; unfold between; lia].
Qed.

Lemma fromFlags_ranges (o : RateLimitOptions) :
  RateLimitOptions_fromFlags ParseDuration o → rateLimiterRanges o.
Proof.
  induction 1 as [o|o s _ IH|o s _ IH|o s _ IH|o s _ IH].
  - unfold rateLimiterRanges, between; simpl. vm_compute. intuition discriminate.
  - destruct IH as (Hb & Hm & Hq & Hs). repeat split; simpl; try apply Hm; try apply Hq;
      try apply Hs; by apply RateLimiterBaseDelay_Set_range.
  - destruct IH as (Hb & Hm & Hq & Hs). repeat split; simpl; try apply Hb; try apply Hq;
      try apply Hs; by apply RateLimiterMaxDelay_Set_range.
  - destruct IH as (Hb & Hm & Hq & Hs). repeat split; simpl; try apply Hb; try apply Hm;
      try apply Hs; by apply RateLimiterQPS_Set_range.
  - destruct IH as (Hb & Hm & Hq & Hs). repeat split; simpl; try apply Hb; try apply Hm;
      try apply Hq; by apply RateLimiterBucketSize_Set_range.
Qed.

Lemma reports_rateLimiterBaseDelay (o : Options) :
  reports rateLimiterBaseDelayPath (Validate o)
  = (RateLimiterBaseDelay (rlOpts o) >=? RateLimiterMaxDelay (rlOpts o)).
Proof.
  unfold Validate.
  destruct (float64.ltb _ _); destruct (EnableWebhooks _ && _);
    destruct (UseCertManager _ && _); destruct (negb _ && _);
    destruct (_ >=? _); destruct (_ >? _); reflexivity.
Qed.

(** X4. Rate limiter options that come from the flags never fail the
    base-delay check of Validate: whatever the command line, the base delay
    is at most 200ms and the max delay at least 1s, so Validate reports no
    RateLimiterBaseDelay error. *)
Theorem flags_pass_base_delay_validation (o : Options) :
  RateLimitOptions_fromFlags ParseDuration (rlOpts o) →
  RateLimiterBaseDelay (rlOpts o) < RateLimiterMaxDelay (rlOpts o)
  ∧ reports rateLimiterBaseDelayPath (Validate o) = false.
Proof.
  intros Hflags. destruct (fromFlags_ranges _ Hflags) as ([_ Hb] & [Hm _] & _).
  assert (Hlt : RateLimiterBaseDelay (rlOpts o) < RateLimiterMaxDelay (rlOpts o)).
  { change (200 * time.Millisecond) with 200000000 in Hb.
    change time.Second with 1000000000 in Hm. lia. }
  split; [exact Hlt|].
  rewrite reports_rateLimiterBaseDelay, Z.geb_leb. apply Z.leb_gt. exact Hlt.
Qed.

(** X5. For rate limiter options that come from the flags,
    DefaultControllerRateLimiter substitutes nothing: the limiter is built
    from the four values as the command line left them. *)
Theorem flags_build_limiter_unchanged (opts : RateLimitOptions) :
  RateLimitOptions_fromFlags ParseDuration opts →
  DefaultControllerRateLimiter opts = buildRateLimiter opts.
Proof.
  intros Hflags. destruct (fromFlags_ranges _ Hflags) as ([Hb _] & [Hm _] & [Hq _] & [Hs _]).
  unfold DefaultControllerRateLimiter. rewrite setDefaults_withDefaults.
  destruct opts as [b m q s]. unfold withDefaults; simpl in *.
  change time.Millisecond with 1000000 in Hb. change time.Second with 1000000000 in Hm.
  rewrite (proj2 (Z.leb_gt b 0)), (proj2 (Z.leb_gt m 0)), (proj2 (Z.leb_gt q 0)),
    (proj2 (Z.leb_gt s 0)) by lia.
  reflexivity.
Qed.
End DurationFlagValues.

Section DurationFlagScenarios.
Import options.

Lemma flagsExample_fromFlags :
  RateLimitOptions_fromFlags testParseDuration flagsExample.
Proof.
  apply (fromFlags_MaxDelay testParseDuration
           {| RateLimiterBaseDelay := 10 * time.Millisecond;
              RateLimiterMaxDelay := 60 * time.Second;
              RateLimiterQPS := 10; RateLimiterBucketSize := 100 |} "10m").
  apply (fromFlags_BaseDelay testParseDuration
           (RateLimitOptions_AddFlags zeroRateLimitOptions) "10ms").
  apply fromFlags_AddFlags.
Defined.

(** X3 on the default of the max delay: 2m is stored, 10m is rejected. *)
Lemma duration_flags_keep_range_witness :
  setAll (RateLimiterMaxDelayValueWithValidation_Set testParseDuration) ["2m"; "10m"]
    (60 * time.Second)
  = (2 * time.Minute,
     Some (errors.Errorf "the max delay must be a value between [1s, 5m]" []))
  ∧ between time.Second (5 * time.Minute)
      (fst (setAll (RateLimiterMaxDelayValueWithValidation_Set testParseDuration)
              ["2m"; "10m"] (60 * time.Second))).
Proof.
  split; [reflexivity|].
  destruct (duration_flags_keep_range testParseDuration) as (_ & (_ & _ & Hmax) & _).
  apply Hmax. unfold between. split; vm_compute; discriminate.
Defined.

(** X4 on the example. *)
Lemma flags_pass_base_delay_validation_witness :
  reports rateLimiterBaseDelayPath (Validate (optionsWithRateLimiter flagsExample)) = false.
Proof.
  apply (flags_pass_base_delay_validation testParseDuration
           (optionsWithRateLimiter flagsExample)).
  exact flagsExample_fromFlags.
Defined.

(** X5 on the example. *)
Lemma flags_build_limiter_unchanged_witness :
  DefaultControllerRateLimiter flagsExample = buildRateLimiter flagsExample.
Proof.
  apply (flags_build_limiter_unchanged testParseDuration). exact flagsExample_fromFlags.
Defined.
End DurationFlagScenarios.

Section FeatureFlag.
Import options.

Lemma ParseBool_true (s : string) :
  strconv.ParseBool s = (true, None) ↔ s ∈ trueSpellings.
Proof.
  unfold strconv.ParseBool, trueSpellings. split.
  - destruct (String.eqb_spec s "1") as [->|]; [set_solver|].
    destruct (String.eqb_spec s "t") as [->|]; [set_solver|].
    destruct (String.eqb_spec s "T") as [->|]; [set_solver|].
    destruct (String.eqb_spec s "TRUE") as [->|]; [set_solver|].
    destruct (String.eqb_spec s "true") as [->|]; [set_solver|].
    destruct (String.eqb_spec s "True") as [->|]; [set_solver|].
    cbn [orb]. destruct (_ || _); discriminate.
  - intros H. repeat (apply elem_of_cons in H as [->|H]; [reflexivity|]).
    by apply not_elem_of_nil in H.
Qed.

Lemma ParseBool_cases (s : string) :
  strconv.ParseBool s = (true, None)
  ∨ strconv.ParseBool s = (false, None)
  ∨ ∃ e, strconv.ParseBool s = (false, Some e).
Proof.
  unfold strconv.ParseBool.
  destruct (_ || _); [by left|]. destruct (_ || _); [right; by left|].
  right; right. by eexists.
Qed.

(** X6. The enable-v1beta1-apis flag cannot be turned off: Set accepts
    exactly the six spellings of true and then stores true; every other
    string, the spellings of false included, is rejected and leaves the field
    as it was; so the field, true once the flag is registered, is true after
    any occurrences of the flag. String(true) is accepted, String(false) is
    not. *)
Theorem EnableV1Beta1APIs_stays_enabled (v : bool) (s : string)
        (occurrences : list string) :
  (snd (EnableV1Beta1APIsValueWithValidation_Set v s) = None ↔ s ∈ trueSpellings)
  ∧ (snd (EnableV1Beta1APIsValueWithValidation_Set v s) = None →
     fst (EnableV1Beta1APIsValueWithValidation_Set v s) = true)
  ∧ (snd (EnableV1Beta1APIsValueWithValidation_Set v s) ≠ None →
     fst (EnableV1Beta1APIsValueWithValidation_Set v s) = v)
  ∧ fst (setAll EnableV1Beta1APIsValueWithValidation_Set occurrences
           (newEnableV1Beta1APIsValueWithValidation true v)) = true
  ∧ EnableV1Beta1APIsValueWithValidation_Set v
      (EnableV1Beta1APIsValueWithValidation_String true) = (true, None)
  ∧ snd (EnableV1Beta1APIsValueWithValidation_Set v
           (EnableV1Beta1APIsValueWithValidation_String false)) ≠ None.
Proof.
  assert (Hacc : ∀ v s, snd (EnableV1Beta1APIsValueWithValidation_Set v s) = None →
                        fst (EnableV1Beta1APIsValueWithValidation_Set v s) = true).
  { intros v0 s0. unfold EnableV1Beta1APIsValueWithValidation_Set.
    destruct (ParseBool_cases s0) as [->|[->|[e ->]]]; simpl; done. }
  assert (Hrej : ∀ v s, snd (EnableV1Beta1APIsValueWithValidation_Set v s) ≠ None →
                        fst (EnableV1Beta1APIsValueWithValidation_Set v s) = v).
  { intros v0 s0. unfold EnableV1Beta1APIsValueWithValidation_Set.
    destruct (ParseBool_cases s0) as [->|[->|[e ->]]]; simpl; done. }
  split.
  { rewrite <- ParseBool_true. unfold EnableV1Beta1APIsValueWithValidation_Set.
    destruct (ParseBool_cases s) as [->|[->|[e ->]]]; simpl; split; done. }
  split; [apply Hacc|]. split; [apply Hrej|].
  split; [|split; [reflexivity | discriminate]].
  apply (setAll_inRange EnableV1Beta1APIsValueWithValidation_Set (λ b, b = true));
    [exact Hrej | exact Hacc | reflexivity].
Qed.

(** X6 on a command line that first confirms and then tries to disable. *)
Lemma EnableV1Beta1APIs_stays_enabled_witness :
  setAll EnableV1Beta1APIsValueWithValidation_Set ["True"; "false"]
    (newEnableV1Beta1APIsValueWithValidation true false)
  = (true,
     Some (errors.Errorf
             "the KubeFleet v1beta1 APIs are the storage version and must be enabled" []))
  ∧ snd (EnableV1Beta1APIsValueWithValidation_Set true "True") = None.
Proof.
  split; [reflexivity|].
  apply (EnableV1Beta1APIs_stays_enabled true "True" []). unfold trueSpellings. set_solver.
Defined.
End FeatureFlag.

Section HubQPS.
Import options.
Variable ParseFloat : string -> float64.t * option errors.error.

(** X7. The hub-api-qps flag on what strconv.ParseFloat returns: a value
    below zero is stored as -1 (throttling off); a zero of either sign is
    rejected and leaves the field as it was, since it is not below zero but
    below 10; a NaN is accepted and stored, since no comparison with a NaN
    holds; and whatever is stored without error is -1 or the parsed value,
    which is then neither below 10 nor above 10000. *)
Theorem HubQPS_Set_edges (v : float64.t) (s : string) (qps : float64.t) :
  ParseFloat s = (qps, None) →
  (float64.ltb qps (float64.of_int 0) = true →
   HubQPSValueWithValidation_Set ParseFloat v s = (float64.of_int (-1), None))
  ∧ (∀ sign, qps = S754_zero sign →
       fst (HubQPSValueWithValidation_Set ParseFloat v s) = v
       ∧ snd (HubQPSValueWithValidation_Set ParseFloat v s) ≠ None)
  ∧ (qps = S754_nan →
     HubQPSValueWithValidation_Set ParseFloat v s = (S754_nan, None))
  ∧ (snd (HubQPSValueWithValidation_Set ParseFloat v s) = None →
     fst (HubQPSValueWithValidation_Set ParseFloat v s) = float64.of_int (-1)
     ∨ (fst (HubQPSValueWithValidation_Set ParseFloat v s) = qps
        ∧ float64.ltb qps (float64.of_int 10) = false
        ∧ float64.ltb (float64.of_int 10000) qps = false)).
Proof.
  intros Hparse. unfold HubQPSValueWithValidation_Set. rewrite Hparse.
  split; [intros ->; reflexivity|].
  split; [intros sign ->; destruct sign; vm_compute; (split; [reflexivity | discriminate])|].
  split; [intros ->; reflexivity|].
  destruct (float64.ltb qps (float64.of_int 0)); [intros _; by left|].
  destruct (float64.ltb qps (float64.of_int 10)); [discriminate|].
  destruct (float64.ltb (float64.of_int 10000) qps); [discriminate|].
  intros _. right. by repeat split.
Qed.
End HubQPS.

Section HubQPSScenarios.
Import options.

(** X7 with a parser that knows "-5", "0" and "NaN", on the default 250. *)
Lemma HubQPS_Set_edges_witness :
  HubQPSValueWithValidation_Set testParseFloat (float64.of_int 250) "-5"
  = (float64.of_int (-1), None)
  ∧ fst (HubQPSValueWithValidation_Set testParseFloat (float64.of_int 250) "0")
    = float64.of_int 250
  ∧ HubQPSValueWithValidation_Set testParseFloat (float64.of_int 250) "NaN"
    = (S754_nan, None).
Proof.
  split; [|split].
  - apply (HubQPS_Set_edges testParseFloat (float64.of_int 250) "-5" (float64.of_int (-5)));
      reflexivity.
  - destruct (HubQPS_Set_edges testParseFloat (float64.of_int 250) "0" (float64.of_int 0)
                eq_refl) as (_ & Hzero & _).
    by apply (Hzero false).
  - destruct (HubQPS_Set_edges testParseFloat (float64.of_int 250) "NaN" S754_nan
                eq_refl) as (_ & _ & Hnan & _).
    by apply Hnan.
Defined.
End HubQPSScenarios.

Section ValidateErrors.
Import options.

Ltac validate_cases :=
  unfold Validate;
  destruct (float64.ltb _ _); destruct (EnableWebhooks _ && _);
  destruct (UseCertManager _ && _); destruct (negb _ && _);
  destruct (_ >=? _); destruct (_ >? _).

(** X8. The errors of Validate come in the order of its checks, each field at
    most once: the reported fields are a sublist of HubBurst,
    WebhookServiceName, UseCertManager, AllowedPropagatingAPIs,
    RateLimiterBaseDelay, RateLimiterQPS, every error is of type Invalid, and
    the list is empty exactly when none of the six conditions holds. *)
Theorem Validate_errors_in_order (o : Options) :
  sublist (map field.Field (Validate o)) validatedFields
  ∧ Forall (λ e, field.Type_ e = field.ErrorTypeInvalid) (Validate o)
  ∧ (Validate o = [] ↔
     float64.ltb (float64.of_int (HubBurst (CtrlMgrOpts o))) (HubQPS (CtrlMgrOpts o))
     = false
     ∧ EnableWebhooks (WebhookOpts o) && String.eqb (ServiceName (WebhookOpts o)) ""
       = false
     ∧ UseCertManager (WebhookOpts o) && negb (EnableWorkload (WebhookOpts o)) = false
     ∧ negb (String.eqb (AllowedPropagatingAPIs (PlacementMgmtOpts o)) "")
       && negb (String.eqb (SkippedPropagatingAPIs (PlacementMgmtOpts o)) "") = false
     ∧ (RateLimiterBaseDelay (rlOpts o) >=? RateLimiterMaxDelay (rlOpts o)) = false
     ∧ (RateLimiterQPS (rlOpts o) >? RateLimiterBucketSize (rlOpts o)) = false).
Proof.
  split; [|split].
  - validate_cases; cbn -[validatedFields]; unfold validatedFields;
      repeat first [ apply sublist_nil | apply sublist_skip | apply sublist_cons ].
  - validate_cases; cbn; repeat constructor.
  - validate_cases; cbn; split; first [ discriminate | by intros (? & ? & ? & ? & ? & ?)
                                      | done ].
Qed.

(** X9. The four other checks of Validate, as the two rate limiter checks:
    HubBurst is reported exactly when float64(HubBurst) < HubQPS,
    WebhookServiceName exactly when webhooks are enabled with an empty
    service name, UseCertManager exactly when cert manager is used without
    EnableWorkload, and AllowedPropagatingAPIs exactly when both API lists
    are non-empty. *)
Theorem Validate_other_checks (o : Options) :
  (reports ["Options"; "HubBurst"] (Validate o) = true ↔
   float64.ltb (float64.of_int (HubBurst (CtrlMgrOpts o))) (HubQPS (CtrlMgrOpts o)) = true)
  ∧ (reports ["Options"; "WebhookServiceName"] (Validate o) = true ↔
     EnableWebhooks (WebhookOpts o) = true ∧ ServiceName (WebhookOpts o) = "")
  ∧ (reports ["Options"; "UseCertManager"] (Validate o) = true ↔
     UseCertManager (WebhookOpts o) = true ∧ EnableWorkload (WebhookOpts o) = false)
  ∧ (reports ["Options"; "AllowedPropagatingAPIs"] (Validate o) = true ↔
     AllowedPropagatingAPIs (PlacementMgmtOpts o) ≠ ""
     ∧ SkippedPropagatingAPIs (PlacementMgmtOpts o) ≠ "").
Proof.
  assert (H1 : reports ["Options"; "HubBurst"] (Validate o)
               = float64.ltb (float64.of_int (HubBurst (CtrlMgrOpts o)))
                             (HubQPS (CtrlMgrOpts o)))
    by (validate_cases; reflexivity).
  assert (H2 : reports ["Options"; "WebhookServiceName"] (Validate o)
               = EnableWebhooks (WebhookOpts o)
                 && String.eqb (ServiceName (WebhookOpts o)) "")
    by (validate_cases; reflexivity).
  assert (H3 : reports ["Options"; "UseCertManager"] (Validate o)
               = UseCertManager (WebhookOpts o) && negb (EnableWorkload (WebhookOpts o)))
    by (validate_cases; reflexivity).
  assert (H4 : reports ["Options"; "AllowedPropagatingAPIs"] (Validate o)
               = negb (String.eqb (AllowedPropagatingAPIs (PlacementMgmtOpts o)) "")
                 && negb (String.eqb (SkippedPropagatingAPIs (PlacementMgmtOpts o)) ""))
    by (validate_cases; reflexivity).
  rewrite H1, H2, H3, H4. split; [done|].
  split; [by rewrite andb_true_iff, String.eqb_eq|].
  split; [by rewrite andb_true_iff, negb_true_iff|].
  rewrite andb_true_iff, !negb_true_iff, !String.eqb_neq. done.
Qed.

(** X9 on the cases of the validation tests. *)
Lemma Validate_other_checks_witness :
  reports ["Options"; "AllowedPropagatingAPIs"]
    (Validate
       {| CtrlMgrOpts := CtrlMgrOpts (newTestOptions 10 100);
          WebhookOpts := WebhookOpts (newTestOptions 10 100);
          PlacementMgmtOpts :=
            {| WorkPendingGracePeriod := 0;
               SkippedPropagatingAPIs := "fleet.azure.com;multicluster.x-k8s.io";
               AllowedPropagatingAPIs := "apps/v1/Deployment";
               SkippedPropagatingNamespaces := "";
               ConcurrentResourceChangeSyncs := 0; MaxFleetSize := 0;
               MaxConcurrentClusterPlacement := 0;
               PlacementControllerWorkQueueRateLimiterOpts := defaultRateLimitOptions;
               ResourceSnapshotCreationMinimumInterval := 0;
               ResourceChangesCollectionDuration := 0 |} |}) = true.
Proof.
  match goal with |- reports _ (Validate ?o) = true =>
    destruct (Validate_other_checks o) as (_ & _ & _ & Hapis) end.
  apply Hapis. split; discriminate.
Defined.
End ValidateErrors.

Section RateLimiterDefaults.
Import options.

(** X10. DefaultControllerRateLimiter never builds a limiter from a zero or
    negative value: for every input the limiter is the max of an exponential
    failure limiter with positive base and max delay and a bucket limiter of
    a positive QPS and a positive burst; and calling it on the options with
    the defaults filled in builds the same limiter. *)
Theorem DefaultControllerRateLimiter_positive (opts : RateLimitOptions) :
  (∃ baseDelay maxDelay qps burst,
     DefaultControllerRateLimiter opts
     = workqueue.TypedMaxOfRateLimiter
         [ workqueue.TypedItemExponentialFailureRateLimiter baseDelay maxDelay;
           workqueue.TypedBucketRateLimiter (float64.of_int qps) burst ]
     ∧ 0 < baseDelay ∧ 0 < maxDelay ∧ 0 < qps ∧ 0 < burst)
  ∧ DefaultControllerRateLimiter (setDefaults opts) = DefaultControllerRateLimiter opts.
Proof.
  unfold DefaultControllerRateLimiter. rewrite !setDefaults_withDefaults.
  destruct opts as [b m q s]. unfold withDefaults, buildRateLimiter; simpl.
  split.
  - eexists _, _, _, _. split; [reflexivity|].
    destruct (Z.leb_spec b 0); destruct (Z.leb_spec m 0);
      destruct (Z.leb_spec q 0); destruct (Z.leb_spec s 0);
      repeat split; first [ lia | vm_compute; reflexivity ].
  - destruct (Z.leb_spec b 0) as [Hb|Hb]; destruct (Z.leb_spec m 0) as [Hm|Hm];
      destruct (Z.leb_spec q 0) as [Hq|Hq]; destruct (Z.leb_spec s 0) as [Hs|Hs];
      try change (5 * time.Millisecond <=? 0) with false;
      try change (60 * time.Second <=? 0) with false;
      try change (10 <=? 0) with false; try change (100 <=? 0) with false;
      try rewrite (proj2 (Z.leb_gt b 0) Hb); try rewrite (proj2 (Z.leb_gt m 0) Hm);
      try rewrite (proj2 (Z.leb_gt q 0) Hq); try rewrite (proj2 (Z.leb_gt s 0) Hs);
      reflexivity.
Qed.
End RateLimiterDefaults.

(* ===================================================================== *)
(** * Lemmas: emitting for a run and deleting it *)
(* ===================================================================== *)

Section Emissions.
Import placementv1beta1 updaterun.

Lemma bearsRun_sameRun variableLabels (r r' : UpdateRunObj) (lvs : list string) :
  sameRun r r' → bearsRun variableLabels r lvs ↔ bearsRun variableLabels r' lvs.
Proof. intros [Hns Hname]. unfold bearsRun. by rewrite Hns, Hname. Qed.

Lemma emitUpdateRunStatusMetric_emitted now r w :
  ∃ w', emitUpdateRunStatusMetric now r w = Some w' ∧ emitted r w w'.
Proof.
  unfold emitUpdateRunStatusMetric.
  destruct (atGeneration _ _) as [c|];
    [eexists; split; [apply setStatusGauge_Some | constructor]|].
  destruct (atGeneration _ _) as [c|];
    [eexists; split; [apply setStatusGauge_Some | constructor]|].
  destruct (atGeneration _ _) as [c|];
    [eexists; split; [apply setStatusGauge_Some | constructor]|].
  eexists. split; [reflexivity | constructor].
Qed.

Lemma recordApprovalRequestLatency_emitted ts r taskType w :
  ∃ w', recordApprovalRequestLatency ts r taskType w = Some w' ∧ emitted r w w'.
Proof.
  unfold recordApprovalRequestLatency.
  destruct (meta.FindStatusCondition _ StageTaskConditionApprovalRequestCreated) as [c|];
    destruct (meta.FindStatusCondition _ StageTaskConditionApprovalRequestApproved) as [a|];
    simpl.
  - destruct (negb _ || negb _); eexists; (split; [reflexivity|]).
    + constructor.
    + apply (emitted_approval r w taskType).
  - rewrite orb_true_r. eexists; split; [reflexivity | constructor].
  - eexists; split; [reflexivity | constructor].
  - eexists; split; [reflexivity | constructor].
Qed.

Lemma recordStageClusterUpdatingDuration_emitted now ss r w :
  ∃ w', recordStageClusterUpdatingDuration now ss r w = Some w' ∧ emitted r w w'.
Proof.
  unfold recordStageClusterUpdatingDuration. destruct (StartTime ss) as [t|].
  - eexists; split; [reflexivity | apply (emitted_stage r w)].
  - eexists; split; [reflexivity | constructor].
Qed.

Lemma emitOne_emitted e w :
  ∃ w', emitOne e w = Some w' ∧ emitted (emissionRun e) w w'.
Proof.
  destruct e; simpl.
  - apply emitUpdateRunStatusMetric_emitted.
  - apply recordApprovalRequestLatency_emitted.
  - apply recordStageClusterUpdatingDuration_emitted.
Qed.

Lemma emitted_onlyRunTouched r0 r w w' :
  emitted r0 w w' → sameRun r0 r → onlyRunTouched r w w'.
Proof.
  intros Hem Hsame. unfold onlyRunTouched.
  destruct Hem as [|v line|now ty c|taskType x|x]; simpl;
    repeat split; try reflexivity; intros lvs Hn.
  - apply lookup_insert_ne. intros <-. apply Hn.
    apply (bearsRun_sameRun _ r0 r _ Hsame). split; reflexivity.
  - apply lookup_insert_ne. intros <-. apply Hn.
    apply (bearsRun_sameRun _ r0 r _ Hsame). split; reflexivity.
  - apply lookup_insert_ne. intros <-. apply Hn.
    apply (bearsRun_sameRun _ r0 r _ Hsame). split; reflexivity.
Qed.

Lemma samples_prefix_insert (h : gmap (list string) (list spec_float))
      (k lvs : list string) (x : spec_float) :
  samples h lvs `prefix_of` samples (<[k := (samples h k ++ [x])%list]> h) lvs.
Proof.
  destruct (decide (k = lvs)) as [->|Hne].
  - rewrite samples_insert_eq. by exists [x].
  - by rewrite samples_insert_ne.
Qed.

Lemma emitted_nothingLost r w w' : emitted r w w' → nothingLost w w'.
Proof.
  intros Hem. unfold nothingLost.
  destruct Hem as [|v line|now ty c|taskType x|x]; simpl;
    repeat split; try done; intros lvs; try apply samples_prefix_insert.
  intros Hsome. destruct (decide (statusSeries r ty c = lvs)) as [<-|Hne].
  - rewrite lookup_insert_eq. by eexists.
  - by rewrite lookup_insert_ne.
Qed.

Lemma onlyRunTouched_trans r w1 w2 w3 :
  onlyRunTouched r w1 w2 → onlyRunTouched r w2 w3 → onlyRunTouched r w1 w3.
Proof.
  intros (A1 & A2 & A3 & A4 & A5 & A6 & A7) (B1 & B2 & B3 & B4 & B5 & B6 & B7).
  unfold onlyRunTouched. repeat split; try congruence.
  - intros lvs H. by rewrite B1, A1.
  - intros lvs H. by rewrite B2, A2.
  - intros lvs H. by rewrite B3, A3.
Qed.

Lemma nothingLost_trans w1 w2 w3 :
  nothingLost w1 w2 → nothingLost w2 w3 → nothingLost w1 w3.
Proof.
  intros (A1 & A2 & A3) (B1 & B2 & B3). unfold nothingLost. repeat split.
  - intros lvs H. by apply B1, A1.
  - intros lvs. etrans; [apply A2 | apply B2].
  - intros lvs. etrans; [apply A3 | apply B3].
Qed.

Lemma emitAll_effect r es w :
  allFor r es →
  ∃ w', emitAll es w = Some w' ∧ onlyRunTouched r w w' ∧ nothingLost w w'.
Proof.
  intros Hall. revert w. induction Hall as [|e rest He _ IH]; intros w.
  - exists w. split; [reflexivity|]. split.
    + apply (emitted_onlyRunTouched r r); [constructor | by split].
    + apply (emitted_nothingLost r); constructor.
  - simpl. destruct (emitOne_emitted e w) as (w1 & -> & Hem). simpl.
    destruct (IH w1) as (w' & Hrun & Htouched & Hkept).
    exists w'. split; [exact Hrun|]. split.
    + eapply onlyRunTouched_trans; [|exact Htouched].
      by apply (emitted_onlyRunTouched (emissionRun e)).
    + eapply nothingLost_trans; [|exact Hkept]. by apply (emitted_nothingLost (emissionRun e)).
Qed.

Lemma DeletePartialMatch_ext {M : Type} (variableLabels : list string) (r : UpdateRunObj)
      (m m' : gmap (list string) M) :
  (∀ lvs, ¬ bearsRun variableLabels r lvs → m' !! lvs = m !! lvs) →
  prometheus.DeletePartialMatch variableLabels (runLabels r) m'
  = prometheus.DeletePartialMatch variableLabels (runLabels r) m.
Proof.
  intros H. apply map_eq. intros lvs. rewrite !lookup_DeletePartialMatch.
  destruct (prometheus.matchPartialLabels variableLabels lvs (runLabels r)) eqn:Hm;
    [reflexivity|].
  apply H. rewrite <- matchPartialLabels_runLabels. congruence.
Qed.

Lemma Registry_eq (a b : hubmetrics.Registry) :
  hubmetrics.FleetPlacementStatusLastTimeStampSeconds a
  = hubmetrics.FleetPlacementStatusLastTimeStampSeconds b →
  hubmetrics.FleetEvictionStatus a = hubmetrics.FleetEvictionStatus b →
  hubmetrics.FleetUpdateRunStatusLastTimestampSeconds a
  = hubmetrics.FleetUpdateRunStatusLastTimestampSeconds b →
  hubmetrics.FleetUpdateRunApprovalRequestLatencySeconds a
  = hubmetrics.FleetUpdateRunApprovalRequestLatencySeconds b →
  hubmetrics.FleetUpdateRunStageClusterUpdatingDurationSeconds a
  = hubmetrics.FleetUpdateRunStageClusterUpdatingDurationSeconds b →
  hubmetrics.SchedulingCycleDurationMilliseconds a
  = hubmetrics.SchedulingCycleDurationMilliseconds b →
  hubmetrics.SchedulerActiveWorkers a = hubmetrics.SchedulerActiveWorkers b →
  a = b.
Proof. destruct a, b; simpl. by intros -> -> -> -> -> -> ->. Qed.

(** X11. Deleting a run undoes whatever was emitted for it: after any calls
    of emitUpdateRunStatusMetric, recordApprovalRequestLatency and
    recordStageClusterUpdatingDuration for a run (none of which panics),
    deleteUpdateRunMetrics leaves exactly the metrics it would have left had
    nothing been emitted. *)
Theorem delete_undoes_emissions (r : UpdateRunObj) (es : list Emission) (w : World) :
  allFor r es →
  ∃ w', emitAll es w = Some w'
        ∧ metrics (deleteUpdateRunMetrics r w') = metrics (deleteUpdateRunMetrics r w).
Proof.
  intros Hall. destruct (emitAll_effect r es w Hall) as (w' & Hrun & Htouched & _).
  exists w'. split; [exact Hrun|].
  destruct Htouched as (H1 & H2 & H3 & H4 & H5 & H6 & H7).
  unfold deleteUpdateRunMetrics, setMetrics; simpl.
  apply Registry_eq; simpl; try assumption; by apply DeletePartialMatch_ext.
Qed.

(** X12. Emitting for one run leaves every other run alone: after any calls
    for a run r, a series bearing the namespace and name of a run that
    differs from r in namespace or name is as it was, in each of the three
    vectors, and the four other vectors are untouched. *)
Theorem emissions_leave_other_runs (r other : UpdateRunObj) (es : list Emission)
        (w : World) :
  allFor r es →
  ¬ sameRun other r →
  ∃ w', emitAll es w = Some w'
        ∧ (∀ lvs, bearsRun hubmetrics.FleetUpdateRunStatusLastTimestampSeconds_labels
                    other lvs →
                  hubmetrics.FleetUpdateRunStatusLastTimestampSeconds (metrics w') !! lvs
                  = hubmetrics.FleetUpdateRunStatusLastTimestampSeconds (metrics w) !! lvs)
        ∧ (∀ lvs, bearsRun hubmetrics.FleetUpdateRunApprovalRequestLatencySeconds_labels
                    other lvs →
                  hubmetrics.FleetUpdateRunApprovalRequestLatencySeconds (metrics w') !! lvs
                  = hubmetrics.FleetUpdateRunApprovalRequestLatencySeconds (metrics w) !! lvs)
        ∧ (∀ lvs,
             bearsRun hubmetrics.FleetUpdateRunStageClusterUpdatingDurationSeconds_labels
               other lvs →
             hubmetrics.FleetUpdateRunStageClusterUpdatingDurationSeconds (metrics w') !! lvs
             = hubmetrics.FleetUpdateRunStageClusterUpdatingDurationSeconds (metrics w)
               !! lvs)
        ∧ hubmetrics.FleetPlacementStatusLastTimeStampSeconds (metrics w')
          = hubmetrics.FleetPlacementStatusLastTimeStampSeconds (metrics w)
        ∧ hubmetrics.FleetEvictionStatus (metrics w')
          = hubmetrics.FleetEvictionStatus (metrics w)
        ∧ hubmetrics.SchedulingCycleDurationMilliseconds (metrics w')
          = hubmetrics.SchedulingCycleDurationMilliseconds (metrics w)
        ∧ hubmetrics.SchedulerActiveWorkers (metrics w')
          = hubmetrics.SchedulerActiveWorkers (metrics w).
Proof.
  intros Hall Hother. destruct (emitAll_effect r es w Hall) as (w' & Hrun & Htouched & _).
  exists w'. split; [exact Hrun|].
  destruct Htouched as (H1 & H2 & H3 & H4 & H5 & H6 & H7).
  assert (Hdiff : ∀ variableLabels lvs,
             bearsRun variableLabels other lvs → ¬ bearsRun variableLabels r lvs).
  { intros variableLabels lvs [Hns Hname] [Hns' Hname']. apply Hother.
    split; congruence. }
  repeat split; try assumption; intros lvs Hb.
  - apply H1. by apply Hdiff.
  - apply H2. by apply Hdiff.
  - apply H3. by apply Hdiff.
Qed.

(** X13. The emitting functions only add: after any calls, every status
    series that existed still exists, and every series of the two histograms
    holds its former samples, in order, followed by the new ones. Series
    therefore accumulate until deleteUpdateRunMetrics removes them. *)
Theorem emissions_only_add (es : list Emission) (w : World) :
  ∃ w', emitAll es w = Some w' ∧ nothingLost w w'.
Proof.
  revert w. induction es as [|e rest IH]; intros w.
  - exists w. split; [reflexivity|]. apply (emitted_nothingLost testRun). constructor.
  - simpl. destruct (emitOne_emitted e w) as (w1 & -> & Hem). simpl.
    destruct (IH w1) as (w' & Hrun & Hkept). exists w'. split; [exact Hrun|].
    eapply nothingLost_trans; [|exact Hkept]. by apply (emitted_nothingLost (emissionRun e)).
Qed.
End Emissions.

Section DeleteTwice.
Import placementv1beta1 updaterun.

Lemma DeletePartialMatch_idempotent {M : Type} (variableLabels : list string)
      (labels : list (string * string)) (m : gmap (list string) M) :
  prometheus.DeletePartialMatch variableLabels labels
    (prometheus.DeletePartialMatch variableLabels labels m)
  = prometheus.DeletePartialMatch variableLabels labels m.
Proof.
  apply map_eq. intros lvs. rewrite !lookup_DeletePartialMatch.
  by destruct (prometheus.matchPartialLabels variableLabels lvs labels).
Qed.

Lemma DeletePartialMatch_comm {M : Type} (variableLabels : list string)
      (labels labels' : list (string * string)) (m : gmap (list string) M) :
  prometheus.DeletePartialMatch variableLabels labels
    (prometheus.DeletePartialMatch variableLabels labels' m)
  = prometheus.DeletePartialMatch variableLabels labels'
      (prometheus.DeletePartialMatch variableLabels labels m).
Proof.
  apply map_eq. intros lvs. rewrite !lookup_DeletePartialMatch.
  by destruct (prometheus.matchPartialLabels variableLabels lvs labels),
       (prometheus.matchPartialLabels variableLabels lvs labels').
Qed.

(** X14. deleteUpdateRunMetrics can be repeated and reordered: deleting a run
    twice is deleting it once, and deleting two runs gives the same world in
    either order. *)
Theorem deleteUpdateRunMetrics_idempotent_commutative (r r' : UpdateRunObj) (w : World) :
  deleteUpdateRunMetrics r (deleteUpdateRunMetrics r w) = deleteUpdateRunMetrics r w
  ∧ deleteUpdateRunMetrics r (deleteUpdateRunMetrics r' w)
    = deleteUpdateRunMetrics r' (deleteUpdateRunMetrics r w).
Proof.
  unfold deleteUpdateRunMetrics, setMetrics; simpl. split; f_equal.
  - apply Registry_eq; simpl; try reflexivity; apply DeletePartialMatch_idempotent.
  - apply Registry_eq; simpl; try reflexivity; apply DeletePartialMatch_comm.
Qed.

(** X15. The status gauge keeps the last time only: emitting the status of an
    unchanged run again, at a later or earlier time, leaves the metrics that
    the second emission alone would have left, so repeated reconciles of one
    run state hold one series, not one per call. *)
Theorem emitUpdateRunStatusMetric_last_wins (now1 now2 : Z) (r : UpdateRunObj) (w : World) :
  ∃ w1 w2 w2',
    emitUpdateRunStatusMetric now1 r w = Some w1
    ∧ emitUpdateRunStatusMetric now2 r w1 = Some w2
    ∧ emitUpdateRunStatusMetric now2 r w = Some w2'
    ∧ metrics w2 = metrics w2'.
Proof.
  unfold emitUpdateRunStatusMetric.
  destruct (atGeneration _ _) as [c|];
    [|destruct (atGeneration _ _) as [c|]; [|destruct (atGeneration _ _) as [c|]]].
  1-3: eexists _, _, _; rewrite !setStatusGauge_Some;
       (split; [reflexivity|]); (split; [reflexivity|]); (split; [reflexivity|]);
       unfold withStatusGauge, setMetrics; simpl;
       apply Registry_eq; simpl; try reflexivity; apply insert_insert_eq.
  eexists _, _, _. repeat split.
Qed.
End DeleteTwice.

Section EmissionScenarios.
Import placementv1beta1 updaterun.

Lemma testEmissions_allFor : allFor testRun testEmissions.
Proof. repeat constructor. Defined.

(** X11 on the four calls, from the world with the series of two runs. *)
Lemma delete_undoes_emissions_witness :
  ∃ w', emitAll testEmissions populatedWorld = Some w'
        ∧ metrics (deleteUpdateRunMetrics testRun w')
          = metrics (deleteUpdateRunMetrics testRun populatedWorld).
Proof. apply delete_undoes_emissions. exact testEmissions_allFor. Defined.

(** X12 on the four calls and run-2. *)
Lemma emissions_leave_other_runs_witness :
  ∃ w', emitAll testEmissions populatedWorld = Some w'
        ∧ hubmetrics.FleetUpdateRunApprovalRequestLatencySeconds (metrics w')
          !! ["test-ns"; "run-2"; "beforeStage"] = Some [sixtySeconds].
Proof.
  destruct (emissions_leave_other_runs testRun otherRun testEmissions populatedWorld
              testEmissions_allFor) as (w' & Hrun & _ & Happroval & _).
  - intros [_ Hname]. discriminate Hname.
  - exists w'. split; [exact Hrun|].
    rewrite (Happroval ["test-ns"; "run-2"; "beforeStage"]); [reflexivity|].
    split; reflexivity.
Defined.
End EmissionScenarios.

(* ===================================================================== *)
(** * Lemmas: more on the namespace-affinity plugin *)
(* ===================================================================== *)

Section PluginOptions.
Import framework namespaceaffinity.

Lemma last_cons_default (a : string) (l : list string) (d d' : string) :
  List.last (a :: l) d = List.last (a :: l) d'.
Proof.
  revert a. induction l as [|b l IH]; intros a; [reflexivity|].
  change (List.last (b :: l) d = List.last (b :: l) d'). apply IH.
Qed.

Lemma fold_WithName (names : list string) (o : namespaceAffinityPluginOptions) :
  optName (fold_left (λ o opt, opt o) (map WithName names) o)
  = List.last names (optName o).
Proof.
  revert o. induction names as [|n rest IH]; intros o; [reflexivity|].
  simpl fold_left. rewrite IH. simpl optName.
  destruct rest as [|m rest]; [reflexivity|].
  change (List.last (n :: m :: rest) (optName o)) with (List.last (m :: rest) (optName o)).
  apply last_cons_default.
Qed.

(** X16. New applies its options in order, so the last WithName wins: the
    plugin built from any list of WithName options is named after the last of
    them, and NamespaceAffinity when the list is empty. *)
Theorem New_last_WithName_wins (names : list string) :
  Name (New (map WithName names)) = List.last names "NamespaceAffinity".
Proof. unfold Name, New. simpl. apply fold_WithName. Qed.

(** X17. Filter rejects only as ClusterUnschedulable, in the name of the
    plugin and without a wrapped error: it never returns a Skip, Success or
    InternalError status; and a nil inventory is treated as an inventory
    without the namespace, with a reason of its own. *)
Theorem Filter_rejects_only_unschedulable (condType : string) (p : Plugin)
        (ps : placementv1beta1.PolicySnapshotObj)
        (cluster : clusterv1beta1.MemberCluster) (st : Status) :
  Filter condType p ps cluster = Some st →
  code st = ClusterUnschedulable
  ∧ pluginName st = Name p
  ∧ cause st = None
  ∧ carriesCondition condType cluster
  ∧ (message st = "cluster has no namespace information available"
     ∨ message st = "target namespace does not exist on cluster").
Proof.
  unfold Filter, carriesCondition. rewrite FindStatusCondition_present.
  destruct (meta.FindStatusCondition _ condType) as [c|]; [|discriminate].
  destruct (clusterv1beta1.Namespaces _) as [inv|].
  - destruct (inv !! _); [discriminate|]. intros [= <-]. simpl.
    repeat split; [by eexists | by right].
  - intros [= <-]. simpl. repeat split; [by eexists | by left].
Qed.

(** X18. A larger inventory never hurts: if Filter lets a cluster pass, it
    lets pass every cluster with the same conditions whose inventory holds
    at least the same namespaces. *)
Theorem Filter_inventory_monotone (condType : string) (p : Plugin)
        (ps : placementv1beta1.PolicySnapshotObj)
        (cluster cluster' : clusterv1beta1.MemberCluster)
        (inventory inventory' : gmap string string) :
  clusterv1beta1.Conditions (clusterv1beta1.Status cluster')
  = clusterv1beta1.Conditions (clusterv1beta1.Status cluster) →
  clusterv1beta1.Namespaces (clusterv1beta1.Status cluster) = Some inventory →
  clusterv1beta1.Namespaces (clusterv1beta1.Status cluster') = Some inventory' →
  dom inventory ⊆ dom inventory' →
  Filter condType p ps cluster = None →
  Filter condType p ps cluster' = None.
Proof.
  unfold Filter. intros -> -> -> Hsub.
  destruct (meta.FindStatusCondition _ condType) as [c|]; [|done].
  destruct (inventory !! _) as [work|] eqn:Hwork; [|discriminate]. intros _.
  assert (Hin : placementv1beta1.GetNamespace ps ∈ dom inventory')
    by (apply Hsub, elem_of_dom; by eexists).
  apply elem_of_dom in Hin as [work' ->]. reflexivity.
Qed.
End PluginOptions.

Section PluginScenarios.
Import framework namespaceaffinity.

(** X16 on the options of the unit test and on two names in a row. *)
Lemma New_last_WithName_wins_witness :
  Name (New [WithName "CustomNamespaceAffinity"]) = "CustomNamespaceAffinity"
  ∧ Name (New [WithName "a"; WithName "b"]) = "b"
  ∧ Name (New []) = "NamespaceAffinity".
Proof.
  split; [|split].
  - apply (New_last_WithName_wins ["CustomNamespaceAffinity"]).
  - apply (New_last_WithName_wins ["a"; "b"]).
  - apply (New_last_WithName_wins []).
Defined.

(** X17 on the cluster of the unit test that collects but has no inventory. *)
Lemma Filter_rejects_only_unschedulable_witness :
  code {| code := ClusterUnschedulable; pluginName := "NamespaceAffinity";
          message := "cluster has no namespace information available";
          cause := None |} = ClusterUnschedulable
  ∧ carriesCondition testCondType
      (testCluster [testCollectionCondition metav1.ConditionTrue] None).
Proof.
  destruct (Filter_rejects_only_unschedulable testCondType (New []) testSnapshot
              (testCluster [testCollectionCondition metav1.ConditionTrue] None)
              {| code := ClusterUnschedulable; pluginName := "NamespaceAffinity";
                 message := "cluster has no namespace information available";
                 cause := None |} eq_refl) as (Hcode & _ & _ & Hcarries & _).
  split; [exact Hcode | exact Hcarries].
Defined.

(** X18 on the inventories of the unit tests: the one with both namespaces
    holds what the one with the empty work name holds. *)
Lemma Filter_inventory_monotone_witness :
  Filter testCondType (New []) testSnapshot
    (testCluster [testCollectionCondition metav1.ConditionTrue]
       (Some {["test-namespace" := "work-1"; "other-namespace" := "work-2"]}))
  = None.
Proof.
  apply (Filter_inventory_monotone testCondType (New []) testSnapshot
           (testCluster [testCollectionCondition metav1.ConditionTrue]
              (Some {["test-namespace" := ""]}))
           _ {["test-namespace" := ""]}
           {["test-namespace" := "work-1"; "other-namespace" := "work-2"]}).
  - reflexivity.
  - reflexivity.
  - reflexivity.
  - rewrite dom_singleton_L, !dom_insert_L. set_solver.
  - reflexivity.
Defined.
End PluginScenarios.

Section ThrottlingDisabled.
Import options.

(** The conversion of a non-negative integer is not negative: it is a zero,
    a finite value or an infinity of positive sign (or no number). *)
Lemma of_int_nonneg (b : Z) :
  0 ≤ b →
  float64.of_int b = S754_zero false
  ∨ (∃ m e, float64.of_int b = S754_finite false m e)
  ∨ float64.of_int b = S754_infinity false
  ∨ float64.of_int b = S754_nan.
Proof.
  intros Hb. destruct b as [|p|p]; [by left | | lia].
  unfold float64.of_int, binary_normalize, binary_round.
  destruct (shl_align _ _ _) as [mz ez]. unfold binary_round_aux.
  destruct (shr_fexp _ _ _ _ _) as [mrs' e'].
  destruct (shr_fexp _ _ _ _ _) as [mrs'' e''].
  destruct (shr_m mrs'') as [|m|m].
  - by left.
  - destruct (Z.leb _ _); [right; left; by eexists _, _ | right; right; by left].
  - by repeat right.
Qed.

Lemma reports_HubBurst (o : Options) :
  reports ["Options"; "HubBurst"] (Validate o)
  = float64.ltb (float64.of_int (HubBurst (CtrlMgrOpts o))) (HubQPS (CtrlMgrOpts o)).
Proof.
  unfold Validate.
  destruct (float64.ltb _ _); destruct (EnableWebhooks _ && _);
    destruct (UseCertManager _ && _); destruct (negb _ && _);
    destruct (_ >=? _); destruct (_ >? _); reflexivity.
Qed.

(** X19. With client-side throttling disabled, that is with the -1 that the
    hub-api-qps flag stores for a negative input, Validate reports no
    HubBurst error for any burst that is not negative. *)
Theorem Validate_accepts_burst_when_throttling_disabled (o : Options) :
  HubQPS (CtrlMgrOpts o) = float64.of_int (-1) →
  0 ≤ HubBurst (CtrlMgrOpts o) →
  reports ["Options"; "HubBurst"] (Validate o) = false.
Proof.
  intros Hqps Hburst. rewrite reports_HubBurst, Hqps.
  destruct (of_int_nonneg _ Hburst) as [->|[(m & e & ->)|[->| ->]]]; reflexivity.
Qed.
End ThrottlingDisabled.

Section ThrottlingDisabledScenario.
Import options.

(** X19 on the options with -1 and a burst of 10. *)
Lemma Validate_accepts_burst_when_throttling_disabled_witness :
  reports ["Options"; "HubBurst"] (Validate throttlingDisabledOptions) = false.
Proof.
  apply Validate_accepts_burst_when_throttling_disabled; [reflexivity|].
  simpl. lia.
Defined.
End ThrottlingDisabledScenario.
